(* ===== verification/_CoqProject ===== *)
-Q . S2P
Prelude.v
Model.v
Strconv.v
Samples.v
CheckIn.v
UserStatus.v
Regroup.v
Report.v
Register.v
Admin.v
Date.v
Invariants.v
Codes.v
