(* ===== verification/Prelude.v ===== *)
(** * Walk-server: a verification development of the walk-event backend

    The repository (Go, gin + GORM + Redis) runs a campus hiking event:
    participants register, form teams, and administrators posted at the
    waypoints of five routes scan team QR codes to check teams in.  The
    hard part is the check-in state machine of
    src/controller/admin/team.go together with the per-member walk
    status of src/controller/admin/user.go.

    ** How the program is modelled

    - The database is a [World] (Model.v): the [people] and [teams]
      tables as stdpp [gmap]s keyed by their primary keys (open_id, id),
      the admin table, the Redis set "teams", the team id counter and the
      clock [time.Now()] reads.  [Person.t] is model.Person
      (src/model/person.go, with the WalkStatus and Type columns the
      handlers read); [Team.t] and [Admin.t] carry the fields the
      handlers use.  Go's fixed-width integers stay at their width where
      it matters: [u8] and [i8] (this file) write out the wrap-around of
      [uint8] and [int8].
    - A handler is a value of [handler World Resp unit] (this file): a
      state monad over the [World] that also accumulates the JSON
      responses written to the gin context and can panic.  Each Go
      [ResponseError ...; return] is a [respond_error] that ends the
      handler; the guards are written in the source's order, so a model
      run is the handler's run.
    - The service layer (src/service/teamService/update.go and the
      lookups GetTeamByID, GetTeamByCode, GetTeamByCaptain, GetPerson)
      is a set of functions on [World] (Model.v).  The lookups, the
      [userService.Update] upsert and the response helpers are not under
      src/ and are modelled from their GORM meaning; [First]/[Take] are
      taken to return the row of least id.
    - What lives outside src/ and is configuration, [constant.PointMap],
      [constant.GetPointName], [middleware.CheckRoute] and the server
      secret, is the class
      [WalkConfig] (Model.v): every theorem holds for every instance;
      Samples.v gives one instance and small databases for the witnesses.
    - Go's [strconv.ParseUint] and [strconv.Itoa], through which team ids
      travel in QR codes and in Redis, are modelled in Strconv.v from
      their documented behaviour.

    ** Files

    - Prelude.v: the integer conversions, [count_if], the handler monad
      with its notation [let! x := m in k] (scope [handler_scope]) and its
      laws as rewrite rules (database [walk_rw]), [save_list] (a loop of
      saves into a table), [rows_moved] (a row-by-row relation between
      two tables) and [keeps_at] (a handler run keeps a state invariant).
    - Model.v: records, [World], responses, service layer, the
      well-keyedness of a database ([keyed]) and the store lemmas.
    - Strconv.v: ParseUint and Itoa (Go's library, from its
      documentation; no theorem is about them).
    - Samples.v: the sample configuration and databases.
    - CheckIn.v: GetTeam, BindTeam, UpdateTeamStatus and PostDestination
      (team.go lines 20-334) and their theorems.
    - UserStatus.v: UserStatus and getUsersAndTeams (user.go); the Go map
      iteration order of its check loop is a section variable, any
      permutation of the map's entries.
    - Regroup.v: Regroup and SubmitTeam (team.go lines 336-491).  The
      scan loop [scan_jwts], the dissolution loop body [dissolve] and the
      assignment loop [assign_members] are separate definitions composed
      as the handler composes them.  The JWT check [utility.ParseToken]
      is a section variable (token to open id); [GetPersonsInTeam],
      outside src/, returns the member of status 2 (or the Go zero
      [Person]) and the other members.  The loops' effects on the
      database are described by [leave] and [dissolved], and the lemmas
      [dissolve_run] and [Regroup_cases] show that the handler computes
      them.
    - Report.v: the reporting handlers GetDetail, GetSubmitDetail with
      getTeamStats, and GetTeamBySecret (team.go lines 492-833).  Each SQL
      query is a count over the joined people and teams rows ([joined])
      with the source's WHERE clause as a boolean predicate; GetDetail's
      slot array is built with Go's [make] and index assignments
      ([go_make], [go_set] in this file: out-of-range panics are kept).
    - Register.v: StudentRegister (controller/register/student_register.go).
      The JWT check and the OAuth service [oauth.GetUserInfo] are section
      variables; the service's answer is [OAuthResult], with the sentinel
      errors of [oauthException] as constructors; the INSERT fails on a
      taken open id.
    - Admin.v: CreateRouteAdmin, processData, generateRandomString
      (controller/admin/admin.go).  [crypto/rand.Read] is a section
      variable indexed by the number of the call; the closure's [return]
      leaves only [processData], as in Go.
    - Date.v: GetCurrentDate, CanOpenApi and CanSubmit (utility/date.go),
      with the clock, the parsed start date and the time zone as inputs.
    - Invariants.v: the data-model invariant of the specification
      ([consistent]), the router ([Request], [serve]: every handler on
      every request), the step relation [step] (one request served) and
      reachability as its reflexive-transitive closure.  Each handler
      keeps the invariant ([keeps_at], this file: a run from a state of
      the invariant ends in one, panics included).
    - Codes.v: the walk statuses and team statuses stay codes 1 to 5
      ([codes_ok]), by the same rule induction.

    ** What is proved

    - Functional behaviour of every branch of the check-in handlers:
      check-in at a waypoint, closing a team nobody walks in any more,
      refusal of unstarted and ended teams, start with quorum, finish.
    - Refinement: every run of a check-in handler moves team rows along
      an abstract status machine ([status_step]) and member rows along a
      walk-status machine ([walk_step]), never creating or deleting a
      row; closed teams are left alone by check-ins and finish scans.
    - Error atomicity: each check-in handler and UserStatus answers
      exactly once, and an error answer means no write (Regroup and
      CreateRouteAdmin can answer twice; see below).
    - UserStatus: its effect, its safety (finished members and members of
      other routes are never touched), and independence from the Go map
      iteration order.
    - Equivalence of BindTeam's loop with [break] and a reference count;
      the uint8 bounds of the quorum test; BindTeam accepts whenever its
      guards pass, whatever the team's status, and the code it binds
      then identifies the started team in a waypoint scan.
    - Regroup: started teams and their members are never touched
      ([frozen]); the effect of a regrouping of distinct participants
      (new team, captain and members, dissolved former teams, reset
      members); writes happen only on the success path, whose response
      always carries team id 0; SubmitTeam's effect.
    - Reporting: GetDetail's imperative array equals a closed form slot
      by slot ([route_points_eq]) and counts nobody twice; the team types
      of GetSubmitDetail partition the submitted teams and their members.
    - Invariant: in every database reachable from a consistent one, a
      person's TeamId is -1 or an existing team, and a team's StartNum
      is at most its member count (specification, section 3), given JWTs
      with non-empty open ids; proved by rule induction on [step], one
      lemma per handler.  The status columns likewise stay codes 1..5.
    - Registration: its effect, the refusal of a registered identity
      number or telephone number, and that it keeps them unique.  Route admins: the admin rows
      CreateRouteAdmin makes (point, route index, six-letter password).
      GetCurrentDate as whole days modulo 256.
    - The behaviours recorded as findings, each as a theorem over every
      database or input: the uint8 wrap of the quorum test (a team of
      size 255 whose members all withdrew is started), BindTeam's lack
      of a status guard, the duplicate scan in Regroup that answers
      twice and demotes the captain, a wrong password answered as a
      system error, the bias of the password alphabet (counted over the
      256 values of a byte through [generateRandomString]), and an admin
      batch answered with an error and then a success.  Others are read
      off the functional theorems: the waypoint a check-in stores
      (UpdateTeamStatus_checkin), the finish of an unstarted team
      (PostDestination_confirm), the unchecked form status
      (UserStatus_success) and the slots of GetDetail (GetDetail_spec).

    No definition needs fuel: every loop is a structural recursion over
    the list the Go loop ranges over.

    ** Not modelled

    The WeChat OAuth call (utility/wechat.go: one HTTP request), JWT
    parsing (a parameter), the HTTP routing and middleware (outside src/;
    [serve] dispatches a request to its handler), and database failures:
    every database operation succeeds, so the [ErrService] branch of
    Regroup is unreachable in the model, and CreateRouteAdmin's
    [ErrDatabase] arises only from an empty batch, which GORM refuses. *)

From Stdlib Require Import ZArith Lia.
From stdpp Require Import base gmap strings list.

(** ** Go fixed-width integers

    The handlers store waypoint indices in [int8] and member counts in
    [uint8]; a Go conversion [uint8(x)] or an [int8] subtraction wraps
    around.  [u8] and [i8] write the wrap-around out on [Z]. *)

Definition u8 (z : Z) : Z := (z mod 256)%Z.
Definition i8 (z : Z) : Z := ((z + 128) mod 256 - 128)%Z.
Definition u32_max : Z := 4294967295%Z.

(** ** Boolean counting over lists (the handlers' [num++] loops) *)

Fixpoint count_if {A} (P : A -> bool) (l : list A) : nat :=
  match l with
  | [] => 0
  | x :: l' => (if P x then 1 else 0) + count_if P l'
  end.

(** ** A small handler monad

    A Go HTTP handler reads and writes the database, writes JSON
    responses to the gin context and may panic.  [handler S R A] is a
    state-and-output computation over a store [S] producing responses
    [R]; [None] as the first component is a Go panic (gin's recovery
    middleware answers 500): the writes done before the panic stay. *)

Section Handler.
Context {S R : Type}.

Definition handler (A : Type) : Type := S -> option A * S * list R.

Definition hret {A} (a : A) : handler A := fun s => (Some a, s, []).

Definition hbind {A B} (m : handler A) (k : A -> handler B) : handler B :=
  fun s =>
    match m s with
    | (Some a, s1, o1) =>
        match k a s1 with (r, s2, o2) => (r, s2, o1 ++ o2) end
    | (None, s1, o1) => (None, s1, o1)
    end.

Definition hget : handler S := fun s => (Some s, s, []).
Definition hmodify (f : S -> S) : handler unit := fun s => (Some tt, f s, []).
Definition hemit (r : R) : handler unit := fun s => (Some tt, s, [r]).
Definition hpanic {A} : handler A := fun s => (None, s, []).

(** [for _, x := range l { body(x) }] *)
Fixpoint hfor {A} (l : list A) (body : A -> handler unit) : handler unit :=
  match l with
  | [] => hret tt
  | x :: l' => hbind (body x) (fun _ => hfor l' body)
  end.
End Handler.

Arguments handler : clear implicits.

Declare Scope handler_scope.
Delimit Scope handler_scope with handler.
Notation "'let!' x := m 'in' k" := (hbind m (fun x => k))
  (at level 10, x name, m at level 100, k at level 200) : handler_scope.
Notation "'let!' ' p := m 'in' k" := (hbind m (fun x => match x with p => k end))
  (at level 10, p pattern, m at level 100, k at level 200) : handler_scope.

(** ** Monad laws, as rewrite rules that run a handler step by step *)

Section HandlerLaws.
Context {S R : Type}.

Lemma hbind_ret {A B} (a : A) (k : A -> handler S R B) s :
  hbind (hret a) k s = k a s.
Proof. unfold hbind, hret. by destruct (k a s) as [[??]?]. Qed.

Lemma hbind_modify {B} f (k : unit -> handler S R B) s :
  hbind (hmodify f) k s = k tt (f s).
Proof. unfold hbind, hmodify. by destruct (k tt (f s)) as [[??]?]. Qed.

Lemma hbind_get {B} (k : S -> handler S R B) s :
  hbind hget k s = k s s.
Proof. unfold hbind, hget. by destruct (k s s) as [[??]?]. Qed.

Lemma hbind_emit {B} r (k : unit -> handler S R B) s :
  hbind (hemit r) k s = (let '(x, s', o) := k tt s in (x, s', r :: o)).
Proof. unfold hbind, hemit. by destruct (k tt s) as [[??]?]. Qed.

Lemma hbind_panic {A B} (k : A -> handler S R B) s :
  hbind hpanic k s = (None, s, []).
Proof. done. Qed.

Lemma hbind_assoc {A B C} (m : handler S R A) (k : A -> handler S R B)
      (k' : B -> handler S R C) s :
  hbind (hbind m k) k' s = hbind m (fun a => hbind (k a) k') s.
Proof.
  unfold hbind. destruct (m s) as [[[a|] s1] o1]; [|done].
  destruct (k a s1) as [[[b|] s2] o2]; [|done].
  destruct (k' b s2) as [[r s3] o3]. by rewrite app_assoc.
Qed.

(** Running a handler that ends normally after [m] *)
Lemma hbind_some {A B} (m : handler S R A) (k : A -> handler S R B) s a s1 o1 :
  m s = (Some a, s1, o1) ->
  hbind m k s = (let '(x, s2, o2) := k a s1 in (x, s2, o1 ++ o2)).
Proof. intros E. unfold hbind. rewrite E. by destruct (k a s1) as [[??]?]. Qed.
(** A loop whose body runs silently as [g] on states satisfying [I], and
    keeps [I], runs as the left fold of [g]. *)
Lemma hfor_run {A} (I : S -> Prop) (l : list A) (body : A -> handler S R unit)
      (g : S -> A -> S) s :
  I s -> (forall x s, I s -> body x s = (Some tt, g s x, []) /\ I (g s x)) ->
  hfor l body s = (Some tt, foldl g s l, []) /\ I (foldl g s l).
Proof.
  intros Hs Hb. revert s Hs. induction l as [|x l IH]; intros s Hs; [done|].
  simpl. destruct (Hb x s Hs) as [E Hg].
  rewrite (hbind_some _ _ _ _ _ _ E). destruct (IH _ Hg) as [-> ?]. done.
Qed.
(** A run that ends normally is a normal run of both halves. *)
Lemma hbind_Some_inv {A B} (m : handler S R A) (k : A -> handler S R B) s b s2 o :
  hbind m k s = (Some b, s2, o) ->
  exists a s1 o1 o2, m s = (Some a, s1, o1) /\ k a s1 = (Some b, s2, o2) /\ o = o1 ++ o2.
Proof.
  unfold hbind. destruct (m s) as [[[a|] s1] o1]; [|discriminate].
  destruct (k a s1) as [[[r|] s2'] o2] eqn:E; intros [=]; subst. eauto 10.
Qed.

(** Handlers that never change the state *)
Definition readonly {A} (m : handler S R A) : Prop := forall s, (m s).1.2 = s.

Lemma readonly_ret {A} (a : A) : readonly (hret a).
Proof. done. Qed.
Lemma readonly_emit r : readonly (hemit r).
Proof. done. Qed.
Lemma readonly_panic {A} : readonly (@hpanic S R A).
Proof. done. Qed.
Lemma readonly_bind {A B} (m : handler S R A) (k : A -> handler S R B) :
  readonly m -> (forall a, readonly (k a)) -> readonly (hbind m k).
Proof.
  intros Hm Hk s. unfold hbind. specialize (Hm s).
  destruct (m s) as [[[a|] s1] o1]; simpl in *; [|done].
  specialize (Hk a s1). destruct (k a s1) as [[??]?]. simpl in *. congruence.
Qed.

(** [m], started in [s], keeps the state invariant [I]: a run from a state
    of [I] ends (normally or in a panic) in a state of [I]. *)
Definition keeps_at {A} (I : S -> Prop) (m : handler S R A) (s : S) : Prop :=
  I s -> I (m s).1.2.

Lemma keeps_at_readonly {A} I (m : handler S R A) s : readonly m -> keeps_at I m s.
Proof. intros Hm HI. unfold keeps_at. by rewrite Hm. Qed.
Lemma keeps_at_ret {A} I (a : A) s : keeps_at I (hret a) s.
Proof. unfold keeps_at; simpl; auto. Qed.
Lemma keeps_at_emit I r s : keeps_at I (hemit r) s.
Proof. unfold keeps_at; simpl; auto. Qed.
Lemma keeps_at_panic {A} I s : keeps_at I (@hpanic S R A) s.
Proof. unfold keeps_at; simpl; auto. Qed.
Lemma keeps_at_get {B} I (k : S -> handler S R B) s :
  keeps_at I (k s) s -> keeps_at I (hbind hget k) s.
Proof. unfold keeps_at. by rewrite hbind_get. Qed.
Lemma keeps_at_modify {B} I g (k : unit -> handler S R B) s :
  (I s -> I (g s)) -> keeps_at I (k tt) (g s) -> keeps_at I (hbind (hmodify g) k) s.
Proof. unfold keeps_at. rewrite hbind_modify. auto. Qed.
Lemma keeps_at_bind {A B} I (m : handler S R A) (k : A -> handler S R B) s :
  keeps_at I m s ->
  (forall a s1 o1, m s = (Some a, s1, o1) -> keeps_at I (k a) s1) ->
  keeps_at I (hbind m k) s.
Proof.
  intros Hm Hk HI. specialize (Hm HI). unfold hbind.
  destruct (m s) as [[[a|] s1] o1]; simpl in *; [|done].
  specialize (Hk a s1 o1 eq_refl Hm). destruct (k a s1) as [[??]?]. done.
Qed.
End HandlerLaws.

(** ** Automation *)

Create HintDb walk.
Create Rewrite HintDb walk_rw.

#[export] Hint Resolve readonly_ret readonly_emit readonly_panic readonly_bind : walk.
#[export] Hint Resolve keeps_at_ret keeps_at_emit keeps_at_panic keeps_at_get : walk.

(** Case analysis on the scrutinees of the goal's [match]es *)
Ltac case_goal :=
  match goal with |- context [match ?x with _ => _ end] =>
    let E := fresh "E" in destruct x eqn:E end.

Ltac bool_cases :=
  repeat match goal with
  | |- context [if ?b then _ else _] =>
      lazymatch b with
      | context [if _ then _ else _] => fail
      | _ => destruct b eqn:?
      end
  end.

(** ** Lemmas on the integer conversions *)

Section IntConv.
Local Open Scope Z_scope.

Lemma u8_range z : 0 <= u8 z < 256.
Proof. unfold u8. apply Z.mod_pos_bound. lia. Qed.

Lemma u8_small z : 0 <= z < 256 -> u8 z = z.
Proof. intros. unfold u8. apply Z.mod_small. lia. Qed.

Lemma i8_range z : -128 <= i8 z < 128.
Proof. unfold i8. pose proof (Z.mod_pos_bound (z + 128) 256). lia. Qed.

Lemma i8_small z : -128 <= z < 128 -> i8 z = z.
Proof. intros. unfold i8. rewrite Z.mod_small; lia. Qed.

End IntConv.

#[export] Hint Resolve u8_range i8_range : walk.

(** ** Lemmas on [count_if] *)

Lemma count_if_app {A} (P : A -> bool) l1 l2 :
  count_if P (l1 ++ l2) = (count_if P l1 + count_if P l2)%nat.
Proof. induction l1 as [|x l1 IH]; simpl; [done|]. rewrite IH. lia. Qed.

Lemma count_if_le_length {A} (P : A -> bool) l : (count_if P l <= length l)%nat.
Proof. induction l as [|x l IH]; simpl; [lia|]. destruct (P x); lia. Qed.

Lemma count_if_zero {A} (P : A -> bool) l :
  count_if P l = 0%nat <-> Forall (fun x => P x = false) l.
Proof.
  induction l as [|x l IH]; simpl; [split; auto|].
  rewrite Forall_cons, <- IH.
  destruct (P x); split; [lia | intros [? _]; discriminate | |]; intuition lia.
Qed.

Lemma count_if_ext {A} (P Q : A -> bool) l :
  (forall x, x ∈ l -> P x = Q x) -> count_if P l = count_if Q l.
Proof.
  induction l as [|x l IH]; intros H; simpl; [done|].
  rewrite (H x) by set_solver. rewrite IH by set_solver. done.
Qed.

Lemma count_if_Permutation {A} (P : A -> bool) l1 l2 :
  l1 ≡ₚ l2 -> count_if P l1 = count_if P l2.
Proof. induction 1; simpl; lia. Qed.

Lemma count_if_filter {A} (P Q : A -> bool) l :
  count_if Q (List.filter P l) = count_if (fun x => P x && Q x) l.
Proof. induction l as [|x l IH]; simpl; [done|]. destruct (P x); simpl; lia. Qed.

Lemma count_if_split {A} (P Q : A -> bool) l :
  (count_if (fun x => P x && Q x) l + count_if (fun x => P x && negb (Q x)) l)%nat =
  count_if P l.
Proof. induction l as [|x l IH]; simpl; [done|]. destruct (P x), (Q x); simpl; lia. Qed.

Lemma count_if_mono {A} (P Q : A -> bool) l :
  (forall x, P x = true -> Q x = true) -> (count_if P l <= count_if Q l)%nat.
Proof.
  intros HPQ. induction l as [|x l IH]; simpl; [lia|].
  destruct (P x) eqn:E; [rewrite (HPQ x E)|destruct (Q x)]; lia.
Qed.

Lemma count_if_orb {A} (P Q : A -> bool) l :
  (forall x, P x = true -> Q x = false) ->
  count_if (fun x => P x || Q x) l = (count_if P l + count_if Q l)%nat.
Proof.
  intros Hd. induction l as [|x l IH]; simpl; [done|].
  destruct (P x) eqn:E; [rewrite (Hd x E)|]; destruct (Q x); simpl; lia.
Qed.

#[export] Hint Rewrite @count_if_app : walk_rw.
#[export] Hint Rewrite @hbind_ret @hbind_modify @hbind_get @hbind_emit @hbind_panic @hbind_assoc : walk_rw.

Lemma elem_of_List_filter {A} (f : A -> bool) (l : list A) x :
  x ∈ List.filter f l <-> x ∈ l /\ f x = true.
Proof. rewrite !list_elem_of_In. apply filter_In. Qed.

(** ** Saving a list of rows into a table

    [for _, v := range vs { if v' := f(v) ...; Save(v') }]: each saved row
    is written under its own primary key [key v']; [f] keeps the key. *)

(** Two elements of a list whose images are distinct are equal when
    their images are. *)
Lemma NoDup_fmap_inj_on {A B} (g : A -> B) (l : list A) x y :
  NoDup (g <$> l) -> x ∈ l -> y ∈ l -> g x = g y -> x = y.
Proof.
  induction l as [|a l IH]; simpl; [set_solver|].
  intros [Hn Hnd]%NoDup_cons Hx Hy Hg.
  apply elem_of_cons in Hx as [->|Hx], Hy as [->|Hy]; auto.
  - destruct Hn. rewrite Hg. by apply list_elem_of_fmap_2.
  - destruct Hn. rewrite <-Hg. by apply list_elem_of_fmap_2.
Qed.

Lemma triple_eta {A B C} (x : A * B * C) : x = (x.1.1, x.1.2, x.2).
Proof. by destruct x as [[??]?]. Qed.

Section SaveList.
Context {K V : Type} `{Countable K} (key : V -> K) (f : V -> option V).
Hypothesis f_key : forall v v', f v = Some v' -> key v' = key v.

Definition save_list (vs : list V) (m : gmap K V) : gmap K V :=
  foldl (fun m v => match f v with Some v' => <[key v' := v']> m | None => m end) m vs.

Lemma save_list_cons v vs m :
  save_list (v :: vs) m =
  save_list vs (match f v with Some v' => <[key v' := v']> m | None => m end).
Proof. done. Qed.

Lemma save_list_notin vs m k :
  k ∉ key <$> vs -> save_list vs m !! k = m !! k.
Proof.
  revert m. induction vs as [|v vs IH]; intros m Hk; [done|].
  rewrite save_list_cons, IH by set_solver.
  destruct (f v) as [v'|] eqn:Hf; [|done].
  rewrite lookup_insert_ne; [done|]. rewrite (f_key _ _ Hf). set_solver.
Qed.

Lemma save_list_in vs m k v :
  v ∈ vs -> key v = k -> (forall u, u ∈ vs -> key u = k -> u = v) ->
  save_list vs m !! k = match f v with Some v' => Some v' | None => m !! k end.
Proof.
  revert m. induction vs as [|u vs IH]; intros m Hin Hk Huniq;
    [by apply not_elem_of_nil in Hin|].
  rewrite save_list_cons.
  destruct (decide (k ∈ key <$> vs)) as [Hv|Hv].
  - apply list_elem_of_fmap in Hv as (w & -> & Hw).
    assert (w = v) as -> by (apply Huniq; set_solver).
    rewrite IH by (done || set_solver).
    destruct (f v) as [v'|] eqn:Hfv; [done|].
    destruct (f u) as [u'|] eqn:Hfu; [|done].
    rewrite lookup_insert_ne; [done|]. rewrite (f_key _ _ Hfu). intros Hu.
    assert (u = v) by (apply Huniq; set_solver). congruence.
  - assert (u = v) as ->.
    { apply elem_of_cons in Hin as [->|Hin]; [done|].
      destruct Hv. apply list_elem_of_fmap. eauto. }
    rewrite save_list_notin by done.
    destruct (f v) as [v'|] eqn:Hfv; [|done].
    rewrite (f_key _ _ Hfv), Hk. apply lookup_insert_eq.
Qed.
End SaveList.

(** ** Go slices

    [make([]T, n)] and the assignment [s[i] = x] panic on a negative
    length and on an index out of range; [None] is the panic. *)

Definition go_make {A} (z : A) (n : Z) : option (list A) :=
  if (n <? 0)%Z then None else Some (replicate (Z.to_nat n) z).

Definition go_set {A} (s : list A) (i : Z) (x : A) : option (list A) :=
  if (0 <=? i)%Z && (i <? Z.of_nat (length s))%Z then Some (<[Z.to_nat i := x]> s) else None.

Lemma go_set_in {A} (s : list A) i x :
  (0 <= i < Z.of_nat (length s))%Z -> go_set s i x = Some (<[Z.to_nat i := x]> s).
Proof.
  intros Hi. unfold go_set.
  by rewrite (proj2 (Z.leb_le _ _)), (proj2 (Z.ltb_lt _ _)) by lia.
Qed.

Lemma go_make_nonneg {A} (z : A) n :
  (0 <= n)%Z -> go_make z n = Some (replicate (Z.to_nat n) z).
Proof. intros Hn. unfold go_make. by rewrite (proj2 (Z.ltb_ge _ _)) by lia. Qed.

(** ** Row-by-row relations between two tables

    [rows_moved R m m']: the same keys, and every row of [m'] is related
    by [R] to the row of [m] under the same key. *)

Definition rows_moved {K V} `{Countable K} (R : V -> V -> Prop) (m m' : gmap K V) : Prop :=
  forall k, match m !! k, m' !! k with
            | Some v, Some v' => R v v'
            | None, None => True
            | _, _ => False
            end.

Section RowsMoved.
Context {K V : Type} `{Countable K} (R : V -> V -> Prop).

Lemma rows_moved_refl (m : gmap K V) : (forall v, R v v) -> rows_moved R m m.
Proof. intros HR k. destruct (m !! k); auto. Qed.

Lemma rows_moved_insert (m : gmap K V) k v v' :
  (forall v, R v v) -> m !! k = Some v -> R v v' -> rows_moved R m (<[k := v']> m).
Proof.
  intros HR Hk Hv j. destruct (decide (j = k)) as [->|Hne].
  - by rewrite Hk, lookup_insert_eq.
  - rewrite lookup_insert_ne by done. destruct (m !! j); auto.
Qed.

Lemma rows_moved_fmap (m : gmap K V) g : (forall v, R v (g v)) -> rows_moved R m (g <$> m).
Proof. intros Hg k. rewrite lookup_fmap. destruct (m !! k); simpl; auto. Qed.
End RowsMoved.
