(* ===== verification/Model.v ===== *)
(** * The data model: records, the database, the service layer

    [Person] follows src/model/person.go (with the [WalkStatus] and
    [Type] columns the handlers read); [Team] and [Admin] follow the
    fields the handlers of src/controller/admin/ use.  The database is a
    [World]: the [people] and [teams] tables as stdpp maps keyed by their
    primary keys, the Redis set "teams", the admin table and the clock
    that [time.Now()] reads.  The service layer (src/service/teamService/
    update.go and the lookups the handlers call) is a set of functions on
    [World].  The constants and middleware that live outside src/
    ([constant.PointMap], [middleware.CheckRoute], the server secret) are
    the class [WalkConfig]: every theorem holds for every configuration. *)

From Stdlib Require Import ZArith Lia.
From stdpp Require Import base gmap strings list.
From S2P Require Import Prelude.

Local Open Scope Z_scope.

(** ** Records *)

Module Person.
(** src/model/person.go [type Person struct] *)
Record t := mk {
  OpenId : string;
  Name : string;
  Gender : Z;        (* int8 *)
  StuId : string;
  Campus : Z;        (* uint8 *)
  Identity : string;
  Status : Z;        (* uint8: 0 no team, 1 member, 2 captain *)
  Qq : string;
  Wechat : string;
  College : string;
  Tel : string;
  CreatedOp : Z;
  JoinOp : Z;
  TeamId : Z;        (* int, -1 = no team *)
  WalkStatus : Z;    (* uint8, codes 1..5 *)
  PType : Z          (* the [Type] column: 1 student, 2 teacher, 3 alumnus *)
}.

Definition set_walk (ws : Z) (p : t) : t :=
  mk p.(OpenId) p.(Name) p.(Gender) p.(StuId) p.(Campus) p.(Identity) p.(Status)
     p.(Qq) p.(Wechat) p.(College) p.(Tel) p.(CreatedOp) p.(JoinOp) p.(TeamId)
     ws p.(PType).

(** [p.TeamId = tid; p.Status = st] *)
Definition set_team (tid st : Z) (p : t) : t :=
  mk p.(OpenId) p.(Name) p.(Gender) p.(StuId) p.(Campus) p.(Identity) st
     p.(Qq) p.(Wechat) p.(College) p.(Tel) p.(CreatedOp) p.(JoinOp) tid
     p.(WalkStatus) p.(PType).
End Person.

Module Team.
(** model.Team, as read and written by src/controller/admin/team.go *)
Record t := mk {
  ID : Z;            (* uint, primary key *)
  Name : string;
  Route : Z;         (* uint8, 1..5 *)
  Password : string;
  AllowMatch : bool;
  Slogan : string;
  Point : Z;         (* int8, -1 before the start *)
  Status : Z;        (* uint8, codes 1..5 *)
  StartNum : Z;      (* uint *)
  Num : Z;           (* uint8 *)
  Captain : string;
  Submit : bool;
  Time : Z;          (* time.Time as unix seconds *)
  Code : string      (* the bound check-in QR code, "" when unbound *)
}.

Definition with_progress (pt st tm : Z) (x : t) : t :=
  mk x.(ID) x.(Name) x.(Route) x.(Password) x.(AllowMatch) x.(Slogan) pt st
     x.(StartNum) x.(Num) x.(Captain) x.(Submit) tm x.(Code).

Definition with_start (code : string) (start tm : Z) (x : t) : t :=
  mk x.(ID) x.(Name) x.(Route) x.(Password) x.(AllowMatch) x.(Slogan) 0 5
     start x.(Num) x.(Captain) x.(Submit) tm code.

Definition with_id (id : Z) (x : t) : t :=
  mk id x.(Name) x.(Route) x.(Password) x.(AllowMatch) x.(Slogan) x.(Point)
     x.(Status) x.(StartNum) x.(Num) x.(Captain) x.(Submit) x.(Time) x.(Code).

Definition with_captain (c : string) (x : t) : t :=
  mk x.(ID) x.(Name) x.(Route) x.(Password) x.(AllowMatch) x.(Slogan) x.(Point)
     x.(Status) x.(StartNum) x.(Num) c x.(Submit) x.(Time) x.(Code).

Definition with_submit (x : t) : t :=
  mk x.(ID) x.(Name) x.(Route) x.(Password) x.(AllowMatch) x.(Slogan) x.(Point)
     x.(Status) x.(StartNum) x.(Num) x.(Captain) true x.(Time) x.(Code).
End Team.

Module Admin.
(** model.Admin: a check-point administrator *)
Record t := mk {
  Name : string;
  Account : string;
  Password : string;
  Point : Z;         (* int8 *)
  Route : Z          (* uint8 *)
}.
End Admin.

(** ** The configuration outside src/ *)

Class WalkConfig := {
  (** [constant.PointMap[route]]: the index of the last waypoint *)
  PointMap : Z -> Z;
  (** [middleware.CheckRoute(admin, team)] *)
  CheckRoute : Admin.t -> Team.t -> bool;
  (** [global.Config.GetString("server.secret")] *)
  ServerSecret : string;
  (** [constant.GetPointName(route, point)]: the name of a waypoint *)
  GetPointName : Z -> Z -> string
}.

(** ** The database *)

Record World := mkWorld {
  people : gmap string Person.t;   (* table people, key open_id *)
  teams : gmap Z Team.t;           (* table teams, key id *)
  next_team_id : Z;                (* auto-increment counter of teams *)
  rdb_teams : gset string;         (* Redis set "teams" *)
  admins : list Admin.t;           (* table admins, in insertion order *)
  clock : Z                        (* time.Now() *)
}.

Definition set_people (ps : gmap string Person.t) (w : World) : World :=
  mkWorld ps w.(teams) w.(next_team_id) w.(rdb_teams) w.(admins) w.(clock).
Definition set_teams (ts : gmap Z Team.t) (w : World) : World :=
  mkWorld w.(people) ts w.(next_team_id) w.(rdb_teams) w.(admins) w.(clock).

(** ** Responses written to the gin context *)

Inductive ErrMsg :=
  | ErrParam            (* "参数错误" *)
  | ErrQRCode           (* "二维码错误，队伍查找失败" *)
  | ErrOtherRoute       (* "该队伍为其他路线" *)
  | ErrTeamLookup       (* "队伍查找失败，请重新核对" *)
  | ErrCodeBound        (* "二维码已绑定" *)
  | ErrUnconfirmed      (* "还有成员未确认状态" *)
  | ErrTooFew           (* "团队人数不足，无法绑定" *)
  | ErrNotStarted       (* "团队起点未扫码" *)
  | ErrTeamEnded        (* "团队已结束，有疑问请咨询管理员" *)
  | ErrHalfRoute        (* "该队伍为半程路线，让队伍继续往前走就行" *)
  | ErrFullRoute        (* "该队伍为全程路线，让队伍继续往前走就行" *)
  | ErrConfirmed        (* "队伍状态已确认，有疑问请咨询管理员" *)
  | ErrSecret           (* "密码错误" *)
  | ErrDupScan          (* "重复扫码,请重新提交" *)
  | ErrBadScan          (* "扫码错误，请重新扫码" *)
  | ErrTeamStarted (name : string) (* name + "的原队伍已开始，请勿重新组队" *)
  | ErrService          (* "服务错误" *)
  | ErrUserLookup       (* "扫码错误，查找用户失败，请再次核对" *)
  | ErrTeamInfo         (* "队伍信息获取失败" *)
  | ErrMemberFinished   (* "成员已结束毅行" *)
  | ErrTeamNumber       (* "队伍编号输入错误，队伍查找失败" *)
  | ErrUpload           (* "上传数据错误" *)
  | ErrRegistered       (* "您已经注册过了，请到登录页面登录" *)
  | ErrWrongAccount     (* "账号或密码错误" *)
  | ErrOAuthClosed      (* "统一夜间关闭，请白天尝试" *)
  | ErrNotActivated     (* "账号未激活，请自行到统一网站重新激活" *)
  | ErrSystem           (* "系统错误，请稍后再试" *)
  | ErrRegisterFailed   (* "报名失败，请重试" *)
  | ErrPasswordGen      (* "密码生成错误: " + err.Error() *)
  | ErrDatabase.        (* "数据库错误: " + result.Error.Error() *)

(** [RouteDetail] of GetDetail: the count of one slot and its label *)
Record RouteDetail := mkRouteDetail { rd_Count : Z; rd_Label : string }.

(** [Result] of GetSubmitDetail: teams and members of one route and type *)
Record Result := mkResult {
  res_Route : string; res_TeamType : string; res_TeamNum : Z; res_TotalNum : Z }.

(** [Results]: one list of [Result] per route *)
Record Results := mkResults {
  Zh : list Result; PfHalf : list Result; PfAll : list Result;
  MgsHalf : list Result; MgsAll : list Result }.

Inductive Payload :=
  | PNil                          (* nil *)
  | PProgress (n : Z)             (* {"progress_num": n} *)
  | PTeamId (id : Z)              (* {"team_id": id} *)
  | PTeam (t : Team.t) (point : string) (admin : Admin.t) (members : list Person.t)
  | PDetail (routes : list (string * list RouteDetail))  (* GetDetail *)
  | PSubmitDetail (r : Results)                           (* {"results": r} *)
  | PTeamDetail (t : Team.t) (members : list Person.t) (point : string)
  | PAdmins (admins : list Admin.t).                      (* {"admins": admins} *)

Inductive Resp :=
  | RespError (e : ErrMsg)        (* utility.ResponseError *)
  | RespSuccess (d : Payload).    (* utility.ResponseSuccess *)

Abbreviation H := (handler World Resp).

Definition is_error (r : Resp) : bool :=
  match r with RespError _ => true | RespSuccess _ => false end.

(** A run that ends normally with exactly one response, and that writes
    nothing when the response is an error. *)
Definition single_atomic (h : H unit) (w : World) : Prop :=
  exists r w', h w = (Some tt, w', [r]) /\ (is_error r = true -> w' = w).

Definition respond_error (e : ErrMsg) : H unit := hemit (RespError e).
Definition respond_success (d : Payload) : H unit := hemit (RespSuccess d).

(** ** The service layer *)

(** [userService.Update(p)]: [global.DB.Save(&p)], an upsert on open_id *)
Definition save_person (p : Person.t) (w : World) : World :=
  set_people (<[p.(Person.OpenId) := p]> w.(people)) w.

(** teamService.Update: [global.DB.Save(&a)], an upsert on id *)
Definition save_team (t : Team.t) (w : World) : World :=
  set_teams (<[t.(Team.ID) := t]> w.(teams)) w.

(** teamService.Delete: [global.DB.Delete(&a)] *)
Definition delete_team (t : Team.t) (w : World) : World :=
  set_teams (delete t.(Team.ID) w.(teams)) w.

(** teamService.Create: [global.DB.Create(&a)] on a copy [a]: the row gets
    the next auto-increment id, which is written into the copy only. *)
Definition create_team (t : Team.t) (w : World) : World :=
  let id := w.(next_team_id) in
  mkWorld w.(people) (<[id := Team.with_id id t]> w.(teams)) (id + 1)
          w.(rdb_teams) w.(admins) w.(clock).

(** teamService.UpdateCaptain: [UPDATE teams SET captain = ? WHERE id = ?] *)
Definition update_captain (teamID : Z) (openID : string) (w : World) : World :=
  set_teams (alter (Team.with_captain openID) teamID w.(teams)) w.

(** [global.Rdb.SAdd(global.Rctx, "teams", s)] *)
Definition redis_sadd (s : string) (w : World) : World :=
  mkWorld w.(people) w.(teams) w.(next_team_id) ({[s]} ∪ w.(rdb_teams))
          w.(admins) w.(clock).

(** The entry of least key among those satisfying [P]: the row that
    [First] (ORDER BY id) returns, and the one [Take] is taken to return. *)
Fixpoint min_key_entry {V} (l : list (Z * V)) : option (Z * V) :=
  match l with
  | [] => None
  | (k, v) :: l' =>
      match min_key_entry l' with
      | Some (k', v') => if Z.ltb k' k then Some (k', v') else Some (k, v)
      | None => Some (k, v)
      end
  end.

Definition first_team (P : Team.t -> bool) (ts : gmap Z Team.t) : option Team.t :=
  snd <$> min_key_entry (List.filter (fun kv => P kv.2) (map_to_list ts)).

(** teamService.GetTeamByID: [WHERE id = ?] *)
Definition GetTeamByID (w : World) (id : Z) : option Team.t := w.(teams) !! id.

(** teamService.GetTeamByCode: [WHERE code = ?] *)
Definition GetTeamByCode (w : World) (code : string) : option Team.t :=
  first_team (fun t => bool_decide (t.(Team.Code) = code)) w.(teams).

(** teamService.GetTeamByCaptain: [WHERE captain = ?] *)
Definition GetTeamByCaptain (w : World) (oid : string) : option Team.t :=
  first_team (fun t => bool_decide (t.(Team.Captain) = oid)) w.(teams).

(** model.GetPerson: [WHERE open_id = ?] *)
Definition GetPerson (w : World) (oid : string) : option Person.t := w.(people) !! oid.

(** [global.DB.Where("team_id = ?", team.ID).Find(&persons)] *)
Definition team_members (w : World) (tid : Z) : list Person.t :=
  List.filter (fun p => Z.eqb p.(Person.TeamId) tid) (map_to_list w.(people)).*2.

(** [for _, p := range persons { ...; userService.Update(p) }]: save
    [f p] for every [p] on which [f] answers. *)
Definition save_each (f : Person.t -> option Person.t) (ps : list Person.t) : H unit :=
  hfor ps (fun p => match f p with
                    | Some p' => hmodify (save_person p')
                    | None => hret tt
                    end).

(** ** Well-formed databases

    The primary key of every row is the key it is stored under. *)
Definition keyed (w : World) : Prop :=
  map_Forall (fun k p => p.(Person.OpenId) = k) w.(people) /\
  map_Forall (fun k t => t.(Team.ID) = k) w.(teams).

#[export] Instance keyed_dec w : Decision (keyed w).
Proof. unfold keyed. apply _. Defined.

(** ** Lemmas on the store *)

(** The per-member rewrite that a save loop over a team performs. *)
Definition member_update (f : Person.t -> option Person.t) (tid : Z) (p : Person.t) : Person.t :=
  if Z.eqb p.(Person.TeamId) tid then default p (f p) else p.

Definition keeps_key (f : Person.t -> option Person.t) : Prop :=
  forall p p', f p = Some p' -> p'.(Person.OpenId) = p.(Person.OpenId).

Lemma team_members_spec w tid p :
  keyed w ->
  p ∈ team_members w tid <->
  w.(people) !! p.(Person.OpenId) = Some p /\ p.(Person.TeamId) = tid.
Proof.
  intros [Hp _]. unfold team_members.
  rewrite elem_of_List_filter, list_elem_of_fmap, Z.eqb_eq.
  split.
  - intros [[[k q] [-> Hin]] Ht]. apply elem_of_map_to_list in Hin. simpl in *.
    rewrite (Hp _ _ Hin). done.
  - intros [Hl Ht]. split; [|done]. exists (p.(Person.OpenId), p).
    split; [done|]. by apply elem_of_map_to_list.
Qed.

Lemma save_each_spec f ps w :
  save_each f ps w = (Some tt, set_people (save_list Person.OpenId f ps w.(people)) w, []).
Proof.
  revert w. induction ps as [|p ps IH]; intros w; [by destruct w|].
  unfold save_each in *. simpl. destruct (f p) as [p'|];
    rewrite ?hbind_modify, ?hbind_ret, IH; [|done]. by destruct w.
Qed.

Lemma save_each_members f w tid :
  keyed w -> keeps_key f ->
  save_each f (team_members w tid) w =
  (Some tt, set_people (member_update f tid <$> w.(people)) w, []).
Proof.
  intros Hk Hf. rewrite save_each_spec. do 3 f_equal.
  apply map_eq. intros k. rewrite lookup_fmap.
  assert (Hkey : forall q, q ∈ team_members w tid -> q.(Person.OpenId) = k ->
                           w.(people) !! k = Some q)
    by (intros q Hq <-; apply (team_members_spec w tid q Hk) in Hq; apply Hq).
  destruct (w.(people) !! k) as [p|] eqn:E; simpl.
  - assert (p.(Person.OpenId) = k) as Hpk by (destruct Hk as [Hp _]; apply (Hp _ _ E)).
    unfold member_update. destruct (Z.eqb_spec p.(Person.TeamId) tid) as [Ht|Ht].
    + rewrite (save_list_in _ _ Hf _ _ _ p); [destruct (f p); [done | exact E] | | done |].
      * apply team_members_spec; [done|]. by rewrite Hpk.
      * intros u Hu Huk. specialize (Hkey u Hu Huk). congruence.
    + rewrite (save_list_notin _ _ Hf); [exact E|].
      intros (u & -> & Hu)%list_elem_of_fmap.
      injection (Hkey u Hu eq_refl) as ->.
      apply team_members_spec in Hu as [_ ?]; [contradiction|done].
  - rewrite (save_list_notin _ _ Hf); [exact E|].
    intros (u & -> & Hu)%list_elem_of_fmap.
    pose proof (Hkey u Hu eq_refl) as Hu'. congruence.
Qed.

Lemma min_key_entry_Some {V} (l : list (Z * V)) kv :
  min_key_entry l = Some kv -> kv ∈ l.
Proof.
  revert kv. induction l as [|[k v] l IH]; intros kv; simpl; [discriminate|].
  destruct (min_key_entry l) as [[k' v']|] eqn:E.
  - destruct (k' <? k); intros [= <-]; [apply elem_of_cons; right; by apply IH|].
    apply elem_of_cons; by left.
  - intros [= <-]. apply elem_of_cons; by left.
Qed.

Lemma min_key_entry_None {V} (l : list (Z * V)) :
  min_key_entry l = None <-> l = [].
Proof.
  split; [|by intros ->]. destruct l as [|[k v] l]; simpl; [done|].
  destruct (min_key_entry l) as [[??]|]; [destruct (_ <? _)|]; discriminate.
Qed.

Lemma first_team_Some P ts t :
  map_Forall (fun k t => t.(Team.ID) = k) ts ->
  first_team P ts = Some t -> ts !! t.(Team.ID) = Some t /\ P t = true.
Proof.
  intros Hk. unfold first_team.
  destruct (min_key_entry _) as [[k t']|] eqn:E; simpl; [|discriminate].
  intros [= <-]. apply min_key_entry_Some, elem_of_List_filter in E as [Hin HP].
  apply elem_of_map_to_list in Hin. by rewrite (Hk _ _ Hin).
Qed.

Lemma first_team_None P ts :
  first_team P ts = None <-> map_Forall (fun _ t => P t = false) ts.
Proof.
  unfold first_team. rewrite fmap_None, min_key_entry_None. split.
  - intros Hnil k t Hkt. destruct (P t) eqn:HP; [|done].
    assert ((k, t) ∈ List.filter (fun kv => P kv.2) (map_to_list ts)) as Hin
      by (apply elem_of_List_filter; split; [by apply elem_of_map_to_list | done]).
    rewrite Hnil in Hin. by apply not_elem_of_nil in Hin.
  - intros Hall. destruct (List.filter _ _) as [|[k t] l] eqn:E; [done|].
    assert ((k, t) ∈ List.filter (fun kv => P kv.2) (map_to_list ts)) as Hin
      by (rewrite E; apply elem_of_cons; by left).
    apply elem_of_List_filter in Hin as [Hin HP]. apply elem_of_map_to_list in Hin.
    simpl in HP. by rewrite (Hall _ _ Hin) in HP.
Qed.

(** Running the save loop over a team's members inside a handler *)
Lemma hbind_save_each_members {B} f w tid (k : unit -> H B) :
  keyed w -> keeps_key f ->
  hbind (save_each f (team_members w tid)) k w =
  k tt (set_people (member_update f tid <$> w.(people)) w).
Proof.
  intros Hk Hf. rewrite (hbind_some _ _ _ _ _ _ (save_each_members f w tid Hk Hf)).
  by destruct (k _ _) as [[??]?].
Qed.

Lemma set_walk_twice a b p : Person.set_walk a (Person.set_walk b p) = Person.set_walk a p.
Proof. reflexivity. Qed.

Lemma people_save_person p w :
  (save_person p w).(people) = <[p.(Person.OpenId) := p]> w.(people).
Proof. reflexivity. Qed.

Lemma teams_save_person p w : (save_person p w).(teams) = w.(teams).
Proof. reflexivity. Qed.

Lemma set_people_twice a b w : set_people a (set_people b w) = set_people a w.
Proof. reflexivity. Qed.

(** ** Writes keep every row under its primary key *)

Lemma keyed_save_person p w : keyed w -> keyed (save_person p w).
Proof.
  intros [Hp Ht]. split; [|done]. apply map_Forall_insert_2; [done|exact Hp].
Qed.

Lemma keyed_members f tid w :
  keeps_key f -> keyed w -> keyed (set_people (member_update f tid <$> w.(people)) w).
Proof.
  intros Hf [Hp Ht]. split; [|done]. intros k p. simpl. rewrite lookup_fmap.
  destruct (w.(people) !! k) as [q|] eqn:E; intros [= <-]. unfold member_update.
  destruct (_ =? _); [|exact (Hp _ _ E)].
  destruct (f q) as [q'|] eqn:Hq; simpl; [rewrite (Hf _ _ Hq)|]; exact (Hp _ _ E).
Qed.

Lemma keyed_delete_id tid w : keyed w -> keyed (set_teams (delete tid w.(teams)) w).
Proof. intros [Hp Ht]. split; [done|]. by apply map_Forall_delete. Qed.

Lemma keyed_create_team t w : keyed w -> keyed (create_team t w).
Proof.
  intros [Hp Ht]. split; [done|]. by apply map_Forall_insert_2.
Qed.

Lemma keyed_redis_sadd s w : keyed w -> keyed (redis_sadd s w).
Proof. done. Qed.

#[export] Hint Resolve keyed_save_person keyed_members keyed_delete_id
  keyed_create_team keyed_redis_sadd : walk.

(** ** Responses keep any state invariant *)

Lemma keeps_respond_error (I : World -> Prop) e w : keeps_at I (respond_error e) w.
Proof. apply keeps_at_emit. Qed.

Lemma keeps_respond_success (I : World -> Prop) d w : keeps_at I (respond_success d) w.
Proof. apply keeps_at_emit. Qed.

(** The reading parts of a handler and its error paths: [hget], [match]
    and responses *)
Ltac keeps_steps :=
  repeat lazymatch goal with
  | |- keeps_at _ (respond_error _) _ => apply keeps_respond_error
  | |- keeps_at _ (respond_success _) _ => apply keeps_respond_success
  | |- keeps_at _ hpanic _ => apply keeps_at_panic
  | |- keeps_at _ (hret _) _ => apply keeps_at_ret
  | |- keeps_at _ (hbind hget _) _ => apply keeps_at_get; cbn beta
  | |- keeps_at _ (if _ then _ else _) _ => case_match
  | |- keeps_at _ (match _ with _ => _ end) _ => case_match
  end.
