(* ===== verification/Strconv.v ===== *)
(** * The two [strconv] conversions the handlers rely on

    A team's QR code carries its id as decimal text: the handlers read
    it back with [strconv.ParseUint(content, 10, 32)]
    (src/controller/admin/team.go, GetTeam and UpdateTeamStatus) and
    write ids into the Redis set with [strconv.Itoa] (Regroup,
    SubmitTeam).  Both are Go library functions, modelled here from
    their documented behaviour: [ParseUint] accepts a non-empty string
    of ASCII digits whose value fits in [bitSize] bits and fails
    otherwise (no sign, no underscore in base 10); [Itoa] prints the
    decimal digits.  The file holds the two conversions only; no
    theorem is about them. *)

From Stdlib Require Import ZArith Lia Ascii String.
From S2P Require Import Prelude.

Local Open Scope Z_scope.
Local Open Scope bool_scope.

Module Strconv.

Definition digit_of (c : ascii) : Z := Z.of_nat (nat_of_ascii c) - 48.

(** The digit loop of ParseUint: [n = n*10 + d] *)
Fixpoint digits_value (s : string) (acc : Z) : option Z :=
  match s with
  | EmptyString => Some acc
  | String c s' =>
      let d := digit_of c in
      if (0 <=? d) && (d <=? 9) then digits_value s' (acc * 10 + d) else None
  end.

(** [strconv.ParseUint(s, 10, bitSize)]; [None] is a non-nil error *)
Definition ParseUint (s : string) (bitSize : Z) : option Z :=
  match s with
  | EmptyString => None
  | _ =>
      match digits_value s 0 with
      | Some v => if v <=? 2 ^ bitSize - 1 then Some v else None
      | None => None
      end
  end.

Definition char_of_digit (d : Z) : ascii := ascii_of_nat (Z.to_nat (48 + d)).

(** Decimal digits of [n >= 0], most significant first; [fuel] bounds
    the number of digits. *)
Fixpoint utoa (fuel : nat) (n : Z) : string :=
  match fuel with
  | O => String (char_of_digit (n mod 10)) EmptyString
  | S f =>
      if n <? 10 then String (char_of_digit n) EmptyString
      else append (utoa f (n / 10)) (String (char_of_digit (n mod 10)) EmptyString)
  end.

(** [strconv.Itoa(n)]; 20 digits cover every 64-bit value *)
Definition Itoa (n : Z) : string :=
  if n <? 0 then String "-"%char (utoa 20 (- n)) else utoa 20 n.

End Strconv.
