(* ===== verification/Samples.v ===== *)
(** * Concrete inputs for the witnesses

    A sample [WalkConfig] (five routes; the real [constant.PointMap] and
    [middleware.CheckRoute] are outside src/ and every theorem is proved
    for an arbitrary configuration) and builders of rows and databases,
    so that each theorem with hypotheses is applied once at a concrete
    database where the hypotheses hold by computation. *)

From Stdlib Require Import ZArith Lia.
From stdpp Require Import base gmap strings list.
From S2P Require Import Prelude Model.

Local Open Scope Z_scope.

Module Samples.

Definition sample_PointMap (route : Z) : Z :=
  if route =? 1 then 4 else if route =? 2 then 5 else if route =? 3 then 8
  else if route =? 4 then 5 else 7.

(** An administrator acts on teams of its own route; the two Pingfeng
    routes (2 half, 3 full) share their first waypoints. *)
Definition sample_CheckRoute (a : Admin.t) (t : Team.t) : bool :=
  (a.(Admin.Route) =? t.(Team.Route)) ||
  (((a.(Admin.Route) =? 2) || (a.(Admin.Route) =? 3)) &&
   ((t.(Team.Route) =? 2) || (t.(Team.Route) =? 3))).

#[export] Instance sample_config : WalkConfig := {|
  PointMap := sample_PointMap;
  CheckRoute := sample_CheckRoute;
  ServerSecret := "s3cret";
  GetPointName := fun route point => if point =? 0 then "start" else "cp"
|}.

Definition person (oid : string) (tid st ws : Z) : Person.t :=
  Person.mk oid oid 1 oid 1 oid st "" "" "" oid 2 5 tid ws 1.

Definition team (id route point status num : Z) (captain code : string) : Team.t :=
  Team.mk id "t" route "123456" true "go" point status 0 num captain false 0 code.

Definition admin (route point : Z) : Admin.t := Admin.mk "a" "a" "p" point route.

Definition world (ps : list Person.t) (ts : list Team.t) (next : Z) : World :=
  mkWorld (list_to_map ((fun p => (p.(Person.OpenId), p)) <$> ps))
          (list_to_map ((fun t => (t.(Team.ID), t)) <$> ts))
          next ∅ [] 1000.

(** A started team 7 on route 1 at waypoint 2 with three members. *)
Definition w_started : World :=
  world [person "a" 7 2 3; person "b" 7 1 2; person "c" 7 1 4; person "d" (-1) 0 1]
        [team 7 1 2 5 3 "a" "qr7"; team 8 2 (-1) 1 1 "e" ""] 9.

(** The same team before the start: every member confirmed or withdrawn. *)
Definition w_ready : World :=
  world [person "a" 7 2 3; person "b" 7 1 3; person "c" 7 1 4]
        [team 7 1 (-1) 1 3 "a" ""] 8.

End Samples.
