(* ===== verification/CheckIn.v ===== *)
(** * The team check-in state machine

    src/controller/admin/team.go, lines 20-334: an administrator posted
    at a waypoint scans a team's QR code.
    - [GetTeam] looks the team up and shows it;
    - [BindTeam] binds a check-in code to the team at the start: every
      member must be confirmed (walk status 3) or withdrawn (4), and at
      least half the team, rounded up, confirmed; the team gets status 5
      and point 0;
    - [UpdateTeamStatus] checks the team in at the administrator's
      waypoint: members still walking (walk status 2 or 3) are counted,
      confirmed members become walking (3 -> 2) and the team gets status
      2 and the waypoint index, with the half/full route rule for shared
      waypoints; a team with nobody left walking is closed (status 3);
    - [PostDestination] closes a team at the finish: status 4 with its
      walkers marked finished (walk status 5), or status 3.
    Each handler is a [handler World Resp] computation whose guards are
    the Go code's early returns, in the same order. *)

From Stdlib Require Import ZArith Lia.
From stdpp Require Import base gmap strings list.
From S2P Require Import Prelude Model Strconv Samples.

Local Open Scope Z_scope.
Local Open Scope handler_scope.

Section CheckIn.
Context `{WalkConfig}.

(** ** Request forms and their [binding] tags *)

(** [TeamForm]: [code_type] oneof 1 2, [content] required *)
Record TeamForm := { tf_CodeType : Z; tf_Content : string }.
Definition TeamForm_ok (f : TeamForm) : bool :=
  ((f.(tf_CodeType) =? 1) || (f.(tf_CodeType) =? 2)) &&
  negb (bool_decide (f.(tf_Content) = "")).

(** [BindTeamForm]: [team_id] a required (non-zero) uint, [type] eq 2, [code] required *)
Record BindTeamForm := { bt_TeamID : Z; bt_Type : Z; bt_Code : string }.
Definition BindTeamForm_ok (f : BindTeamForm) : bool :=
  (0 <? f.(bt_TeamID)) && (f.(bt_Type) =? 2) &&
  negb (bool_decide (f.(bt_Code) = "")).

(** [TeamStatusForm]: [code_type] and [content] required *)
Record TeamStatusForm := { ts_CodeType : Z; ts_Content : string }.
Definition TeamStatusForm_ok (f : TeamStatusForm) : bool :=
  negb (f.(ts_CodeType) =? 0) && negb (bool_decide (f.(ts_Content) = "")).

(** [PostDestinationForm]: [team_id] a required (non-zero) uint, [status] oneof 1 2 *)
Record PostDestinationForm := { pd_TeamID : Z; pd_Status : Z }.
Definition PostDestinationForm_ok (f : PostDestinationForm) : bool :=
  (0 <? f.(pd_TeamID)) && ((f.(pd_Status) =? 1) || (f.(pd_Status) =? 2)).

(** ** Shared pieces *)

(** Walk status 2 or 3: the member is still on the route. *)
Definition walking (p : Person.t) : bool :=
  (p.(Person.WalkStatus) =? 3) || (p.(Person.WalkStatus) =? 2).

(** The loop of BindTeam, with its [break]: (flag, num). *)
Fixpoint bind_scan (ps : list Person.t) (num : Z) : bool * Z :=
  match ps with
  | [] => (true, num)
  | p :: ps' =>
      if negb (p.(Person.WalkStatus) =? 3) && negb (p.(Person.WalkStatus) =? 4)
      then (false, num)
      else bind_scan ps' (if p.(Person.WalkStatus) =? 3 then num + 1 else num)
  end.

(** The quorum test [(team.Num+1)/2 > uint8(num)], in uint8 arithmetic. *)
Definition too_few (team_num num : Z) : bool :=
  u8 (team_num + 1) / 2 >? u8 num.

(** The waypoint a check-in records, or the refusal (lines 230-249). *)
Definition checkin_point (user : Admin.t) (team : Team.t) : ErrMsg + Z :=
  let up := user.(Admin.Point) in
  if team.(Team.Route) =? 2 then
    if (user.(Admin.Route) =? 3) && ((up =? 2) || (up =? 3) || (up =? 4))
    then inl ErrHalfRoute
    else if up >? 2 then inr (i8 (up - 2)) else inr up
  else if team.(Team.Route) =? 3 then
    if (user.(Admin.Route) =? 2) && (up =? 2) then inl ErrFullRoute else inr up
  else inr up.

(** Loop bodies of lines 251-256 and 318-323. *)
Definition advance (p : Person.t) : option Person.t :=
  if p.(Person.WalkStatus) =? 3 then Some (Person.set_walk 2 p) else None.
Definition finish (p : Person.t) : option Person.t :=
  if (p.(Person.WalkStatus) =? 2) || (p.(Person.WalkStatus) =? 3)
  then Some (Person.set_walk 5 p) else None.

(** The last waypoint of the team's route, as [int8]. *)
Definition end_point (team : Team.t) : Z := i8 (PointMap team.(Team.Route)).

Inductive lookup_result :=
  | LookupBad | LookupMissing | LookupFound (t : Team.t).

(** Lines 178-196: a team code carries the id, a check-in code the code. *)
Definition lookup_team (w : World) (f : TeamStatusForm) : lookup_result :=
  if f.(ts_CodeType) =? 1 then
    match Strconv.ParseUint f.(ts_Content) 32 with
    | None => LookupBad
    | Some id =>
        match GetTeamByID w id with Some t => LookupFound t | None => LookupMissing end
    end
  else if f.(ts_CodeType) =? 2 then
    match GetTeamByCode w f.(ts_Content) with
    | Some t => LookupFound t
    | None => LookupMissing
    end
  else LookupBad.

(** ** The handlers *)

(** [GetTeam], lines 25-91 *)
Definition GetTeam (user : Admin.t) (f : TeamForm) : H unit :=
  if negb (TeamForm_ok f) then respond_error ErrParam else
  let! w := hget in
  let found :=
    if f.(tf_CodeType) =? 1 then
      match Strconv.ParseUint f.(tf_Content) 32 with
      | None => None
      | Some id => Some (GetTeamByID w id)
      end
    else Some (GetTeamByCode w f.(tf_Content)) in
  match found with
  | None => respond_error ErrParam
  | Some None => respond_error ErrQRCode
  | Some (Some team) =>
      if negb (CheckRoute user team) then respond_error ErrOtherRoute
      else respond_success (PTeam team (GetPointName team.(Team.Route) team.(Team.Point)) user
                                  (team_members w team.(Team.ID)))
  end.

(** [BindTeam], lines 99-161 *)
Definition BindTeam (user : Admin.t) (f : BindTeamForm) : H unit :=
  if negb (BindTeamForm_ok f) then respond_error ErrParam else
  let! w := hget in
  match GetTeamByID w f.(bt_TeamID) with
  | None => respond_error ErrTeamLookup
  | Some team =>
      if negb (CheckRoute user team) then respond_error ErrOtherRoute else
      match GetTeamByCode w f.(bt_Code) with
      | Some _ => respond_error ErrCodeBound
      | None =>
          let '(flag, num) := bind_scan (team_members w team.(Team.ID)) 0 in
          if negb flag then respond_error ErrUnconfirmed
          else if too_few team.(Team.Num) num then respond_error ErrTooFew
          else
            let! _ := hmodify (save_team
                        (Team.with_start f.(bt_Code) num w.(clock) team)) in
            respond_success PNil
      end
  end.

(** [UpdateTeamStatus], lines 168-263 *)
Definition UpdateTeamStatus (user : Admin.t) (f : TeamStatusForm) : H unit :=
  if negb (TeamStatusForm_ok f) then respond_error ErrParam else
  let! w := hget in
  match lookup_team w f with
  | LookupBad => respond_error ErrParam
  | LookupMissing => respond_error ErrTeamLookup
  | LookupFound team =>
      if negb (CheckRoute user team) then respond_error ErrOtherRoute
      else if team.(Team.Status) =? 1 then respond_error ErrNotStarted
      else if (team.(Team.Status) =? 3) || (team.(Team.Status) =? 4)
      then respond_error ErrTeamEnded
      else
        let persons := team_members w team.(Team.ID) in
        let num := Z.of_nat (count_if walking persons) in
        if num =? 0 then
          let! _ := hmodify (save_team (Team.with_progress (end_point team) 3
                                          team.(Team.Time) team)) in
          respond_success (PProgress 0)
        else
          match checkin_point user team with
          | inl e => respond_error e
          | inr pt =>
              let! _ := save_each advance persons in
              let! _ := hmodify (save_team (Team.with_progress pt 2 w.(clock) team)) in
              respond_success (PProgress num)
          end
  end.

(** [PostDestination], lines 270-334 *)
Definition PostDestination (user : Admin.t) (f : PostDestinationForm) : H unit :=
  if negb (PostDestinationForm_ok f) then respond_error ErrParam else
  let! w := hget in
  match GetTeamByID w f.(pd_TeamID) with
  | None => respond_error ErrTeamLookup
  | Some team =>
      if negb (CheckRoute user team) then respond_error ErrOtherRoute else
      let persons := team_members w team.(Team.ID) in
      let num := Z.of_nat (count_if walking persons) in
      if (team.(Team.Status) =? 4) || (team.(Team.Status) =? 3)
      then respond_error ErrConfirmed
      else if num =? 0 then
        let! _ := hmodify (save_team (Team.with_progress (end_point team) 3
                                        team.(Team.Time) team)) in
        respond_success PNil
      else if f.(pd_Status) =? 1 then
        let! _ := save_each finish persons in
        let! _ := hmodify (save_team (Team.with_progress (end_point team) 4
                                        w.(clock) team)) in
        respond_success PNil
      else
        let! _ := hmodify (save_team (Team.with_progress (end_point team) 3
                                        w.(clock) team)) in
        respond_success PNil
  end.

(** ** Specifications *)

(** Walk status 3 or 4: confirmed present or withdrawn. *)
Definition settled (p : Person.t) : bool :=
  (p.(Person.WalkStatus) =? 3) || (p.(Person.WalkStatus) =? 4).
Definition confirmed (p : Person.t) : bool := p.(Person.WalkStatus) =? 3.

(** The abstract check-in machine: the status moves of a team, and the
    walk-status moves of a member, that the check-in handlers may make. *)
Inductive status_step : Z -> Z -> Prop :=
  | step_bind s : status_step s 5
  | step_pass s : s <> 1 -> s <> 3 -> s <> 4 -> status_step s 2
  | step_close s : s <> 3 -> s <> 4 -> status_step s 3
  | step_confirm s : s <> 3 -> s <> 4 -> status_step s 4.

Inductive walk_step : Z -> Z -> Prop :=
  | walk_go : walk_step 3 2
  | walk_finish s : s = 2 \/ s = 3 -> walk_step s 5.

(** A team row kept, or moved by one status step with its identity kept. *)
Definition team_moved (t t' : Team.t) : Prop :=
  t' = t \/
  (status_step t.(Team.Status) t'.(Team.Status) /\ t'.(Team.ID) = t.(Team.ID) /\
   t'.(Team.Route) = t.(Team.Route) /\ t'.(Team.Num) = t.(Team.Num) /\
   t'.(Team.Captain) = t.(Team.Captain)).

(** A person row kept, or changed in its walk status only, by one step. *)
Definition person_moved (p p' : Person.t) : Prop :=
  p' = p \/
  (walk_step p.(Person.WalkStatus) p'.(Person.WalkStatus) /\
   p' = Person.set_walk p'.(Person.WalkStatus) p).

Definition checkin_refines (w w' : World) : Prop :=
  rows_moved team_moved w.(teams) w'.(teams) /\
  rows_moved person_moved w.(people) w'.(people) /\
  w'.(next_team_id) = w.(next_team_id) /\ w'.(rdb_teams) = w.(rdb_teams) /\
  w'.(admins) = w.(admins) /\ w'.(clock) = w.(clock).

Definition refines_run (h : H unit) (w : World) : Prop :=
  forall r w' o, h w = (r, w', o) -> checkin_refines w w'.

(** A run leaves every closed team (status 3 or 4) as it was. *)
Definition keeps_closed (h : H unit) (w : World) : Prop :=
  forall r w' o, h w = (r, w', o) ->
  forall i t, w.(teams) !! i = Some t -> (t.(Team.Status) = 3 \/ t.(Team.Status) = 4) ->
  w'.(teams) !! i = Some t.


End CheckIn.

(** ** Sample inputs of the witnesses *)

Module CheckInSamples.
Import Samples.

Definition qr7_form : TeamStatusForm := {| ts_CodeType := 2; ts_Content := "qr7" |}.

(** A team of registered size 255 whose members all withdrew. *)
Definition w_overflow : World :=
  world [person "x" 9 2 4; person "y" 9 1 4] [team 9 1 (-1) 1 255 "x" ""] 10.

(** A closed team (status 3) whose members are confirmed again. *)
Definition w_closed : World :=
  world [person "a" 7 2 3; person "b" 7 1 4] [team 7 1 4 3 2 "a" "qr7"] 8.

(** A started team none of whose members is walking any more. *)
Definition w_all_out : World :=
  world [person "a" 7 2 4; person "b" 7 1 5] [team 7 1 2 2 2 "a" "qr7"] 8.

Definition bind7_form : BindTeamForm := {| bt_TeamID := 7; bt_Type := 2; bt_Code := "qr7" |}.

(** The database after the team of [w_ready] is bound to "qr7". *)
Definition w_ready_bound : World :=
  save_team (Team.with_start "qr7" 2 1000 (team 7 1 (-1) 1 3 "a" "")) w_ready.
End CheckInSamples.

Arguments save_each : simpl never.
Arguments team_members : simpl never.
Arguments save_team : simpl never.
Arguments set_people : simpl never.
Arguments GetTeamByID : simpl never.
Arguments GetTeamByCode : simpl never.

(** ** Properties *)

Section CheckInProofs.
Context `{WalkConfig}.

Lemma bind_scan_forallb ps num :
  bind_scan ps num =
  (forallb settled ps,
   if forallb settled ps then num + Z.of_nat (count_if confirmed ps) else snd (bind_scan ps num)).
Proof.
  revert num. induction ps as [|p ps IH]; intros num; simpl; [f_equal; lia|].
  assert (Hs : settled p = (p.(Person.WalkStatus) =? 3) || (p.(Person.WalkStatus) =? 4)) by done.
  assert (Hc : confirmed p = (p.(Person.WalkStatus) =? 3)) by done.
  rewrite Hs, Hc.
  destruct (p.(Person.WalkStatus) =? 3), (p.(Person.WalkStatus) =? 4); simpl; try done;
    rewrite IH; destruct (forallb settled ps); simpl; done || (f_equal; lia).
Qed.

(** C28: the loop of BindTeam, which breaks at the first member neither
    confirmed nor withdrawn, computes "every member is confirmed or
    withdrawn" and, when so, the number of confirmed members. *)
Theorem bind_scan_spec ps num :
  bind_scan ps num =
  (forallb settled ps,
   if forallb settled ps then num + Z.of_nat (count_if confirmed ps) else snd (bind_scan ps num)).
Proof. apply bind_scan_forallb. Qed.

Lemma bind_scan_fst ps num : fst (bind_scan ps num) = forallb settled ps.
Proof. by rewrite bind_scan_forallb. Qed.

Lemma bind_scan_snd ps num :
  forallb settled ps = true -> snd (bind_scan ps num) = num + Z.of_nat (count_if confirmed ps).
Proof. intros Hs. rewrite bind_scan_forallb, Hs. done. Qed.

Lemma advance_keeps_key : keeps_key advance.
Proof. intros p p'. unfold advance. destruct (_ =? _); [by intros [= <-]|done]. Qed.

Lemma finish_keeps_key : keeps_key finish.
Proof. intros p p'. unfold finish. destruct (_ || _); [by intros [= <-]|done]. Qed.


Lemma eqb_false a b : a <> b -> (a =? b) = false.
Proof. apply Z.eqb_neq. Qed.

Lemma walking_count_pos w tid :
  count_if walking (team_members w tid) <> 0%nat ->
  (Z.of_nat (count_if walking (team_members w tid)) =? 0) = false.
Proof. intros. apply Z.eqb_neq. lia. Qed.

(** C2: a check-in at a waypoint, for a team that has started and has
    members still walking: the response reports the number of walking
    members; the team gets the waypoint index of the check-in rule,
    status 2 and the current time; every confirmed member of the team
    (walk status 3) becomes walking (2); no other row changes. *)
Theorem UpdateTeamStatus_checkin user f w team pt :
  keyed w -> TeamStatusForm_ok f = true -> lookup_team w f = LookupFound team ->
  CheckRoute user team = true ->
  team.(Team.Status) <> 1 -> team.(Team.Status) <> 3 -> team.(Team.Status) <> 4 ->
  count_if walking (team_members w team.(Team.ID)) <> 0%nat ->
  checkin_point user team = inr pt ->
  exists w',
    UpdateTeamStatus user f w =
      (Some tt, w', [RespSuccess (PProgress (Z.of_nat (count_if walking (team_members w team.(Team.ID)))))]) /\
    w'.(teams) = <[team.(Team.ID) := Team.with_progress pt 2 w.(clock) team]> w.(teams) /\
    (forall k, w'.(people) !! k =
       (fun p => if (p.(Person.TeamId) =? team.(Team.ID)) && (p.(Person.WalkStatus) =? 3)
                 then Person.set_walk 2 p else p) <$> w.(people) !! k).
Proof.
  intros Hk Hok Hl Hr H1 H3 H4 Hn Hpt.
  eexists; split.
  { unfold UpdateTeamStatus. rewrite Hok. cbn [negb].
    rewrite hbind_get, Hl, Hr, (eqb_false _ _ H1), (eqb_false _ _ H3), (eqb_false _ _ H4).
    simpl. rewrite (walking_count_pos _ _ Hn), Hpt.
    rewrite hbind_save_each_members by (done || apply advance_keeps_key).
    rewrite hbind_modify. reflexivity. }
  unfold save_team, set_people; simpl. split; [done|].
  intros k. rewrite lookup_fmap. apply option_fmap_ext. intros p.
  unfold member_update, advance. by destruct (_ =? _), (_ =? 3).
Qed.

(** C14: a check-in is refused with "team did not scan at the start"
    for a team still at status 1, and with "team has ended" for a team
    at status 3 or 4; the database is unchanged. *)
Theorem UpdateTeamStatus_refuses user f w team :
  TeamStatusForm_ok f = true -> lookup_team w f = LookupFound team ->
  CheckRoute user team = true ->
  (team.(Team.Status) = 1 /\
   UpdateTeamStatus user f w = (Some tt, w, [RespError ErrNotStarted])) \/
  ((team.(Team.Status) = 3 \/ team.(Team.Status) = 4) /\
   UpdateTeamStatus user f w = (Some tt, w, [RespError ErrTeamEnded])) \/
  (team.(Team.Status) <> 1 /\ team.(Team.Status) <> 3 /\ team.(Team.Status) <> 4).
Proof.
  intros Hok Hl Hr. unfold UpdateTeamStatus. rewrite Hok. cbn [negb].
  rewrite hbind_get, Hl, Hr. cbn [negb].
  destruct (Z.eqb_spec team.(Team.Status) 1); [left; done|right].
  destruct (Z.eqb_spec team.(Team.Status) 3), (Z.eqb_spec team.(Team.Status) 4);
    simpl; [left; auto.. | right; auto].
Qed.

(** C15: when no member of a started team is still walking, a check-in
    closes the team instead: status 3 at the last waypoint of its
    route, its time unchanged, no member touched, progress 0. *)
Theorem UpdateTeamStatus_all_out user f w team :
  TeamStatusForm_ok f = true -> lookup_team w f = LookupFound team ->
  CheckRoute user team = true ->
  team.(Team.Status) <> 1 -> team.(Team.Status) <> 3 -> team.(Team.Status) <> 4 ->
  count_if walking (team_members w team.(Team.ID)) = 0%nat ->
  UpdateTeamStatus user f w =
    (Some tt,
     save_team (Team.with_progress (end_point team) 3 team.(Team.Time) team) w,
     [RespSuccess (PProgress 0)]).
Proof.
  intros Hok Hl Hr H1 H3 H4 Hn. unfold UpdateTeamStatus. rewrite Hok. cbn [negb].
  rewrite hbind_get, Hl, Hr, (eqb_false _ _ H1), (eqb_false _ _ H3), (eqb_false _ _ H4).
  simpl. rewrite Hn. simpl. rewrite hbind_modify. reflexivity.
Qed.

Lemma settled_Forall ps :
  forallb settled ps = true ->
  Forall (fun p => p.(Person.WalkStatus) = 3 \/ p.(Person.WalkStatus) = 4) ps.
Proof.
  intros Hs. apply Forall_forall. intros p Hp.
  apply list_elem_of_In, (proj1 (forallb_forall _ _) Hs) in Hp.
  unfold settled in Hp. apply orb_true_iff in Hp as [E|E]; apply Z.eqb_eq in E; auto.
Qed.

Lemma Forall_settled ps :
  Forall (fun p => p.(Person.WalkStatus) = 3 \/ p.(Person.WalkStatus) = 4) ps ->
  forallb settled ps = true.
Proof.
  intros Hall. apply forallb_forall. intros p Hp. apply list_elem_of_In in Hp.
  rewrite Forall_forall in Hall. unfold settled.
  destruct (Hall p Hp) as [-> | ->]; reflexivity.
Qed.

(** BindTeam with every guard passing: the run of lines 99-161 *)
Lemma BindTeam_run user f w team :
  BindTeamForm_ok f = true -> GetTeamByID w f.(bt_TeamID) = Some team ->
  CheckRoute user team = true -> GetTeamByCode w f.(bt_Code) = None ->
  Forall (fun p => p.(Person.WalkStatus) = 3 \/ p.(Person.WalkStatus) = 4)
         (team_members w team.(Team.ID)) ->
  too_few team.(Team.Num) (Z.of_nat (count_if confirmed (team_members w team.(Team.ID)))) = false ->
  BindTeam user f w =
    (Some tt, save_team (Team.with_start f.(bt_Code)
                           (Z.of_nat (count_if confirmed (team_members w team.(Team.ID))))
                           w.(clock) team) w, [RespSuccess PNil]).
Proof.
  intros Hok Hget Hr Hc Hall Hq. unfold BindTeam. rewrite Hok. cbn [negb].
  rewrite hbind_get, Hget, Hr. cbn [negb]. rewrite Hc, bind_scan_forallb, (Forall_settled _ Hall).
  cbn [negb]. rewrite Z.add_0_l, Hq, hbind_modify. reflexivity.
Qed.

Lemma count_if_confirmed_withdrawn ps :
  Forall (fun p => p.(Person.WalkStatus) = 4) ps -> count_if confirmed ps = 0%nat.
Proof.
  induction 1 as [|p ps Hp _ IH]; [done|]. cbn [count_if]. rewrite IH. unfold confirmed. by rewrite Hp.
Qed.

Lemma BindTeam_run_inv user f w w' :
  BindTeam user f w = (Some tt, w', [RespSuccess PNil]) ->
  exists team,
    GetTeamByID w f.(bt_TeamID) = Some team /\ CheckRoute user team = true /\
    GetTeamByCode w f.(bt_Code) = None /\
    Forall (fun p => p.(Person.WalkStatus) = 3 \/ p.(Person.WalkStatus) = 4)
           (team_members w team.(Team.ID)) /\
    too_few team.(Team.Num) (Z.of_nat (count_if confirmed (team_members w team.(Team.ID)))) = false /\
    w' = save_team (Team.with_start f.(bt_Code)
                      (Z.of_nat (count_if confirmed (team_members w team.(Team.ID))))
                      w.(clock) team) w.
Proof.
  intros Hrun. unfold BindTeam in Hrun.
  destruct (BindTeamForm_ok f); cbn [negb] in Hrun; [|by inversion Hrun].
  rewrite hbind_get in Hrun.
  destruct (GetTeamByID w _) as [team|]; [|by inversion Hrun].
  destruct (CheckRoute user team) eqn:Hr; cbn [negb] in Hrun; [|by inversion Hrun].
  destruct (GetTeamByCode w _) eqn:Hc; [by inversion Hrun|].
  rewrite bind_scan_forallb in Hrun.
  destruct (forallb settled _) eqn:Hs; cbn [negb] in Hrun; [|by inversion Hrun].
  destruct (too_few _ _) eqn:Hq; [by inversion Hrun|].
  rewrite hbind_modify in Hrun. inversion Hrun; subst.
  exists team. repeat split; auto using settled_Forall.
Qed.

(** C4: BindTeam starts a team only when the team exists and belongs
    to the administrator's route, the code is bound to no team, every
    member is confirmed (3) or withdrawn (4), and the quorum test
    passes; the only write is the team row, now at point 0, status 5,
    with the code, the number of confirmed members as [StartNum] and
    the current time. *)
Theorem BindTeam_success user f w w' :
  BindTeam user f w = (Some tt, w', [RespSuccess PNil]) ->
  exists team,
    GetTeamByID w f.(bt_TeamID) = Some team /\ CheckRoute user team = true /\
    GetTeamByCode w f.(bt_Code) = None /\
    Forall (fun p => p.(Person.WalkStatus) = 3 \/ p.(Person.WalkStatus) = 4)
           (team_members w team.(Team.ID)) /\
    too_few team.(Team.Num) (Z.of_nat (count_if confirmed (team_members w team.(Team.ID)))) = false /\
    w' = save_team (Team.with_start f.(bt_Code)
                      (Z.of_nat (count_if confirmed (team_members w team.(Team.ID))))
                      w.(clock) team) w.
Proof. apply BindTeam_run_inv. Qed.

Lemma too_few_false n num :
  0 <= n < 255 -> 0 <= num < 256 -> too_few n num = false <-> n <= 2 * num.
Proof.
  intros Hn Hnum. unfold too_few.
  rewrite !u8_small by lia. rewrite Z.gtb_ltb, Z.ltb_ge.
  pose proof (Z.div_mod (n + 1) 2). pose proof (Z.mod_pos_bound (n + 1) 2). lia.
Qed.

Lemma count_if_members_bound P w tid :
  (length (team_members w tid) < 256)%nat ->
  0 <= Z.of_nat (count_if P (team_members w tid)) < 256.
Proof. pose proof (count_if_le_length P (team_members w tid)). lia. Qed.

(** C12: quorum at the start: when the team's registered size is below
    255 and it has fewer than 256 member rows, a successful BindTeam
    had at least half of the registered size confirmed, rounded up:
    [Num <= 2 * StartNum]. *)
Theorem BindTeam_quorum user f w w' team :
  BindTeam user f w = (Some tt, w', [RespSuccess PNil]) ->
  GetTeamByID w f.(bt_TeamID) = Some team ->
  0 <= team.(Team.Num) < 255 ->
  (length (team_members w team.(Team.ID)) < 256)%nat ->
  team.(Team.Num) <= 2 * Z.of_nat (count_if confirmed (team_members w team.(Team.ID))).
Proof.
  intros Hrun Hget Hn Hlen.
  destruct (BindTeam_run_inv _ _ _ _ Hrun) as (team' & Hget' & _ & _ & _ & Hq & _).
  rewrite Hget in Hget'. injection Hget' as <-.
  apply too_few_false in Hq; [done | done | by apply count_if_members_bound].
Qed.

(** C13: a check-in at the finish with confirmation (status 1), for a
    team not yet closed and with members still walking: the team gets
    the last waypoint of its route, status 4 and the current time, and
    every walking member of the team (walk status 2 or 3) is marked
    finished (5); no other row changes. *)
Theorem PostDestination_confirm user f w team :
  keyed w -> PostDestinationForm_ok f = true -> f.(pd_Status) = 1 ->
  GetTeamByID w f.(pd_TeamID) = Some team -> CheckRoute user team = true ->
  team.(Team.Status) <> 3 -> team.(Team.Status) <> 4 ->
  count_if walking (team_members w team.(Team.ID)) <> 0%nat ->
  exists w',
    PostDestination user f w = (Some tt, w', [RespSuccess PNil]) /\
    w'.(teams) = <[team.(Team.ID) := Team.with_progress (end_point team) 4 w.(clock) team]> w.(teams) /\
    (forall k, w'.(people) !! k =
       (fun p => if (p.(Person.TeamId) =? team.(Team.ID)) && walking p
                 then Person.set_walk 5 p else p) <$> w.(people) !! k).
Proof.
  intros Hk Hok Hs Hget Hr H3 H4 Hn. eexists; split.
  { unfold PostDestination. rewrite Hok. cbn [negb].
    rewrite hbind_get, Hget, Hr, (eqb_false _ _ H3), (eqb_false _ _ H4).
    simpl. rewrite (walking_count_pos _ _ Hn), Hs. simpl.
    rewrite hbind_save_each_members by (done || apply finish_keeps_key).
    rewrite hbind_modify. reflexivity. }
  unfold save_team, set_people; simpl. split; [done|].
  intros k. rewrite lookup_fmap. apply option_fmap_ext. intros p.
  unfold member_update, finish, walking. rewrite (orb_comm (_ =? 3)).
  by destruct (_ =? _), (_ || _).
Qed.

(** *** One response; an error writes nothing *)

Lemma single_atomic_error e w : single_atomic (respond_error e) w.
Proof. by exists (RespError e), w. Qed.

Lemma single_atomic_success d w : single_atomic (respond_success d) w.
Proof. by exists (RespSuccess d), w. Qed.

Lemma single_atomic_write g d w :
  single_atomic (let! _ := hmodify g in respond_success d) w.
Proof. exists (RespSuccess d), (g w). by rewrite hbind_modify. Qed.

Lemma single_atomic_save_each f ps g d w :
  single_atomic (let! _ := save_each f ps in let! _ := hmodify g in respond_success d) w.
Proof.
  unfold single_atomic. rewrite (hbind_some _ _ _ _ _ _ (save_each_spec f ps w)), hbind_modify.
  by eexists _, _.
Qed.

Lemma single_atomic_get k w : single_atomic (k w) w -> single_atomic (hbind hget k) w.
Proof. unfold single_atomic. by rewrite hbind_get. Qed.

Ltac single_atomic_tac :=
  repeat first
    [ apply single_atomic_error | apply single_atomic_success
    | apply single_atomic_write | apply single_atomic_save_each
    | apply single_atomic_get; cbn beta
    | case_match ].

(** C16: each check-in handler ends normally (no panic) with exactly one
    response, and when that response is an error the database is
    unchanged: every refusal comes before the first write. *)
Theorem checkin_single_response user w tf bf sf pf :
  single_atomic (GetTeam user tf) w /\ single_atomic (BindTeam user bf) w /\
  single_atomic (UpdateTeamStatus user sf) w /\ single_atomic (PostDestination user pf) w.
Proof.
  split_and!;
    [unfold GetTeam | unfold BindTeam | unfold UpdateTeamStatus | unfold PostDestination];
    single_atomic_tac.
Qed.

(** *** Refinement of the abstract check-in machine *)

Lemma team_moved_refl t : team_moved t t.
Proof. by left. Qed.

Lemma person_moved_refl p : person_moved p p.
Proof. by left. Qed.

Lemma with_progress_moved pt st tm t :
  status_step t.(Team.Status) st -> team_moved t (Team.with_progress pt st tm t).
Proof. intros Hs. right. by repeat split. Qed.

Lemma with_start_moved code n tm t : team_moved t (Team.with_start code n tm t).
Proof. right. repeat split. constructor. Qed.

Lemma advance_moved tid p : person_moved p (member_update advance tid p).
Proof.
  unfold member_update, advance.
  destruct (_ =? tid); [|by left]. destruct (Z.eqb_spec p.(Person.WalkStatus) 3) as [E|]; simpl; [|by left].
  right. split; [rewrite E; constructor | done].
Qed.

Lemma finish_moved tid p : person_moved p (member_update finish tid p).
Proof.
  unfold member_update, finish.
  destruct (_ =? tid); [|by left].
  destruct (Z.eqb_spec p.(Person.WalkStatus) 2), (Z.eqb_spec p.(Person.WalkStatus) 3);
    simpl; try (by left); right; (split; [constructor; auto | done]).
Qed.

Lemma GetTeamByID_found w id t :
  keyed w -> GetTeamByID w id = Some t -> w.(teams) !! t.(Team.ID) = Some t.
Proof.
  intros [_ Hk] Hg. unfold GetTeamByID in Hg.
  by rewrite (Hk _ _ Hg).
Qed.

Lemma GetTeamByCode_found w c t :
  keyed w -> GetTeamByCode w c = Some t -> w.(teams) !! t.(Team.ID) = Some t.
Proof. intros [_ Hk] Hg. by apply first_team_Some in Hg as [? _]. Qed.

Lemma lookup_team_found w f t :
  keyed w -> lookup_team w f = LookupFound t -> w.(teams) !! t.(Team.ID) = Some t.
Proof.
  intros Hk Hl. unfold lookup_team in Hl.
  repeat case_match; simplify_eq;
    eauto using GetTeamByID_found, GetTeamByCode_found.
Qed.

Lemma refines_save_team w t t' :
  w.(teams) !! t.(Team.ID) = Some t -> t'.(Team.ID) = t.(Team.ID) -> team_moved t t' ->
  checkin_refines w (save_team t' w).
Proof.
  intros Ht Hid Hm. unfold save_team, set_teams, checkin_refines; simpl.
  rewrite Hid. split_and!; try done.
  - eapply rows_moved_insert; eauto using team_moved_refl.
  - apply rows_moved_refl, person_moved_refl.
Qed.

Lemma refines_save_members w g tid t t' :
  (forall p, person_moved p (member_update g tid p)) ->
  w.(teams) !! t.(Team.ID) = Some t -> t'.(Team.ID) = t.(Team.ID) -> team_moved t t' ->
  checkin_refines w (save_team t' (set_people (member_update g tid <$> w.(people)) w)).
Proof.
  intros Hg Ht Hid Hm. unfold save_team, set_teams, set_people, checkin_refines; simpl.
  rewrite Hid. split_and!; try done.
  - eapply rows_moved_insert; eauto using team_moved_refl.
  - by apply rows_moved_fmap.
Qed.

Lemma checkin_refines_refl w : checkin_refines w w.
Proof.
  split_and!; try done; apply rows_moved_refl;
    [apply team_moved_refl | apply person_moved_refl].
Qed.

Lemma refines_run_error e w : refines_run (respond_error e) w.
Proof. intros r w' o [= _ <- _]. apply checkin_refines_refl. Qed.

Lemma refines_run_success d w : refines_run (respond_success d) w.
Proof. intros r w' o [= _ <- _]. apply checkin_refines_refl. Qed.

Lemma refines_run_get k w : refines_run (k w) w -> refines_run (hbind hget k) w.
Proof. intros Hk r w' o. rewrite hbind_get. apply Hk. Qed.

Lemma refines_run_write g d w :
  checkin_refines w (g w) -> refines_run (let! _ := hmodify g in respond_success d) w.
Proof. intros Hg r w' o. rewrite hbind_modify. by intros [= _ <- _]. Qed.

Lemma refines_run_save_each f tid g d w :
  keyed w -> keeps_key f ->
  checkin_refines w (g (set_people (member_update f tid <$> w.(people)) w)) ->
  refines_run (let! _ := save_each f (team_members w tid) in
               let! _ := hmodify g in respond_success d) w.
Proof.
  intros Hk Hf Hg r w' o. rewrite hbind_save_each_members by done.
  rewrite hbind_modify. by intros [= _ <- _].
Qed.

Ltac bools_to_props :=
  repeat match goal with
  | H : (_ || _) = false |- _ => apply orb_false_iff in H as [? ?]
  | H : (_ =? _) = false |- _ => apply Z.eqb_neq in H
  end.

(** C3: refinement of the abstract check-in machine: on a well-keyed
    database, every run of the four check-in handlers keeps the set of
    teams and of people, moves each team row by at most one status step
    of [status_step] (identity, route, size and captain kept) and each
    person row by at most one walk-status step of [walk_step] (nothing
    else of the row changed), and touches neither the Redis set, the
    admin table nor the id counter. *)
Theorem checkin_refinement user w tf bf sf pf :
  keyed w ->
  refines_run (GetTeam user tf) w /\ refines_run (BindTeam user bf) w /\
  refines_run (UpdateTeamStatus user sf) w /\ refines_run (PostDestination user pf) w.
Proof.
  intros Hk.
  split_and!;
    [unfold GetTeam | unfold BindTeam | unfold UpdateTeamStatus | unfold PostDestination];
    repeat first
      [ apply refines_run_error | apply refines_run_success
      | apply refines_run_get; cbn beta
      | apply refines_run_write
      | apply refines_run_save_each; [done | apply advance_keeps_key || apply finish_keeps_key |]
      | case_match ].
  all: bools_to_props.
  all: first
    [ eapply refines_save_team;
        [eauto using GetTeamByID_found, lookup_team_found | done |]
    | eapply refines_save_members;
        [apply advance_moved || apply finish_moved
        | eauto using GetTeamByID_found, lookup_team_found | done |] ].
  all: first [apply with_start_moved | apply with_progress_moved; constructor; auto].
Qed.

(** *** Closed teams stay closed under check-ins *)

Lemma keeps_closed_error e w : keeps_closed (respond_error e) w.
Proof. intros r w' o [= _ <- _]. done. Qed.

Lemma keeps_closed_success d w : keeps_closed (respond_success d) w.
Proof. intros r w' o [= _ <- _]. done. Qed.

Lemma keeps_closed_get k w : keeps_closed (k w) w -> keeps_closed (hbind hget k) w.
Proof. intros Hk r w' o. rewrite hbind_get. apply Hk. Qed.

Lemma teams_open_insert w team t' i t :
  w.(teams) !! team.(Team.ID) = Some team ->
  team.(Team.Status) <> 3 -> team.(Team.Status) <> 4 ->
  w.(teams) !! i = Some t -> (t.(Team.Status) = 3 \/ t.(Team.Status) = 4) ->
  <[team.(Team.ID) := t']> w.(teams) !! i = Some t.
Proof.
  intros Hteam H3 H4 Hi Ht. rewrite lookup_insert_ne; [done|].
  intros Heq. rewrite <- Heq, Hteam in Hi. injection Hi as <-. tauto.
Qed.

Lemma keeps_closed_write team t' d w :
  w.(teams) !! team.(Team.ID) = Some team ->
  team.(Team.Status) <> 3 -> team.(Team.Status) <> 4 -> t'.(Team.ID) = team.(Team.ID) ->
  keeps_closed (let! _ := hmodify (save_team t') in respond_success d) w.
Proof.
  intros Hteam H3 H4 Hid r w' o. rewrite hbind_modify. intros [= _ <- _] i t Hi Ht.
  unfold save_team; simpl. rewrite Hid. by eapply teams_open_insert.
Qed.

Lemma keeps_closed_save_each f team t' d w :
  keyed w -> keeps_key f ->
  w.(teams) !! team.(Team.ID) = Some team ->
  team.(Team.Status) <> 3 -> team.(Team.Status) <> 4 -> t'.(Team.ID) = team.(Team.ID) ->
  keeps_closed (let! _ := save_each f (team_members w team.(Team.ID)) in
                let! _ := hmodify (save_team t') in respond_success d) w.
Proof.
  intros Hk Hf Hteam H3 H4 Hid r w' o.
  rewrite hbind_save_each_members, hbind_modify by done. intros [= _ <- _] i t Hi Ht.
  unfold save_team; simpl. rewrite Hid. by eapply teams_open_insert.
Qed.

(** C5: a closed team (status 3 or 4) is never changed by a waypoint
    check-in (UpdateTeamStatus) or a finish scan (PostDestination): the
    only handler that reopens a closed team is BindTeam. *)
Theorem checkin_keeps_closed_teams user w sf pf :
  keyed w ->
  keeps_closed (UpdateTeamStatus user sf) w /\ keeps_closed (PostDestination user pf) w.
Proof.
  intros Hk.
  split; [unfold UpdateTeamStatus | unfold PostDestination];
    repeat first
      [ apply keeps_closed_error | apply keeps_closed_success
      | apply keeps_closed_get; cbn beta
      | case_match ].
  all: bools_to_props.
  all: first
    [ eapply keeps_closed_write | eapply keeps_closed_save_each;
        [done | apply advance_keeps_key || apply finish_keeps_key | ..] ];
    eauto using GetTeamByID_found, lookup_team_found.
Qed.

(** C30: the quorum test is computed in uint8: for a team of registered
    size 255, [team.Num+1] wraps to 0 and the test refuses no number of
    confirmed members; so on every database BindTeam starts such a team
    whose members have all withdrawn, with [StartNum = 0]. *)
Theorem BindTeam_u8_wrap user f w team :
  BindTeamForm_ok f = true -> GetTeamByID w f.(bt_TeamID) = Some team ->
  CheckRoute user team = true -> GetTeamByCode w f.(bt_Code) = None ->
  team.(Team.Num) = 255 ->
  Forall (fun p => p.(Person.WalkStatus) = 4) (team_members w team.(Team.ID)) ->
  (forall num, too_few team.(Team.Num) num = false) /\
  BindTeam user f w =
    (Some tt, save_team (Team.with_start f.(bt_Code) 0 w.(clock) team) w, [RespSuccess PNil]).
Proof.
  intros Hok Hget Hr Hc Hn Hall.
  assert (Hq : forall num, too_few team.(Team.Num) num = false).
  { intros num. rewrite Hn. unfold too_few. pose proof (u8_range num).
    change (u8 (255 + 1) / 2) with 0. rewrite Z.gtb_ltb. apply Z.ltb_ge. lia. }
  split; [exact Hq|].
  pose proof (count_if_confirmed_withdrawn _ Hall) as Hz.
  rewrite (BindTeam_run user f w team Hok Hget Hr Hc), Hz; [reflexivity | | apply Hq].
  eapply Forall_impl; [exact Hall|]. intros p Hp. by right.
Qed.

(** C31: BindTeam succeeds whenever its guards pass, and none of them
    reads the team's status: a team at any status, a closed one (3 or
    4) included, is bound to the new code and restarted at point 0,
    status 5, with the confirmed members as [StartNum]. *)
Theorem BindTeam_accepts user f w team :
  BindTeamForm_ok f = true -> GetTeamByID w f.(bt_TeamID) = Some team ->
  CheckRoute user team = true -> GetTeamByCode w f.(bt_Code) = None ->
  Forall (fun p => p.(Person.WalkStatus) = 3 \/ p.(Person.WalkStatus) = 4)
         (team_members w team.(Team.ID)) ->
  too_few team.(Team.Num) (Z.of_nat (count_if confirmed (team_members w team.(Team.ID)))) = false ->
  BindTeam user f w =
    (Some tt, save_team (Team.with_start f.(bt_Code)
                           (Z.of_nat (count_if confirmed (team_members w team.(Team.ID))))
                           w.(clock) team) w, [RespSuccess PNil]).
Proof. apply BindTeam_run. Qed.

(** The row [first_team] finds when one row only satisfies [P] *)
Lemma first_team_unique P ts k t :
  map_Forall (fun k t => t.(Team.ID) = k) ts -> ts !! k = Some t -> P t = true ->
  (forall k' t', ts !! k' = Some t' -> P t' = true -> k' = k) ->
  first_team P ts = Some t.
Proof.
  intros Hk Ht HP Huniq. destruct (first_team P ts) as [t'|] eqn:E.
  - apply (first_team_Some _ _ _ Hk) in E as [Ht' HP'].
    pose proof (Huniq _ _ Ht' HP') as Heq. rewrite Heq in Ht'. congruence.
  - apply first_team_None in E. by rewrite (E _ _ Ht) in HP.
Qed.

(** C36: the check-in code BindTeam binds identifies the started team:
    after a successful BindTeam, a waypoint scan of that code (code type
    2) looks up exactly the team row BindTeam wrote, at status 5 with the
    code, since BindTeam refused a code already bound to a team. *)
Theorem BindTeam_code_lookup user f w w' :
  keyed w -> BindTeam user f w = (Some tt, w', [RespSuccess PNil]) ->
  exists team,
    GetTeamByID w f.(bt_TeamID) = Some team /\
    lookup_team w' {| ts_CodeType := 2; ts_Content := f.(bt_Code) |} =
      LookupFound (Team.with_start f.(bt_Code)
                     (Z.of_nat (count_if confirmed (team_members w team.(Team.ID)))) w.(clock) team) /\
    w'.(teams) !! team.(Team.ID) =
      Some (Team.with_start f.(bt_Code)
              (Z.of_nat (count_if confirmed (team_members w team.(Team.ID)))) w.(clock) team).
Proof.
  intros Hk Hrun.
  destruct (BindTeam_run_inv _ _ _ _ Hrun) as (team & Hget & _ & Hcode & _ & _ & ->).
  exists team. set (t' := Team.with_start _ _ _ team).
  assert (Hin : <[team.(Team.ID) := t']> w.(teams) !! team.(Team.ID) = Some t')
    by apply lookup_insert_eq.
  split_and!; [done | | exact Hin].
  unfold lookup_team. cbn [ts_CodeType ts_Content Z.eqb Pos.eqb]. unfold GetTeamByCode.
  apply first_team_None in Hcode.
  pose proof (GetTeamByID_found _ _ _ Hk Hget) as Hteam.
  erewrite first_team_unique; [reflexivity | | exact Hin | by apply bool_decide_eq_true_2 |].
  - apply map_Forall_insert_2; [reflexivity | exact (proj2 Hk)].
  - intros k t2 Hk2 HP. destruct (decide (k = team.(Team.ID))) as [->|Hne]; [done|].
    change ((save_team t' w).(teams)) with (<[team.(Team.ID) := t']> w.(teams)) in Hk2.
    rewrite lookup_insert_ne in Hk2 by congruence. by rewrite (Hcode _ _ Hk2) in HP.
Qed.

End CheckInProofs.

(** ** Witnesses *)

Section Witnesses.
Import Samples CheckInSamples.

Lemma keyed_w_started : keyed w_started.
Proof. apply (bool_decide_unpack _). vm_compute. reflexivity. Qed.

Lemma UpdateTeamStatus_checkin_witness :
  exists w', UpdateTeamStatus (admin 1 3) qr7_form w_started =
    (Some tt, w', [RespSuccess (PProgress 2)]).
Proof.
  destruct (UpdateTeamStatus_checkin (admin 1 3) qr7_form w_started
              (team 7 1 2 5 3 "a" "qr7") 3 keyed_w_started
              ltac:(vm_compute; reflexivity) ltac:(vm_compute; reflexivity)
              ltac:(vm_compute; reflexivity) ltac:(vm_compute; discriminate)
              ltac:(vm_compute; discriminate) ltac:(vm_compute; discriminate)
              ltac:(vm_compute; discriminate) ltac:(vm_compute; reflexivity))
    as (w' & Hrun & _).
  exists w'. exact Hrun.
Defined.

Lemma BindTeam_quorum_witness :
  3 <= 2 * Z.of_nat (count_if confirmed (team_members w_ready 7)).
Proof.
  eapply (BindTeam_quorum (admin 1 0) {| bt_TeamID := 7; bt_Type := 2; bt_Code := "qr7" |}
            w_ready _ (team 7 1 (-1) 1 3 "a" "")).
  - vm_compute. reflexivity.
  - vm_compute. reflexivity.
  - cbn. lia.
  - apply Nat.ltb_lt. vm_compute. reflexivity.
Defined.

Lemma PostDestination_confirm_witness :
  exists w', PostDestination (admin 1 4) {| pd_TeamID := 7; pd_Status := 1 |} w_started
               = (Some tt, w', [RespSuccess PNil]).
Proof.
  destruct (PostDestination_confirm (admin 1 4) {| pd_TeamID := 7; pd_Status := 1 |}
              w_started (team 7 1 2 5 3 "a" "qr7") keyed_w_started
              ltac:(vm_compute; reflexivity) ltac:(vm_compute; reflexivity)
              ltac:(vm_compute; reflexivity) ltac:(vm_compute; reflexivity)
              ltac:(vm_compute; discriminate) ltac:(vm_compute; discriminate)
              ltac:(vm_compute; discriminate)) as (w' & Hrun & _).
  exists w'. exact Hrun.
Defined.

Lemma BindTeam_accepts_witness :
  (BindTeam (admin 1 0) {| bt_TeamID := 7; bt_Type := 2; bt_Code := "new" |} w_closed).2
    = [RespSuccess PNil].
Proof.
  rewrite (BindTeam_accepts (admin 1 0) {| bt_TeamID := 7; bt_Type := 2; bt_Code := "new" |}
             w_closed (team 7 1 4 3 2 "a" "qr7") eq_refl ltac:(vm_compute; reflexivity) eq_refl
             ltac:(vm_compute; reflexivity)
             ltac:(apply (bool_decide_unpack _); vm_compute; reflexivity)
             ltac:(vm_compute; reflexivity)).
  reflexivity.
Defined.

Lemma BindTeam_u8_wrap_witness :
  (BindTeam (admin 1 0) {| bt_TeamID := 9; bt_Type := 2; bt_Code := "qr9" |} w_overflow).2
    = [RespSuccess PNil].
Proof.
  rewrite (proj2 (BindTeam_u8_wrap (admin 1 0) {| bt_TeamID := 9; bt_Type := 2; bt_Code := "qr9" |}
             w_overflow (team 9 1 (-1) 1 255 "x" "") eq_refl ltac:(vm_compute; reflexivity) eq_refl
             ltac:(vm_compute; reflexivity) eq_refl ltac:(vm_compute; repeat constructor))).
  reflexivity.
Defined.

Lemma UpdateTeamStatus_refuses_witness :
  UpdateTeamStatus (admin 2 3) {| ts_CodeType := 1; ts_Content := "8" |} w_started
    = (Some tt, w_started, [RespError ErrNotStarted]).
Proof.
  destruct (UpdateTeamStatus_refuses (admin 2 3) {| ts_CodeType := 1; ts_Content := "8" |}
              w_started (team 8 2 (-1) 1 1 "e" "") ltac:(vm_compute; reflexivity)
              ltac:(vm_compute; reflexivity) ltac:(vm_compute; reflexivity))
    as [HA | [HB | HC]].
  - exact (proj2 HA).
  - destruct HB as [Hs _]. vm_compute in Hs. destruct Hs; discriminate.
  - destruct HC as [Hs _]. exfalso. apply Hs. reflexivity.
Defined.

Lemma UpdateTeamStatus_all_out_witness :
  UpdateTeamStatus (admin 1 3) qr7_form w_all_out
    = (Some tt, save_team (Team.with_progress (end_point (team 7 1 2 2 2 "a" "qr7")) 3
                             (Team.Time (team 7 1 2 2 2 "a" "qr7")) (team 7 1 2 2 2 "a" "qr7"))
                  w_all_out,
       [RespSuccess (PProgress 0)]).
Proof.
  apply (UpdateTeamStatus_all_out (admin 1 3) qr7_form w_all_out (team 7 1 2 2 2 "a" "qr7"));
    vm_compute; (reflexivity || discriminate).
Defined.

Lemma BindTeam_success_witness :
  exists t, GetTeamByID w_ready 7 = Some t /\ CheckRoute (admin 1 0) t = true.
Proof.
  destruct (@BindTeam_success sample_config (admin 1 0) bind7_form w_ready w_ready_bound
              ltac:(vm_compute; reflexivity)) as (t & Hg & Hr & _).
  exists t. split; [exact Hg | exact Hr].
Defined.

Lemma checkin_refinement_witness :
  refines_run (UpdateTeamStatus (admin 1 3) qr7_form) w_started /\
  refines_run (BindTeam (admin 1 0) bind7_form) w_started.
Proof.
  destruct (checkin_refinement (admin 1 3) w_started {| tf_CodeType := 2; tf_Content := "qr7" |}
              bind7_form qr7_form {| pd_TeamID := 7; pd_Status := 1 |} keyed_w_started)
    as (_ & Hb & Hu & _).
  split; [exact Hu | ].
  destruct (checkin_refinement (admin 1 0) w_started {| tf_CodeType := 2; tf_Content := "qr7" |}
              bind7_form qr7_form {| pd_TeamID := 7; pd_Status := 1 |} keyed_w_started)
    as (_ & Hb' & _).
  exact Hb'.
Defined.

Lemma checkin_keeps_closed_teams_witness :
  keeps_closed (PostDestination (admin 1 4) {| pd_TeamID := 7; pd_Status := 1 |}) w_closed.
Proof.
  apply (checkin_keeps_closed_teams (admin 1 4) w_closed qr7_form {| pd_TeamID := 7; pd_Status := 1 |}).
  apply (bool_decide_unpack _). vm_compute. reflexivity.
Defined.
Lemma BindTeam_code_lookup_witness :
  exists t, lookup_team w_ready_bound {| ts_CodeType := 2; ts_Content := "qr7" |} = LookupFound t.
Proof.
  destruct (@BindTeam_code_lookup sample_config (admin 1 0) bind7_form w_ready w_ready_bound
              ltac:(apply (bool_decide_unpack _); vm_compute; reflexivity)
              ltac:(vm_compute; reflexivity)) as (team & _ & Hl & _).
  eexists. exact Hl.
Defined.

End Witnesses.
