(* ===== verification/UserStatus.v ===== *)
(** * Batch update of members' walk status

    src/controller/admin/user.go: an administrator scans several members
    and marks each as confirmed present (status 1 -> walk status 3) or
    withdrawn (status 2 -> walk status 4).  [getUsersAndTeams] loads every
    listed person and its team; the handler then checks, for every loaded
    person, that the team is on the administrator's route and that the
    person has not finished (walk status 5), and only then writes.

    The check loop ranges over a Go map, whose iteration order is
    unspecified: the model takes the order as the section variable
    [iter_order], any permutation of the map's entries, and the theorems
    hold for every such order.  The [userMap] of the source holds pointers:
    a person listed twice is the same object, so the second write sees
    the first; the model threads the map through the write loop. *)

From Stdlib Require Import ZArith Lia.
From stdpp Require Import base gmap strings list.
From S2P Require Import Prelude Model Samples.

Local Open Scope Z_scope.
Local Open Scope handler_scope.

Section UserStatus.
Context `{WalkConfig}.

(** Go's iteration order over [map[string]*model.Person] *)
Variable iter_order : gmap string Person.t -> list (string * Person.t).

(** [UserStatusForm]; the [binding] tags of its fields are not checked,
    because the [List] field has no [dive] tag. *)
Record UserStatusForm := { us_UserID : string; us_Status : Z }.

(** [UserStatusList]: [list] required, i.e. not null *)
Record UserStatusList := { us_List : option (list UserStatusForm) }.

(** [getUsersAndTeams], lines 78-99 *)
Fixpoint getUsersAndTeams (w : World) (forms : list UserStatusForm)
    (userMap : gmap string Person.t) (teamMap : gmap Z Team.t)
    : ErrMsg + (gmap string Person.t * gmap Z Team.t) :=
  match forms with
  | [] => inr (userMap, teamMap)
  | f :: fs =>
      match GetPerson w f.(us_UserID) with
      | None => inl ErrUserLookup
      | Some person =>
          let userMap := <[f.(us_UserID) := person]> userMap in
          match teamMap !! person.(Person.TeamId) with
          | Some _ => getUsersAndTeams w fs userMap teamMap
          | None =>
              match w.(teams) !! person.(Person.TeamId) with
              | None => inl ErrTeamInfo
              | Some team =>
                  getUsersAndTeams w fs userMap (<[person.(Person.TeamId) := team]> teamMap)
              end
          end
      end
  end.

(** The permission loop, lines 43-61: the first failure in iteration order *)
Fixpoint check_users (user : Admin.t) (teamMap : gmap Z Team.t)
    (us : list (string * Person.t)) : option ErrMsg :=
  match us with
  | [] => None
  | (_, person) :: us' =>
      match teamMap !! person.(Person.TeamId) with
      | None => Some ErrTeamInfo
      | Some team =>
          if negb (CheckRoute user team) then Some ErrOtherRoute
          else if person.(Person.WalkStatus) =? 5 then Some ErrMemberFinished
          else check_users user teamMap us'
      end
  end.

(** [if form.Status == 1 { 3 } else { 4 }] *)
Definition new_walk_status (st : Z) : Z := if st =? 1 then 3 else 4.

(** The write loop, lines 64-72, through the shared [*Person] pointers *)
Fixpoint apply_status (forms : list UserStatusForm) (users : gmap string Person.t) : H unit :=
  match forms with
  | [] => hret tt
  | f :: fs =>
      match users !! f.(us_UserID) with
      | None => hpanic
      | Some person =>
          let person := Person.set_walk (new_walk_status f.(us_Status)) person in
          let! _ := hmodify (save_person person) in
          apply_status fs (<[f.(us_UserID) := person]> users)
      end
  end.

(** [UserStatus], lines 25-75 *)
Definition UserStatus (user : Admin.t) (form : UserStatusList) : H unit :=
  match form.(us_List) with
  | None => respond_error ErrParam
  | Some forms =>
      let! w := hget in
      match getUsersAndTeams w forms ∅ ∅ with
      | inl e => respond_error e
      | inr (users, teams) =>
          match check_users user teams (iter_order users) with
          | Some e => respond_error e
          | None =>
              let! _ := apply_status forms users in
              respond_success PNil
          end
      end
  end.

(** ** Specifications *)

(** The walk status the last form naming [k] gives, if any *)
Fixpoint last_status (forms : list UserStatusForm) (k : string) : option Z :=
  match forms with
  | [] => None
  | f :: fs =>
      match last_status fs k with
      | Some st => Some st
      | None => if bool_decide (f.(us_UserID) = k) then Some (new_walk_status f.(us_Status)) else None
      end
  end.

End UserStatus.

(** ** Sample inputs of the witnesses *)

Module UserStatusSamples.
Import Samples.

(** Go's order taken as the order of [map_to_list] *)
Definition list_order (m : gmap string Person.t) : list (string * Person.t) := map_to_list m.

Definition mark_ab : UserStatusList :=
  {| us_List := Some [{| us_UserID := "a"; us_Status := 1 |}; {| us_UserID := "b"; us_Status := 2 |}] |}.
End UserStatusSamples.

Section UserStatusProofs.
Context `{WalkConfig}.

Lemma check_users_None user tm us :
  check_users user tm us = None <->
  Forall (fun kp => exists t, tm !! kp.2.(Person.TeamId) = Some t /\
                              CheckRoute user t = true /\ kp.2.(Person.WalkStatus) <> 5) us.
Proof.
  induction us as [|[k p] us IH]; simpl; [split; auto|].
  rewrite Forall_cons, <- IH. simpl.
  destruct (tm !! p.(Person.TeamId)) as [t|].
  - destruct (CheckRoute user t) eqn:Hr; simpl.
    + destruct (Z.eqb_spec p.(Person.WalkStatus) 5); [|naive_solver].
      split; [discriminate | intros [(t' & [= <-] & _ & ?) _]; contradiction].
    + split; [discriminate | intros [(t' & [= <-] & ? & _) _]; congruence].
  - split; [discriminate | intros [(t' & ? & _) _]; discriminate].
Qed.

Lemma apply_status_run forms users w :
  (forall f, f ∈ forms -> is_Some (users !! f.(us_UserID))) ->
  (forall k p, users !! k = Some p -> p.(Person.OpenId) = k) ->
  exists w', apply_status forms users w = (Some tt, w', []) /\
    w' = set_people w'.(people) w /\
    forall k, w'.(people) !! k =
      match last_status forms k with
      | Some st => Person.set_walk st <$> users !! k
      | None => w.(people) !! k
      end.
Proof.
  revert users w. induction forms as [|f fs IH]; intros users w Hin Hkey; simpl.
  - exists w. by destruct w.
  - destruct (Hin f ltac:(set_solver)) as [p Hp]. rewrite Hp, hbind_modify.
    set (p' := Person.set_walk (new_walk_status f.(us_Status)) p).
    destruct (IH (<[f.(us_UserID) := p']> users) (save_person p' w)) as (w' & Hrun & Hw' & Hpeople).
    + intros g Hg. rewrite lookup_insert_is_Some'. right. apply Hin. set_solver.
    + intros k q. rewrite lookup_insert_Some. intros [[<- <-] | [_ Hq]]; [|by apply Hkey].
      apply (Hkey _ _ Hp).
    + exists w'. rewrite Hrun. split; [done|]. split; [rewrite Hw'; by destruct w|].
      intros k. rewrite Hpeople.
      assert (Hpk : p'.(Person.OpenId) = f.(us_UserID)) by apply (Hkey _ _ Hp).
      destruct (last_status fs k) as [st|] eqn:Hl.
      * destruct (decide (f.(us_UserID) = k)) as [<-|Hne].
        -- by rewrite lookup_insert_eq, Hp.
        -- by rewrite lookup_insert_ne.
      * rewrite people_save_person, Hpk.
        destruct (decide (f.(us_UserID) = k)) as [<-|Hne].
        -- rewrite bool_decide_true, lookup_insert_eq, Hp by done. done.
        -- rewrite bool_decide_false, lookup_insert_ne by done. done.
Qed.
End UserStatusProofs.

Section UserStatusTheorems.
Context `{WalkConfig}.
Variable iter_order : gmap string Person.t -> list (string * Person.t).
Hypothesis iter_order_perm : forall m, iter_order m ≡ₚ map_to_list m.

Definition loaded (w : World) (um : gmap string Person.t) : Prop :=
  forall k p, um !! k = Some p -> p.(Person.OpenId) = k /\ w.(people) !! k = Some p.

Lemma getUsersAndTeams_ok w forms um tm um' tm' :
  keyed w -> loaded w um ->
  (forall i t, tm !! i = Some t -> w.(teams) !! i = Some t) ->
  getUsersAndTeams w forms um tm = inr (um', tm') ->
  (forall f, f ∈ forms -> is_Some (um' !! f.(us_UserID))) /\
  loaded w um' /\
  (forall i t, tm' !! i = Some t -> w.(teams) !! i = Some t) /\
  (forall k, um' !! k = if bool_decide (k ∈ us_UserID <$> forms) then w.(people) !! k else um !! k).
Proof.
  intros Hk. revert um tm. induction forms as [|f fs IH]; intros um tm Hum Htm; simpl.
  - intros [= <- <-]. split_and!; try done; intros f Hf; set_solver.
  - unfold GetPerson. destruct (w.(people) !! f.(us_UserID)) as [person|] eqn:Ep; [|discriminate].
    assert (Hum1 : loaded w (<[f.(us_UserID) := person]> um)).
    { intros k p. rewrite lookup_insert_Some. intros [[<- <-] | [_ Hp]]; [|by apply Hum].
      split; [|done]. destruct Hk as [Hkp _]. apply (Hkp _ _ Ep). }
    assert (Hlast : forall m : gmap string Person.t, (forall k, m !! k = if bool_decide (k ∈ us_UserID <$> fs)
                               then w.(people) !! k else <[f.(us_UserID) := person]> um !! k) ->
              forall k, m !! k = if bool_decide (k ∈ us_UserID <$> f :: fs)
                                   then w.(people) !! k else um !! k).
    { intros m Hm k. rewrite Hm. rewrite fmap_cons.
      destruct (decide (k = f.(us_UserID))) as [->|Hne].
      - rewrite lookup_insert_eq, Ep. by case_bool_decide; rewrite bool_decide_true by set_solver.
      - rewrite lookup_insert_ne by done.
        destruct (decide (k ∈ us_UserID <$> fs)).
        + rewrite !bool_decide_true by set_solver. done.
        + rewrite !bool_decide_false by set_solver. done. }
    destruct (tm !! person.(Person.TeamId)) as [t|].
    + intros Hrun. destruct (IH _ _ Hum1 Htm Hrun) as (Hs & ? & ? & Hu).
      split_and!; eauto. intros g [->|Hg]%elem_of_cons; [|by apply Hs].
      rewrite (Hlast _ Hu), bool_decide_true, Ep by set_solver. eauto.
    + destruct (w.(teams) !! person.(Person.TeamId)) as [t|] eqn:Et; [|discriminate].
      intros Hrun.
      assert (Htm1 : forall i t', <[person.(Person.TeamId) := t]> tm !! i = Some t' ->
                                  w.(teams) !! i = Some t').
      { intros i t'. rewrite lookup_insert_Some. intros [[<- <-] | [_ ?]]; eauto. }
      destruct (IH _ _ Hum1 Htm1 Hrun) as (Hs & ? & ? & Hu).
      split_and!; eauto. intros g [->|Hg]%elem_of_cons; [|by apply Hs].
      rewrite (Hlast _ Hu), bool_decide_true, Ep by set_solver. eauto.
Qed.

Lemma last_status_listed forms k st :
  last_status forms k = Some st -> k ∈ us_UserID <$> forms /\ (st = 3 \/ st = 4).
Proof.
  induction forms as [|f fs IH]; simpl; [discriminate|].
  destruct (last_status fs k) as [st'|]; [intros [= <-]; set_solver|].
  case_bool_decide as Heq; [|discriminate]. intros [= <-]. subst k.
  split; [set_solver|]. unfold new_walk_status. destruct (_ =? 1); auto.
Qed.

(** The success path of [UserStatus], as the lemmas above see it *)
Lemma UserStatus_unfold user forms w :
  UserStatus iter_order user {| us_List := Some forms |} w =
  match getUsersAndTeams w forms ∅ ∅ with
  | inl e => (Some tt, w, [RespError e])
  | inr (users, tm) =>
      match check_users user tm (iter_order users) with
      | Some e => (Some tt, w, [RespError e])
      | None => hbind (apply_status forms users) (fun _ => respond_success PNil) w
      end
  end.
Proof.
  unfold UserStatus; simpl. rewrite hbind_get.
  destruct (getUsersAndTeams w forms ∅ ∅) as [e|[users tm]]; [done|].
  by destruct (check_users _ _ _).
Qed.

Lemma loaded_empty w : loaded w ∅.
Proof. intros k p. by rewrite lookup_empty. Qed.

Lemma teams_empty_sub w : forall i (t : Team.t), (∅ : gmap Z Team.t) !! i = Some t -> w.(teams) !! i = Some t.
Proof. intros i t. by rewrite lookup_empty. Qed.

Lemma UserStatus_write_path forms w um tm :
  keyed w -> getUsersAndTeams w forms ∅ ∅ = inr (um, tm) ->
  exists w1, apply_status forms um w = (Some tt, w1, []) /\ w1 = set_people w1.(people) w /\
    forall k, w1.(people) !! k =
      match last_status forms k with
      | Some st => Person.set_walk st <$> w.(people) !! k
      | None => w.(people) !! k
      end.
Proof.
  intros Hk E.
  destruct (getUsersAndTeams_ok _ _ _ _ _ _ Hk (loaded_empty w) (teams_empty_sub w) E)
    as (Hsome & Hload & _ & Hum).
  destruct (apply_status_run forms um w) as (w1 & Hr & Hw1 & Hp).
  - exact Hsome.
  - intros k p Hp. by apply Hload in Hp as [? _].
  - exists w1. split_and!; [done | done |]. intros k. rewrite Hp.
    destruct (last_status forms k) as [st|] eqn:L; [|done].
    apply last_status_listed in L as [Hin _]. rewrite Hum, bool_decide_true by done. done.
Qed.

(** C17: a successful batch update sets the walk status of every listed
    member to 3 (form status 1) or 4 (any other status), the last form
    for a member winning, and changes nothing else: no other person, no
    team. *)
Theorem UserStatus_success user forms w w' :
  keyed w ->
  UserStatus iter_order user {| us_List := Some forms |} w = (Some tt, w', [RespSuccess PNil]) ->
  w'.(teams) = w.(teams) /\
  forall k, w'.(people) !! k =
    match last_status forms k with
    | Some st => Person.set_walk st <$> w.(people) !! k
    | None => w.(people) !! k
    end.
Proof.
  intros Hk Hrun. rewrite UserStatus_unfold in Hrun.
  destruct (getUsersAndTeams w forms ∅ ∅) as [e|[um tm]] eqn:E; [by inversion Hrun|].
  destruct (check_users _ _ _); [by inversion Hrun|].
  destruct (UserStatus_write_path forms w um tm Hk E) as (w1 & Hr & Hw1 & Hp).
  rewrite (hbind_some _ _ _ _ _ _ Hr) in Hrun. injection Hrun as <-.
  split; [rewrite Hw1; by destruct w | exact Hp].
Qed.

(** C6: UserStatus changes a person only if that person's open id is
    listed in the request's form list, has not finished (walk status 5)
    and belongs to a team of the administrator's route, and the change
    sets the walk status to 3 or 4; no person row is created. *)
Theorem UserStatus_safe user form w r w' o :
  keyed w -> UserStatus iter_order user form w = (r, w', o) ->
  (forall k, w.(people) !! k = None -> w'.(people) !! k = None) /\
  forall k p, w.(people) !! k = Some p -> w'.(people) !! k <> Some p ->
  (exists forms, form.(us_List) = Some forms /\ k ∈ us_UserID <$> forms) /\
  p.(Person.WalkStatus) <> 5 /\
  (exists t, w.(teams) !! p.(Person.TeamId) = Some t /\ CheckRoute user t = true) /\
  exists st, (st = 3 \/ st = 4) /\ w'.(people) !! k = Some (Person.set_walk st p).
Proof.
  intros Hk Hrun. destruct form as [[forms|]];
    [|unfold UserStatus in Hrun; simpl in Hrun; injection Hrun as <- <- <-;
      split; [done | intros k p Hp Hne; contradiction]].
  rewrite UserStatus_unfold in Hrun.
  destruct (getUsersAndTeams w forms ∅ ∅) as [e|[um tm]] eqn:E;
    [injection Hrun as <- <- <-; split; [done | intros k p Hp Hne; contradiction]|].
  destruct (check_users _ _ _) eqn:C;
    [injection Hrun as <- <- <-; split; [done | intros k p Hp Hne; contradiction]|].
  destruct (UserStatus_write_path forms w um tm Hk E) as (w1 & Hr & Hw1 & Hpeople).
  rewrite (hbind_some _ _ _ _ _ _ Hr) in Hrun. injection Hrun as <- <- <-.
  split; [intros k Hn; rewrite Hpeople, Hn; by destruct (last_status forms k)|].
  intros k p Hp Hne. rewrite Hpeople, Hp in Hne |- *.
  destruct (last_status forms k) as [st|] eqn:L; [|contradiction].
  apply last_status_listed in L as [Hin Hst].
  destruct (getUsersAndTeams_ok _ _ _ _ _ _ Hk (loaded_empty w) (teams_empty_sub w) E)
    as (_ & _ & Htm & Hum).
  assert (Huk : um !! k = Some p) by (rewrite Hum, bool_decide_true by done; exact Hp).
  apply check_users_None in C. rewrite iter_order_perm in C.
  assert ((k, p) ∈ map_to_list um) as Hin' by (by apply elem_of_map_to_list).
  rewrite Forall_forall in C. destruct (C _ Hin') as (t & Ht & Hr' & H5).
  split_and!; [by exists forms | eauto ..].
Qed.

(** C18: UserStatus ends normally with exactly one response, and when
    that response is an error nothing is written: every check precedes
    the first write. *)
Theorem UserStatus_single_response user form w :
  keyed w -> single_atomic (UserStatus iter_order user form) w.
Proof.
  intros Hk. destruct form as [[forms|]]; [|by eexists _, _].
  unfold single_atomic. rewrite UserStatus_unfold.
  destruct (getUsersAndTeams w forms ∅ ∅) as [e|[um tm]] eqn:E; [by eexists _, _|].
  destruct (check_users _ _ _); [by eexists _, _|].
  destruct (UserStatus_write_path forms w um tm Hk E) as (w1 & Hr & _).
  rewrite (hbind_some _ _ _ _ _ _ Hr). by eexists _, _.
Qed.
End UserStatusTheorems.

Lemma check_users_perm `{WalkConfig} user tm l1 l2 :
  l1 ≡ₚ l2 -> check_users user tm l1 = None <-> check_users user tm l2 = None.
Proof. intros Hp. rewrite !check_users_None. by rewrite Hp. Qed.

(** C19: the outcome of UserStatus does not depend on the iteration order
    of the Go map in its check loop: for any two orders, the database
    written and whether the response is an error are the same; only the
    text of the error may differ. *)
Theorem UserStatus_order_independent `{WalkConfig}
    (o1 o2 : gmap string Person.t -> list (string * Person.t)) user form w :
  (forall m, o1 m ≡ₚ map_to_list m) -> (forall m, o2 m ≡ₚ map_to_list m) ->
  (UserStatus o1 user form w).1 = (UserStatus o2 user form w).1 /\
  is_error <$> (UserStatus o1 user form w).2 = is_error <$> (UserStatus o2 user form w).2.
Proof.
  intros H1 H2. destruct form as [[forms|]]; [|done].
  rewrite !UserStatus_unfold.
  destruct (getUsersAndTeams w forms ∅ ∅) as [e|[um tm]]; [done|].
  assert (Hiff : check_users user tm (o1 um) = None <-> check_users user tm (o2 um) = None)
    by (apply check_users_perm; by rewrite H1, H2).
  destruct (check_users user tm (o1 um)) eqn:C1, (check_users user tm (o2 um)) eqn:C2;
    try done; exfalso; naive_solver.
Qed.

(** ** Witnesses *)

Section Witnesses.
Import Samples UserStatusSamples.

Lemma keyed_w_started_us : keyed w_started.
Proof. apply (bool_decide_unpack _). vm_compute. reflexivity. Qed.

Lemma list_order_perm : forall m, list_order m ≡ₚ map_to_list m.
Proof. intros m. reflexivity. Qed.

Lemma UserStatus_success_witness :
  exists w', UserStatus list_order (admin 1 2) mark_ab w_started = (Some tt, w', [RespSuccess PNil]) /\
             w'.(teams) = w_started.(teams).
Proof.
  destruct (UserStatus list_order (admin 1 2) mark_ab w_started) as [[r w'] o] eqn:Hrun.
  pose proof Hrun as Hc. vm_compute in Hc. injection Hc as <- _ <-.
  exists w'. split; [reflexivity|].
  exact (proj1 (UserStatus_success list_order list_order_perm (admin 1 2) _ w_started w' keyed_w_started_us Hrun)).
Defined.

Lemma UserStatus_safe_witness :
  (UserStatus list_order (admin 1 2) mark_ab w_started).1.2.(people) !! "zz" = None.
Proof.
  destruct (UserStatus list_order (admin 1 2) mark_ab w_started) as [[r w'] o] eqn:Hrun.
  exact (proj1 (UserStatus_safe list_order list_order_perm (admin 1 2) mark_ab w_started r w' o
                  keyed_w_started_us Hrun) "zz" ltac:(vm_compute; reflexivity)).
Defined.

Lemma UserStatus_single_response_witness :
  single_atomic (UserStatus list_order (admin 1 2) mark_ab) w_started.
Proof. exact (UserStatus_single_response list_order list_order_perm (admin 1 2) mark_ab w_started keyed_w_started_us). Defined.

Lemma UserStatus_order_independent_witness :
  (UserStatus list_order (admin 2 2) mark_ab w_started).1 =
  (UserStatus (fun m => rev (map_to_list m)) (admin 2 2) mark_ab w_started).1.
Proof.
  apply (UserStatus_order_independent list_order (fun m => rev (map_to_list m)));
    [exact list_order_perm | intros m; symmetry; apply Permutation_rev].
Defined.

End Witnesses.
