(* ===== verification/Regroup.v ===== *)
(** * Dissolving and re-forming teams: Regroup and SubmitTeam

    src/controller/admin/team.go, lines 336-491.  [Regroup] receives the
    scanned login tokens of several participants, checks that none of
    them belongs to a team that has started, dissolves every team one of
    them belongs to (all its members are reset to "no team", walk status
    1, and the team row is deleted), creates a new team whose captain is
    the first scanned participant, and assigns every scanned participant
    to it.  [SubmitTeam] marks a team submitted.

    Modelled as written, including:
    - the duplicate-scan check writes an error response but does not
      return;
    - [jwt[7:]] panics on a token shorter than 7 bytes, [persons[0]]
      panics on an empty scan list, and [team.Status] panics when a
      participant's team row is missing (nil pointer);
    - [teamService.Create(newTeam)] receives a copy, so [newTeam.ID]
      stays 0 in the handler;
    - the final loop saves the copies of the participants taken when they
      were scanned.
    The JWT check [utility.ParseToken] is outside src/: it is the section
    variable [ParseToken] (token -> open id).  [model.GetPersonsInTeam]
    is outside src/ as well: it returns the member of status 2 (the
    captain; the Go zero value when there is none) and the other
    members. *)

From Stdlib Require Import ZArith Lia String.
From stdpp Require Import base gmap strings list.
From S2P Require Import Prelude Model Strconv Samples.

Local Open Scope Z_scope.
Local Open Scope handler_scope.

Section Regroup.
Context `{WalkConfig}.

(** [utility.ParseToken(token)]: the open id the token carries, if valid *)
Variable ParseToken : string -> option string.

(** [RegroupForm]: [jwts] (a non-nil array), [secret] and [route] (a
    non-zero uint8) required *)
Record RegroupForm := { rg_Jwts : option (list string); rg_Secret : string; rg_Route : Z }.

Definition RegroupForm_ok (f : RegroupForm) : bool :=
  bool_decide (is_Some f.(rg_Jwts)) && negb (bool_decide (f.(rg_Secret) = ""%string)) &&
  (0 <? f.(rg_Route)) && (f.(rg_Route) <=? 255).

(** [SubmitTeamForm]: [team_id] (a non-zero uint) and [secret] required *)
Record SubmitTeamForm := { sb_TeamID : Z; sb_Secret : string }.

Definition SubmitTeamForm_ok (f : SubmitTeamForm) : bool :=
  (0 <? f.(sb_TeamID)) && negb (bool_decide (f.(sb_Secret) = ""%string)).

(** The Go zero value of [model.Person] *)
Definition zero_person : Person.t :=
  Person.mk "" "" 0 "" 0 "" 0 "" "" "" "" 0 0 0 0 0.

(** [model.GetPersonsInTeam(teamId)]: (captain, other members) *)
Definition GetPersonsInTeam (w : World) (tid : Z) : Person.t * list Person.t :=
  let ms := team_members w tid in
  match list_find (fun p => p.(Person.Status) = 2) ms with
  | Some (i, cap) => (cap, delete i ms)
  | None => (zero_person, ms)
  end.

(** [p.TeamId = -1; p.Status = 0; p.WalkStatus = 1] *)
Definition reset (p : Person.t) : Person.t := Person.set_team (-1) 0 (Person.set_walk 1 p).

(** The scan loop, lines 357-389: [Some persons] to go on, [None] after a
    [return]. *)
Fixpoint scan_jwts (w : World) (jwts : list string) (processed : gset string)
    (persons : list Person.t) : H (option (list Person.t)) :=
  match jwts with
  | [] => hret (Some persons)
  | jwt :: rest =>
      let! _ := (if bool_decide (jwt ∈ processed) then respond_error ErrDupScan
                 else hret tt) in
      let processed := {[jwt]} ∪ processed in
      if (String.length jwt <? 7)%nat then hpanic else
      match ParseToken (substring 7 (String.length jwt - 7) jwt) with
      | None => let! _ := respond_error ErrBadScan in hret None
      | Some oid =>
          match GetPerson w oid with
          | None => let! _ := respond_error ErrBadScan in hret None
          | Some person =>
              if person.(Person.TeamId) =? -1
              then scan_jwts w rest processed (persons ++ [person])
              else
                match GetTeamByID w person.(Person.TeamId) with
                | None => hpanic
                | Some team =>
                    if negb (team.(Team.Status) =? 1)
                    then let! _ := respond_error (ErrTeamStarted person.(Person.Name)) in
                         hret None
                    else scan_jwts w rest processed (persons ++ [person])
                end
          end
      end
  end.

(** The body of the dissolution loop, lines 392-416 *)
Definition dissolve (person : Person.t) : H unit :=
  if person.(Person.TeamId) =? -1 then hret tt else
  let! w := hget in
  let '(captain, members) := GetPersonsInTeam w person.(Person.TeamId) in
  let! _ := save_each (fun p => Some (reset p)) members in
  let! _ := hmodify (save_person (reset captain)) in
  let! w := hget in
  match GetTeamByID w person.(Person.TeamId) with
  | Some team => hmodify (delete_team team)
  | None => hret tt
  end.

(** [newTeam], lines 420-433; its [ID] is 0 *)
Definition new_team (route : Z) (persons : list Person.t) (captain : string) (now : Z) : Team.t :=
  Team.mk 0 "新队伍" route "123456" true "新的开始" (-1) 1 0
          (u8 (Z.of_nat (length persons))) captain true (now + 8 * 3600) "".

(** The assignment loop, lines 447-455 *)
Fixpoint assign_members (tid : Z) (i : nat) (persons : list Person.t) : H unit :=
  match persons with
  | [] => hret tt
  | person :: rest =>
      let! _ := hmodify (save_person (Person.set_team tid (if (i =? 0)%nat then 2 else 1) person)) in
      assign_members tid (S i) rest
  end.

(** [Regroup], lines 342-461 *)
Definition Regroup (f : RegroupForm) : H unit :=
  if negb (RegroupForm_ok f) then respond_error ErrParam else
  if negb (bool_decide (f.(rg_Secret) = ServerSecret)) then respond_error ErrSecret else
  let! w := hget in
  let! scanned := scan_jwts w (default [] f.(rg_Jwts)) ∅ [] in
  match scanned with
  | None => hret tt
  | Some persons =>
      let! _ := hfor persons dissolve in
      match persons with
      | [] => hpanic
      | first :: _ =>
          let! w1 := hget in
          let newTeam := new_team f.(rg_Route) persons first.(Person.OpenId) w1.(clock) in
          let! _ := hmodify (create_team newTeam) in
          let! w2 := hget in
          match GetTeamByCaptain w2 first.(Person.OpenId) with
          | None => respond_error ErrService
          | Some team =>
              let! _ := assign_members team.(Team.ID) 0 persons in
              let! _ := hmodify (redis_sadd (Strconv.Itoa newTeam.(Team.ID))) in
              respond_success (PTeamId newTeam.(Team.ID))
          end
      end
  end.

(** [SubmitTeam], lines 468-491 *)
Definition SubmitTeam (f : SubmitTeamForm) : H unit :=
  if negb (SubmitTeamForm_ok f) then respond_error ErrParam else
  if negb (bool_decide (f.(sb_Secret) = ServerSecret)) then respond_error ErrSecret else
  let! w := hget in
  match GetTeamByID w f.(sb_TeamID) with
  | None => respond_error ErrTeamLookup
  | Some team =>
      let! _ := hmodify (save_team (Team.with_submit team)) in
      let! _ := hmodify (redis_sadd (Strconv.Itoa team.(Team.ID))) in
      respond_success PNil
  end.

End Regroup.

(** ** What the loops do, as functions on the database *)
Section RegroupSpec.

(** The database after the dissolution of team [tid]: every member reset,
    the Go zero [Person] saved (under the empty open id) when the team has
    no member of status 2, and the team row deleted. *)
Definition dissolved (tid : Z) (w : World) : World :=
  let w1 := set_people (member_update (fun p => Some (reset p)) tid <$> w.(people)) w in
  let w2 := match list_find (fun p => p.(Person.Status) = 2) (team_members w tid) with
            | Some _ => w1
            | None => save_person (reset zero_person) w1
            end in
  set_teams (delete tid w2.(teams)) w2.

(** One turn of the dissolution loop *)
Definition leave (w : World) (p : Person.t) : World :=
  if p.(Person.TeamId) =? -1 then w else dissolved p.(Person.TeamId) w.

(** Team [i] is the team of one of the scanned participants [ps] *)
Definition dissolves (ps : list Person.t) (i : Z) : bool :=
  existsb (fun p => negb (p.(Person.TeamId) =? -1) && (i =? p.(Person.TeamId))) ps.

(** [p] is stored and belongs to no team or to a team that has not
    started: the checks of the scan loop on a participant *)
Definition scannable (w : World) (p : Person.t) : Prop :=
  w.(people) !! p.(Person.OpenId) = Some p /\
  (p.(Person.TeamId) = -1 \/
   exists t, w.(teams) !! p.(Person.TeamId) = Some t /\ t.(Team.Status) = 1).

(** Token [jwt] passes the scan loop with participant [p] *)
Definition admits (P : string -> option string) (w : World) (jwt : string) (p : Person.t) : Prop :=
  (7 <= String.length jwt)%nat /\
  P (substring 7 (String.length jwt - 7) jwt) = Some p.(Person.OpenId) /\ scannable w p.

(** Team ids are positive and below the auto-increment counter *)
Definition ids_fresh (w : World) : Prop :=
  map_Forall (fun i _ => 0 < i < w.(next_team_id)) w.(teams).

#[export] Instance ids_fresh_dec w : Decision (ids_fresh w).
Proof. unfold ids_fresh. apply _. Defined.

(** Team [i] exists and has left status 1 (it has started) *)
Definition started (w : World) (i : Z) : Prop :=
  exists t, w.(teams) !! i = Some t /\ t.(Team.Status) <> 1.

(** [w'] has every started team of [w], and every member of one, unchanged *)
Definition frozen (w w' : World) : Prop :=
  (forall i, started w i -> w'.(teams) !! i = w.(teams) !! i) /\
  (forall k q, w.(people) !! k = Some q -> started w q.(Person.TeamId) ->
               w'.(people) !! k = Some q).

End RegroupSpec.

Module RegroupSamples.
Import Samples.

(** Tokens are ["Bearer " ++ open id]. *)
Definition bearer (s : string) : option string := Some s.

Definition rg (jwts : list string) : RegroupForm :=
  {| rg_Jwts := Some jwts; rg_Secret := "s3cret"; rg_Route := 2 |}.

(** Team 7 (not started: a captain, b, c) and d without a team. *)
Definition w_regroup : World :=
  world [person "a" 7 2 3; person "b" 7 1 3; person "c" 7 1 4; person "d" (-1) 0 1;
         person "e" 8 2 3]
        [team 7 1 (-1) 1 3 "a" ""; team 8 2 2 5 1 "e" "qr8"] 9.

End RegroupSamples.

(** ** Proofs *)
Section RegroupProofs.
Context `{WalkConfig}.
Variable ParseToken : string -> option string.

Arguments save_each : simpl never.
Arguments team_members : simpl never.
Arguments GetTeamByID : simpl never.
Arguments GetPerson : simpl never.

(** *** The scan loop reads the database and writes responses only *)

Lemma scan_jwts_readonly w jwts processed persons :
  readonly (scan_jwts ParseToken w jwts processed persons).
Proof.
  revert processed persons. induction jwts as [|jwt rest IH]; intros processed persons;
    simpl; [auto with walk|].
  unfold respond_error.
  apply readonly_bind; [case_goal; auto with walk|intros _].
  repeat case_goal; unfold respond_error; auto using IH with walk.
Qed.

Lemma scan_jwts_scannable w jwts processed persons s ps s' o :
  keyed w -> scan_jwts ParseToken w jwts processed persons s = (Some (Some ps), s', o) ->
  forall p, p ∈ ps -> p ∈ persons \/
    (scannable w p /\ exists jwt, ParseToken jwt = Some p.(Person.OpenId)).
Proof.
  intros [Hkp _]. revert processed persons s o.
  induction jwts as [|jwt rest IH]; intros processed persons s o; simpl.
  { intros [= -> _ _] p Hp. by left. }
  intros (a & s1 & o1 & o2 & _ & E & _)%hbind_Some_inv. revert E.
  destruct (String.length jwt <? 7)%nat; [discriminate|].
  destruct (ParseToken _) as [oid|] eqn:Hparse;
    [|intros (? & ? & ? & ? & _ & [=] & _)%hbind_Some_inv].
  unfold GetPerson. destruct (people w !! oid) as [p0|] eqn:Hp0;
    [|intros (? & ? & ? & ? & _ & [=] & _)%hbind_Some_inv].
  pose proof (Hkp _ _ Hp0) as Hk. simpl in Hk. subst oid.
  assert (Hstep : scannable w p0 -> forall s o,
    scan_jwts ParseToken w rest ({[jwt]} ∪ processed) (persons ++ [p0]) s =
      (Some (Some ps), s', o) ->
    forall p, p ∈ ps -> p ∈ persons \/
      (scannable w p /\ exists jwt, ParseToken jwt = Some p.(Person.OpenId))).
  { intros Hsc s0 o0 E p Hp. destruct (IH _ _ _ _ E p Hp) as [Hin|]; [|by right].
    apply elem_of_app in Hin as [Hin|Hin]; [by left|].
    apply list_elem_of_singleton in Hin. subst. right. split; [done|]. eexists. exact Hparse. }
  destruct (_ =? -1) eqn:Ht.
  - apply Hstep. split; [done|left; by apply Z.eqb_eq].
  - unfold GetTeamByID. destruct (teams w !! _) as [t|] eqn:Htm; [|discriminate].
    destruct (Team.Status t =? 1) eqn:Hs; simpl.
    + apply Hstep. split; [done|right; eexists; split; [done|by apply Z.eqb_eq]].
    + intros (? & ? & ? & ? & _ & [=] & _)%hbind_Some_inv.
Qed.

Lemma scan_jwts_ok w jwts ps processed persons s :
  Forall2 (admits ParseToken w) jwts ps -> NoDup jwts ->
  (forall j, j ∈ jwts -> j ∉ processed) ->
  scan_jwts ParseToken w jwts processed persons s = (Some (Some (persons ++ ps)), s, []).
Proof.
  intros Hall. revert processed persons.
  induction Hall as [|jwt p rest ps' [Hlen [Hparse [Hget Hteam]]] Hall IH];
    intros processed persons Hnd Hfresh; simpl; [by rewrite app_nil_r|].
  apply NoDup_cons in Hnd as [Hnot Hnd].
  rewrite bool_decide_eq_false_2 by (apply Hfresh; set_solver). rewrite hbind_ret.
  replace (String.length jwt <? 7)%nat with false by (symmetry; apply Nat.ltb_ge; lia).
  rewrite Hparse. unfold GetPerson. rewrite Hget.
  assert (scan_jwts ParseToken w rest ({[jwt]} ∪ processed) (persons ++ [p]) s =
          (Some (Some (persons ++ p :: ps')), s, [])) as Erest.
  { rewrite IH by (done || (intros j Hj; specialize (Hfresh j); set_solver)).
    by rewrite <-app_assoc. }
  destruct (_ =? -1) eqn:Ht; [done|].
  destruct Hteam as [Hm|(t & Ht' & Hst)]; [apply Z.eqb_neq in Ht; congruence|].
  unfold GetTeamByID. rewrite Ht'. by rewrite Hst.
Qed.

(** *** Dissolving one team *)

Lemma reset_keeps_key : keeps_key (fun p => Some (reset p)).
Proof. by intros p p' [= <-]. Qed.

Lemma save_list_members s tid :
  keyed s ->
  save_list Person.OpenId (fun p => Some (reset p)) (team_members s tid) s.(people) =
  member_update (fun p => Some (reset p)) tid <$> s.(people).
Proof.
  intros Hk. pose proof (save_each_members _ s tid Hk reset_keeps_key) as E.
  rewrite save_each_spec in E. injection E as E. destruct s; simpl in *; congruence.
Qed.

(** Saving the members but the captain, then the captain, saves them all. *)
Lemma save_list_captain s tid i cap :
  keyed s -> team_members s tid !! i = Some cap ->
  <[cap.(Person.OpenId) := reset cap]>
    (save_list Person.OpenId (fun p => Some (reset p)) (delete i (team_members s tid)) s.(people)) =
  member_update (fun p => Some (reset p)) tid <$> s.(people).
Proof.
  intros Hk Hi. pose proof (delete_Permutation _ _ _ Hi) as Hperm.
  assert (Hcap : cap ∈ team_members s tid) by (eapply list_elem_of_lookup_2; eauto).
  apply map_eq. intros k. rewrite lookup_fmap.
  destruct (decide (k = cap.(Person.OpenId))) as [->|Hne].
  { rewrite lookup_insert_eq.
    apply (team_members_spec _ _ _ Hk) in Hcap as [-> Ht].
    unfold member_update. simpl. by rewrite Ht, Z.eqb_refl. }
  rewrite lookup_insert_ne by done.
  destruct (decide (k ∈ Person.OpenId <$> delete i (team_members s tid))) as [Hin|Hnin].
  - apply list_elem_of_fmap in Hin as (q & -> & Hq).
    assert (Hq' : q ∈ team_members s tid) by (rewrite Hperm; set_solver).
    rewrite (save_list_in _ _ reset_keeps_key _ _ _ q); [|done|done|].
    + apply (team_members_spec _ _ _ Hk) in Hq' as [-> Ht].
      unfold member_update. simpl. by rewrite Ht, Z.eqb_refl.
    + intros u Hu Hku. assert (u ∈ team_members s tid) as Hu' by (rewrite Hperm; set_solver).
      apply (team_members_spec _ _ _ Hk) in Hu' as [Hu' _].
      apply (team_members_spec _ _ _ Hk) in Hq' as [Hq' _]. congruence.
  - rewrite (save_list_notin _ _ reset_keeps_key) by done.
    destruct (people s !! k) as [q|] eqn:Hq; [|done]. simpl.
    unfold member_update. destruct (_ =? tid) eqn:Ht; [|done]. exfalso.
    assert (Hkey : q.(Person.OpenId) = k) by (apply (proj1 Hk _ _ Hq)).
    assert (Hq' : q ∈ team_members s tid)
      by (apply (team_members_spec _ _ _ Hk); subst; split; [done|by apply Z.eqb_eq]).
    rewrite Hperm in Hq'. apply elem_of_cons in Hq' as [->|Hq']; [done|].
    apply Hnin. apply list_elem_of_fmap. eauto.
Qed.

Lemma delete_team_keyed s t tid :
  keyed s -> s.(teams) !! tid = Some t -> delete_team t s = set_teams (delete tid s.(teams)) s.
Proof. intros [_ Ht] E. unfold delete_team. by rewrite (Ht _ _ E). Qed.

Lemma set_teams_delete_notin s tid :
  s.(teams) !! tid = None -> set_teams (delete tid s.(teams)) s = s.
Proof. intros E. unfold set_teams. rewrite delete_id by done. by destruct s. Qed.

Lemma dissolve_run p s :
  keyed s -> dissolve p s = (Some tt, leave s p, []).
Proof.
  intros Hk. unfold dissolve, leave. destruct (_ =? -1); [done|].
  set (tid := p.(Person.TeamId)). rewrite hbind_get.
  unfold GetPersonsInTeam, dissolved.
  destruct (list_find _ _) as [[i cap]|] eqn:F; simpl;
    rewrite (hbind_some _ _ _ _ _ _ (save_each_spec _ _ _)), hbind_modify, hbind_get;
    unfold GetTeamByID; simpl.
  - apply list_find_Some in F as (Hi & _ & _).
    unfold save_person. simpl. rewrite set_people_twice, (save_list_captain _ _ _ _ Hk Hi).
    destruct (teams s !! tid) as [t|] eqn:Et; simpl.
    + erewrite delete_team_keyed; [done| |done]. apply keyed_members; auto using reset_keeps_key.
    + rewrite delete_id by done. by destruct s.
  - unfold save_person. simpl. rewrite (save_list_members _ _ Hk).
    destruct (teams s !! tid) as [t|] eqn:Et; simpl.
    + erewrite delete_team_keyed; [done| |done].
      exact (keyed_save_person (reset zero_person) _ (keyed_members _ tid _ reset_keeps_key Hk)).
    + rewrite delete_id by done. by destruct s.
Qed.

Lemma keyed_leave s p : keyed s -> keyed (leave s p).
Proof.
  intros Hk. unfold leave, dissolved. destruct (_ =? -1); [done|].
  destruct (list_find _ _); apply keyed_delete_id;
    auto using keyed_save_person, keyed_members, reset_keeps_key.
Qed.

(** *** The dissolution loop *)

Lemma leave_fields s p :
  (leave s p).(next_team_id) = s.(next_team_id) /\ (leave s p).(clock) = s.(clock) /\
  (leave s p).(rdb_teams) = s.(rdb_teams).
Proof. unfold leave, dissolved. destruct (_ =? -1); [done|]. by destruct (list_find _ _). Qed.

Lemma dissolve_loop ps s :
  keyed s ->
  hfor ps dissolve s = (Some tt, foldl leave s ps, []) /\
  keyed (foldl leave s ps) /\ (foldl leave s ps).(next_team_id) = s.(next_team_id) /\
  (foldl leave s ps).(clock) = s.(clock) /\ (foldl leave s ps).(rdb_teams) = s.(rdb_teams).
Proof.
  intros Hk.
  destruct (hfor_run (fun s' => keyed s' /\ s'.(next_team_id) = s.(next_team_id) /\
                        s'.(clock) = s.(clock) /\ s'.(rdb_teams) = s.(rdb_teams))
                     ps dissolve leave s) as [E Hinv]; [done| |by split].
  intros p s' (Hk' & Hn & Hc & Hr). rewrite dissolve_run by done.
  destruct (leave_fields s' p) as (? & ? & ?). split; [done|].
  split_and!; auto using keyed_leave; congruence.
Qed.

Lemma teams_leave s p :
  (leave s p).(teams) =
  if p.(Person.TeamId) =? -1 then s.(teams) else delete p.(Person.TeamId) s.(teams).
Proof. unfold leave, dissolved. destruct (_ =? -1); [done|]. by destruct (list_find _ _). Qed.

Lemma dissolves_cons p ps i :
  dissolves (p :: ps) i =
  (negb (p.(Person.TeamId) =? -1) && (i =? p.(Person.TeamId))) || dissolves ps i.
Proof. reflexivity. Qed.

Lemma dissolves_neg1 ps : dissolves ps (-1) = false.
Proof.
  induction ps as [|p ps IH]; [done|]. rewrite dissolves_cons, IH, orb_false_r.
  destruct (p.(Person.TeamId) =? -1) eqn:E; [done|]. by rewrite Z.eqb_sym, E.
Qed.

Lemma teams_foldl_leave ps s i :
  (foldl leave s ps).(teams) !! i = if dissolves ps i then None else s.(teams) !! i.
Proof.
  revert s. induction ps as [|p ps IH]; intros s; [done|]. cbn [foldl].
  rewrite IH, teams_leave, dissolves_cons.
  destruct (dissolves ps i); [by rewrite orb_true_r|rewrite orb_false_r].
  destruct (p.(Person.TeamId) =? -1); [done|]. simpl.
  destruct (i =? p.(Person.TeamId)) eqn:E.
  - apply Z.eqb_eq in E. subst. apply lookup_delete_eq.
  - apply Z.eqb_neq in E. by apply lookup_delete_ne.
Qed.

Lemma people_leave s p k :
  k <> ""%string ->
  (leave s p).(people) !! k =
  (fun q => if negb (p.(Person.TeamId) =? -1) && (q.(Person.TeamId) =? p.(Person.TeamId))
            then reset q else q) <$> s.(people) !! k.
Proof.
  intros Hk. unfold leave, dissolved.
  destruct (p.(Person.TeamId) =? -1); simpl; [by destruct (s.(people) !! k)|].
  destruct (list_find _ _); simpl; rewrite ?lookup_insert_ne by done;
    rewrite lookup_fmap; destruct (s.(people) !! k); simpl; [|done|unfold member_update|done].
  - unfold member_update. by destruct (_ =? _).
  - by destruct (_ =? _).
Qed.

Lemma people_foldl_leave ps s k :
  k <> ""%string ->
  (foldl leave s ps).(people) !! k =
  (fun q => if dissolves ps q.(Person.TeamId) then reset q else q) <$> s.(people) !! k.
Proof.
  intros Hk. revert s. induction ps as [|p ps IH]; intros s; cbn [foldl].
  { by destruct (s.(people) !! k). }
  rewrite IH, people_leave by done.
  destruct (s.(people) !! k) as [q|]; [|done]. cbn [fmap option_fmap option_map].
  rewrite dissolves_cons. destruct (negb _ && _) eqn:E; cbn [orb].
  - change (reset q).(Person.TeamId) with (-1). by rewrite dissolves_neg1.
  - done.
Qed.

(** *** The new team and the assignment loop *)

Lemma GetTeamByCaptain_create t s :
  GetTeamByCaptain (create_team t s) t.(Team.Captain) <> None.
Proof.
  unfold GetTeamByCaptain. rewrite first_team_None. intros Hall.
  specialize (Hall s.(next_team_id) (Team.with_id s.(next_team_id) t)).
  simpl in Hall. rewrite lookup_insert_eq, bool_decide_eq_true_2 in Hall; [|done].
  by specialize (Hall eq_refl).
Qed.

Lemma assign_members_S tid i ps s :
  assign_members tid (S i) ps s = save_each (fun p => Some (Person.set_team tid 1 p)) ps s.
Proof.
  revert i s. induction ps as [|p ps IH]; intros i s; [done|].
  unfold save_each in *. simpl. rewrite !hbind_modify. apply IH.
Qed.

Lemma assign_members_run tid p0 rest s :
  assign_members tid 0 (p0 :: rest) s =
  (Some tt, set_people (save_list Person.OpenId (fun p => Some (Person.set_team tid 1 p)) rest
              (<[p0.(Person.OpenId) := Person.set_team tid 2 p0]> s.(people))) s, []).
Proof.
  simpl. rewrite hbind_modify, assign_members_S, save_each_spec. reflexivity.
Qed.

(** *** Started teams *)

Lemma ids_fresh_lookup w i t :
  ids_fresh w -> w.(teams) !! i = Some t -> 0 < i < w.(next_team_id).
Proof. intros Hf Ht. exact (Hf i t Ht). Qed.

Lemma scannable_not_started w p :
  ids_fresh w -> scannable w p -> ~ started w p.(Person.TeamId).
Proof.
  intros Hf [_ [Ht|(t & Ht & Hs)]] (t' & Ht' & Hs').
  - rewrite Ht in Ht'. pose proof (ids_fresh_lookup _ _ _ Hf Ht'). lia.
  - congruence.
Qed.

Lemma dissolves_spec ps i :
  dissolves ps i = true <-> exists p, p ∈ ps /\ p.(Person.TeamId) <> -1 /\ i = p.(Person.TeamId).
Proof.
  unfold dissolves. rewrite existsb_exists. setoid_rewrite andb_true_iff.
  setoid_rewrite negb_true_iff. setoid_rewrite Z.eqb_eq. setoid_rewrite Z.eqb_neq.
  setoid_rewrite <-list_elem_of_In. naive_solver.
Qed.

Lemma dissolves_not_started w ps i :
  ids_fresh w -> (forall p, p ∈ ps -> scannable w p) -> dissolves ps i = true -> ~ started w i.
Proof.
  intros Hf Hs (p & Hp & _ & ->)%dissolves_spec. apply scannable_not_started; auto.
Qed.

Lemma set_team_keeps_key tid st : keeps_key (fun p => Some (Person.set_team tid st p)).
Proof. by intros p p' [= <-]. Qed.

Lemma frozen_refl w : frozen w w.
Proof. split; auto. Qed.

(** *** The runs of Regroup: nothing written, or the whole regrouping *)

Lemma Regroup_cases f w r w' o :
  keyed w -> Regroup ParseToken f w = (r, w', o) ->
  (w' = w /\ forall ps o1, RegroupForm_ok f = true -> f.(rg_Secret) = ServerSecret ->
     scan_jwts ParseToken w (default [] f.(rg_Jwts)) ∅ [] w = (Some (Some ps), w, o1) -> ps = []) \/
  exists p0 rest o1 t,
    RegroupForm_ok f = true /\ f.(rg_Secret) = ServerSecret /\
    scan_jwts ParseToken w (default [] f.(rg_Jwts)) ∅ [] w = (Some (Some (p0 :: rest)), w, o1) /\
    GetTeamByCaptain
      (create_team (new_team f.(rg_Route) (p0 :: rest) p0.(Person.OpenId) w.(clock))
                   (foldl leave w (p0 :: rest))) p0.(Person.OpenId) = Some t /\
    w' = redis_sadd "0"
           (set_people
              (save_list Person.OpenId (fun p => Some (Person.set_team t.(Team.ID) 1 p)) rest
                 (<[p0.(Person.OpenId) := Person.set_team t.(Team.ID) 2 p0]>
                    (foldl leave w (p0 :: rest)).(people)))
              (create_team (new_team f.(rg_Route) (p0 :: rest) p0.(Person.OpenId) w.(clock))
                           (foldl leave w (p0 :: rest)))) /\
    r = Some tt /\ o = o1 ++ [RespSuccess (PTeamId 0)].
Proof.
  intros Hk. unfold Regroup.
  destruct (RegroupForm_ok f) eqn:Hok; [|intros [= _ <- _]; left; split; [done|congruence]].
  destruct (bool_decide (rg_Secret f = ServerSecret)) eqn:Hs;
    [|intros [= _ <- _]; left; split; [done|]; intros ? ? _ Hs' _;
      rewrite bool_decide_eq_true_2 in Hs; congruence].
  apply bool_decide_eq_true in Hs. simpl. rewrite hbind_get.
  destruct (scan_jwts ParseToken w (default [] (rg_Jwts f)) ∅ [] w) as [[sc s1] o1] eqn:Esc.
  pose proof (scan_jwts_readonly w (default [] (rg_Jwts f)) ∅ [] w) as Hro.
  rewrite Esc in Hro. simpl in Hro. subst s1.
  destruct sc as [[ps|]|].
  2: { rewrite (hbind_some _ _ _ _ _ _ Esc). intros [= _ <- _]. left. split; [done|congruence]. }
  2: { unfold hbind. rewrite Esc. intros [= _ <- _]. left. split; [done|congruence]. }
  rewrite (hbind_some _ _ _ _ _ _ Esc).
  destruct (dissolve_loop ps w Hk) as (Eloop & _ & _ & Hc & _).
  rewrite (hbind_some _ _ _ _ _ _ Eloop).
  destruct ps as [|p0 rest]; [intros [= _ <- _]; left; split; [done|]; congruence|].
  rewrite hbind_get, hbind_modify, hbind_get, Hc.
  destruct (GetTeamByCaptain _ _) as [t|] eqn:Et.
  2: { exfalso. eapply GetTeamByCaptain_create. exact Et. }
  rewrite (hbind_some _ _ _ _ _ _ (assign_members_run _ _ _ _)), hbind_modify.
  intros [= <- <- <-]. right. exists p0, rest, o1, t. by split_and!.
Qed.

(** C23: Regroup writes to the database only on a run that ends with its
    success response; that response carries team id 0, and the Redis set
    receives "0", instead of the id of the new team (the handler reads
    [newTeam.ID] from the local copy that [Create] never updates). *)
Theorem Regroup_team_id_zero f w r w' o :
  keyed w -> Regroup ParseToken f w = (r, w', o) ->
  w' = w \/
  (r = Some tt /\ last o = Some (RespSuccess (PTeamId 0)) /\ "0"%string ∈ w'.(rdb_teams)).
Proof.
  intros Hk E.
  destruct (Regroup_cases _ _ _ _ _ Hk E)
    as [[-> _]|(p0 & rest & o1 & t & _ & _ & _ & _ & -> & -> & ->)]; [by left|].
  right. split_and!; [done|apply last_snoc|simpl; set_solver].
Qed.

(** C7: Regroup never changes a team that has started, nor the row of any
    member of one: the scan loop refuses such participants before any
    write, the dissolution loop only touches teams of status 1, and the new
    team gets a fresh id. *)
Theorem Regroup_keeps_started f w r w' o :
  keyed w -> ids_fresh w -> w.(people) !! ""%string = None ->
  Regroup ParseToken f w = (r, w', o) -> frozen w w'.
Proof.
  intros Hk Hf Hnil E.
  destruct (Regroup_cases _ _ _ _ _ Hk E)
    as [[-> _]|(p0 & rest & o1 & t & _ & _ & Esc & _ & -> & _ & _)]; [apply frozen_refl|].
  assert (Hsc : forall p, p ∈ p0 :: rest -> scannable w p).
  { intros p Hp. destruct (scan_jwts_scannable _ _ _ _ _ _ _ _ Hk Esc p Hp) as [Hin|[? _]]; [|done].
    by apply not_elem_of_nil in Hin. }
  destruct (dissolve_loop (p0 :: rest) w Hk) as (_ & _ & Hn & _).
  pose proof (teams_foldl_leave (p0 :: rest) w) as HT.
  pose proof (people_foldl_leave (p0 :: rest) w) as HP.
  remember (foldl leave w (p0 :: rest)) as D eqn:HD. clear HD.
  split.
  - intros i (t' & Ht' & Hs'). simpl. rewrite Hn, lookup_insert_ne by (pose proof (ids_fresh_lookup _ _ _ Hf Ht'); lia).
    rewrite HT. destruct (dissolves _ i) eqn:Ed; [|done].
    exfalso. exact (dissolves_not_started w _ i Hf Hsc Ed (ex_intro _ t' (conj Ht' Hs'))).
  - intros k q Hq Hst. simpl.
    assert (Hk' : k <> ""%string) by (intros ->; congruence).
    assert (Hout : forall p, p ∈ p0 :: rest -> p.(Person.OpenId) <> k).
    { intros p Hp <-. destruct (Hsc p Hp) as [Hp' _]. rewrite Hp' in Hq. injection Hq as ->.
      by apply (scannable_not_started w q Hf (Hsc q Hp)). }
    rewrite (save_list_notin _ _ (set_team_keeps_key _ _)).
    2: { intros (p & -> & Hp)%list_elem_of_fmap. by apply (Hout p); [set_solver|]. }
    rewrite lookup_insert_ne by (apply Hout; set_solver).
    rewrite HP, Hq by done. cbn [fmap option_fmap option_map].
    destruct (dissolves _ _) eqn:Ed; [|done].
    exfalso. exact (dissolves_not_started w _ _ Hf Hsc Ed Hst).
Qed.

(** *** A regrouping of distinct, admissible participants *)
Section RegroupRun.
Variables (f : RegroupForm) (w : World) (jwts : list string) (p0 : Person.t)
          (rest : list Person.t).
Hypothesis Hkeyed : keyed w.
Hypothesis Hfresh : ids_fresh w.
Hypothesis Hform : RegroupForm_ok f = true.
Hypothesis Hsecret : f.(rg_Secret) = ServerSecret.
Hypothesis Hjwts : f.(rg_Jwts) = Some jwts.
Hypothesis Hnodup : NoDup jwts.
Hypothesis Hadmit : Forall2 (admits ParseToken w) jwts (p0 :: rest).
Hypothesis Hdistinct : NoDup (Person.OpenId <$> p0 :: rest).
(** the first participant captains no team but possibly its own *)
Hypothesis Hcaptain : forall i t, w.(teams) !! i = Some t ->
  t.(Team.Captain) = p0.(Person.OpenId) -> i = p0.(Person.TeamId).

Lemma GetTeamByCaptain_new :
  GetTeamByCaptain
    (create_team (new_team f.(rg_Route) (p0 :: rest) p0.(Person.OpenId) w.(clock))
                 (foldl leave w (p0 :: rest))) p0.(Person.OpenId) =
  Some (Team.with_id w.(next_team_id)
          (new_team f.(rg_Route) (p0 :: rest) p0.(Person.OpenId) w.(clock))).
Proof.
  destruct (dissolve_loop (p0 :: rest) w Hkeyed) as (_ & HkD & Hn & _).
  pose proof (teams_foldl_leave (p0 :: rest) w) as HT.
  remember (foldl leave w (p0 :: rest)) as D eqn:HD. clear HD.
  destruct (GetTeamByCaptain _ _) as [t|] eqn:E;
    [|exfalso; eapply GetTeamByCaptain_create; exact E].
  apply first_team_Some in E as [Ht Hc%bool_decide_eq_true];
    [|apply keyed_create_team; exact HkD].
  simpl in Ht. rewrite Hn in Ht.
  destruct (decide (t.(Team.ID) = w.(next_team_id))) as [Heq|Hne].
  { rewrite Heq, lookup_insert_eq in Ht. congruence. }
  rewrite lookup_insert_ne in Ht by congruence. rewrite HT in Ht.
  destruct (dissolves _ _) eqn:Ed; [discriminate|].
  pose proof (Hcaptain _ _ Ht Hc) as Hi.
  destruct (decide (p0.(Person.TeamId) = -1)) as [Hm|Hm].
  - pose proof (ids_fresh_lookup _ _ _ Hfresh Ht). lia.
  - enough (dissolves (p0 :: rest) t.(Team.ID) = true) by congruence.
    apply dissolves_spec. exists p0. split_and!; [constructor|done|done].
Qed.

Lemma Regroup_run r w' o :
  Regroup ParseToken f w = (r, w', o) ->
  r = Some tt /\ o = [RespSuccess (PTeamId 0)] /\
  w' = redis_sadd "0"
         (set_people
            (save_list Person.OpenId
               (fun p => Some (Person.set_team w.(next_team_id) 1 p)) rest
               (<[p0.(Person.OpenId) := Person.set_team w.(next_team_id) 2 p0]>
                  (foldl leave w (p0 :: rest)).(people)))
            (create_team (new_team f.(rg_Route) (p0 :: rest) p0.(Person.OpenId) w.(clock))
                         (foldl leave w (p0 :: rest)))).
Proof.
  intros E.
  pose proof (scan_jwts_ok w jwts (p0 :: rest) ∅ [] w Hadmit Hnodup
                (fun j _ => not_elem_of_empty j)) as Esc.
  rewrite app_nil_l in Esc.
  destruct (Regroup_cases _ _ _ _ _ Hkeyed E)
    as [[_ Hleft]|(p0' & rest' & o1 & t & _ & _ & Esc' & Et & -> & -> & ->)].
  { rewrite Hjwts in Hleft. simpl in Hleft. by specialize (Hleft _ _ Hform Hsecret Esc). }
  rewrite Hjwts in Esc'. simpl in Esc'. rewrite Esc in Esc'.
  injection Esc' as <- <- <-. rewrite GetTeamByCaptain_new in Et.
  injection Et as <-. by split_and!.
Qed.

(** C8: a regrouping of distinct participants, each admitted by the scan
    loop, answers only its success response (team id 0), stores the new
    team under the next id with the first participant as captain, and
    moves every participant into it: the first as captain (status 2), the
    others as members (status 1); the other columns of their rows are the
    ones read at scan time. *)
Theorem Regroup_success r w' o :
  Regroup ParseToken f w = (r, w', o) ->
  r = Some tt /\ o = [RespSuccess (PTeamId 0)] /\
  w'.(teams) !! w.(next_team_id) =
    Some (Team.with_id w.(next_team_id)
            (new_team f.(rg_Route) (p0 :: rest) p0.(Person.OpenId) w.(clock))) /\
  w'.(people) !! p0.(Person.OpenId) = Some (Person.set_team w.(next_team_id) 2 p0) /\
  (forall p, p ∈ rest ->
     w'.(people) !! p.(Person.OpenId) = Some (Person.set_team w.(next_team_id) 1 p)).
Proof.
  intros (-> & -> & ->)%Regroup_run.
  destruct (dissolve_loop (p0 :: rest) w Hkeyed) as (_ & _ & Hn & _).
  remember (foldl leave w (p0 :: rest)) as D eqn:HD. clear HD.
  pose proof Hdistinct as Hd. rewrite fmap_cons in Hd. apply NoDup_cons in Hd as [Hp0 Hrest].
  split_and!; [done|done|simpl; by rewrite Hn, lookup_insert_eq| |].
  - simpl. rewrite (save_list_notin _ _ (set_team_keeps_key _ _)) by done.
    apply lookup_insert_eq.
  - intros p Hp. simpl.
    rewrite (save_list_in _ _ (set_team_keeps_key _ _) _ _ _ p); [done|done|done|].
    intros u Hu Hk. by apply (NoDup_fmap_inj_on Person.OpenId rest).
Qed.

(** C9: the same regrouping dissolves the former teams of the
    participants: apart from the new team's id, a team row is deleted when
    it is the team of a participant and is otherwise unchanged; every
    other person (with a non-empty open id) who belonged to one of those
    teams is reset to no team, status 0 and walk status 1, and every other
    person is unchanged. *)
Theorem Regroup_dissolves r w' o :
  Regroup ParseToken f w = (r, w', o) ->
  (forall i, i <> w.(next_team_id) ->
     w'.(teams) !! i = if dissolves (p0 :: rest) i then None else w.(teams) !! i) /\
  (forall k q, k <> ""%string -> k ∉ Person.OpenId <$> p0 :: rest -> w.(people) !! k = Some q ->
     w'.(people) !! k = Some (if dissolves (p0 :: rest) q.(Person.TeamId) then reset q else q)).
Proof.
  intros (_ & _ & ->)%Regroup_run.
  destruct (dissolve_loop (p0 :: rest) w Hkeyed) as (_ & _ & Hn & _).
  pose proof (teams_foldl_leave (p0 :: rest) w) as HT.
  pose proof (people_foldl_leave (p0 :: rest) w) as HP.
  remember (foldl leave w (p0 :: rest)) as D eqn:HD. clear HD.
  split.
  - intros i Hi. simpl. rewrite Hn, lookup_insert_ne by congruence. apply HT.
  - intros k q Hk Hout Hq. simpl.
    rewrite (save_list_notin _ _ (set_team_keeps_key _ _)) by set_solver.
    rewrite lookup_insert_ne by set_solver. by rewrite HP, Hq.
Qed.

End RegroupRun.

(** C29: an empty (but present) token list passes the form validation and
    the secret check, then panics at [persons[0]]: no response, nothing
    written. *)
Theorem Regroup_empty_panics f w :
  RegroupForm_ok f = true -> f.(rg_Secret) = ServerSecret -> f.(rg_Jwts) = Some [] ->
  Regroup ParseToken f w = (None, w, []).
Proof.
  intros Hok Hs Hj. unfold Regroup. rewrite Hok, bool_decide_eq_true_2 by done.
  simpl. rewrite hbind_get, Hj. reflexivity.
Qed.

(** C24: SubmitTeam on an existing team sets its submit flag and nothing
    else, adds its decimal id to the Redis set and answers success; on an
    unknown id it answers the lookup error and writes nothing. *)
Theorem SubmitTeam_spec f w r w' o :
  keyed w -> SubmitTeamForm_ok f = true -> f.(sb_Secret) = ServerSecret ->
  SubmitTeam f w = (r, w', o) ->
  r = Some tt /\
  match w.(teams) !! f.(sb_TeamID) with
  | Some t =>
      w'.(teams) = <[f.(sb_TeamID) := Team.with_submit t]> w.(teams) /\
      w'.(people) = w.(people) /\
      Strconv.Itoa f.(sb_TeamID) ∈ w'.(rdb_teams) /\ o = [RespSuccess PNil]
  | None => w' = w /\ o = [RespError ErrTeamLookup]
  end.
Proof.
  intros [_ Hk] Hok Hs. unfold SubmitTeam. rewrite Hok, bool_decide_eq_true_2 by done.
  simpl. rewrite hbind_get. unfold GetTeamByID.
  destruct (w.(teams) !! f.(sb_TeamID)) as [t|] eqn:Et.
  - rewrite !hbind_modify. pose proof (Hk _ _ Et) as Hid. simpl in Hid.
    intros [= <- <- <-]. simpl. rewrite Hid. split_and!; [done|done|done|set_solver|done].
  - intros [= <- <- <-]. done.
Qed.

(** The scan loop on a token given twice *)
Lemma scan_jwts_dup w jwt p :
  admits ParseToken w jwt p -> p.(Person.TeamId) = -1 ->
  scan_jwts ParseToken w [jwt; jwt] ∅ [] w = (Some (Some [p; p]), w, [RespError ErrDupScan]).
Proof.
  intros (Hlen & Hparse & Hget & _) Hm. cbn [scan_jwts].
  rewrite (proj2 (Nat.ltb_ge _ _) Hlen), Hparse. unfold GetPerson. rewrite Hget, Hm, Z.eqb_refl.
  rewrite bool_decide_eq_false_2 by set_solver. rewrite bool_decide_eq_true_2 by set_solver.
  reflexivity.
Qed.

(** C32: scanning the same token twice answers both the duplicate-scan
    error and the success response, because the check does not return:
    on every well-keyed database, for a participant with no team who
    captains no team, the new team under the next id counts two members
    ([Num = 2]), and the participant, saved first as captain (status 2),
    is overwritten as a plain member (status 1), so the team has no
    member of status 2. *)
Theorem Regroup_duplicate_scan f w jwt p :
  keyed w -> ids_fresh w -> RegroupForm_ok f = true -> f.(rg_Secret) = ServerSecret ->
  f.(rg_Jwts) = Some [jwt; jwt] -> admits ParseToken w jwt p -> p.(Person.TeamId) = -1 ->
  (forall i t, w.(teams) !! i = Some t -> t.(Team.Captain) <> p.(Person.OpenId)) ->
  let '(r, w', o) := Regroup ParseToken f w in
  r = Some tt /\ o = [RespError ErrDupScan; RespSuccess (PTeamId 0)] /\
  w'.(teams) !! w.(next_team_id) =
    Some (Team.with_id w.(next_team_id) (new_team f.(rg_Route) [p; p] p.(Person.OpenId) w.(clock))) /\
  (new_team f.(rg_Route) [p; p] p.(Person.OpenId) w.(clock)).(Team.Num) = 2 /\
  w'.(people) !! p.(Person.OpenId) = Some (Person.set_team w.(next_team_id) 1 p).
Proof.
  intros Hk Hf Hok Hs Hj Had Hm Hc.
  destruct (Regroup ParseToken f w) as [[r w'] o] eqn:E.
  pose proof (scan_jwts_dup w jwt p Had Hm) as Esc.
  destruct (Regroup_cases _ _ _ _ _ Hk E)
    as [[_ Hleft]|(p0 & rest & o1 & t & _ & _ & Esc' & Et & -> & -> & ->)].
  { rewrite Hj in Hleft. cbn [default id] in Hleft. by specialize (Hleft _ _ Hok Hs Esc). }
  rewrite Hj in Esc'. cbn [default id] in Esc'. rewrite Esc in Esc'. injection Esc' as <- <- <-.
  assert (HF : foldl leave w [p; p] = w) by (simpl; unfold leave; by rewrite Hm, Z.eqb_refl).
  assert (Hcap : forall i t, w.(teams) !! i = Some t ->
            t.(Team.Captain) = p.(Person.OpenId) -> i = p.(Person.TeamId))
    by (intros i t' Ht' Hc'; by destruct (Hc _ _ Ht' Hc')).
  pose proof (GetTeamByCaptain_new f w p [p] Hk Hf Hcap) as Hnew.
  rewrite HF in Hnew, Et |- *. rewrite Hnew in Et. injection Et as <-.
  split_and!; [done | done | | done |].
  - simpl. by rewrite lookup_insert_eq.
  - simpl. by rewrite lookup_insert_eq.
Qed.

End RegroupProofs.

Section RegroupWitnesses.
Import Samples RegroupSamples.

Lemma keyed_w_regroup : keyed w_regroup.
Proof. apply (bool_decide_unpack _). vm_compute. reflexivity. Qed.

Lemma ids_fresh_w_regroup : ids_fresh w_regroup.
Proof. apply (bool_decide_unpack _). vm_compute. reflexivity. Qed.

Lemma regroup_bd_admitted :
  Forall2 (admits bearer w_regroup) ["Bearer b"; "Bearer d"]
          [person "b" 7 1 3; person "d" (-1) 0 1].
Proof.
  constructor; [|constructor; [|constructor]];
    (split; [vm_compute; lia|split; [reflexivity|split; [reflexivity|]]]).
  - right. eexists. split; reflexivity.
  - by left.
Qed.

Lemma regroup_bd_captain :
  forall i t, w_regroup.(teams) !! i = Some t ->
  t.(Team.Captain) = (person "b" 7 1 3).(Person.OpenId) -> i = (person "b" 7 1 3).(Person.TeamId).
Proof.
  assert (Hall : map_Forall (fun i t => t.(Team.Captain) = "b"%string -> i = 7) w_regroup.(teams))
    by (apply (bool_decide_unpack _); vm_compute; reflexivity).
  intros i t Ht Hc. exact (Hall i t Ht Hc).
Qed.

Lemma Regroup_team_id_zero_witness :
  "0"%string ∈ (Regroup bearer (rg ["Bearer b"; "Bearer d"]) w_regroup).1.2.(rdb_teams).
Proof.
  destruct (@Regroup_team_id_zero sample_config bearer (rg ["Bearer b"; "Bearer d"]) w_regroup
              _ _ _ keyed_w_regroup (triple_eta _)) as [E|(_ & _ & H0)].
  - exfalso. vm_compute in E. discriminate.
  - exact H0.
Defined.

Lemma Regroup_keeps_started_witness :
  frozen w_regroup (Regroup bearer (rg ["Bearer b"; "Bearer d"]) w_regroup).1.2.
Proof.
  exact (@Regroup_keeps_started sample_config bearer (rg ["Bearer b"; "Bearer d"]) w_regroup
           _ _ _ keyed_w_regroup ids_fresh_w_regroup ltac:(vm_compute; reflexivity)
           (triple_eta _)).
Defined.

Lemma Regroup_success_witness :
  (Regroup bearer (rg ["Bearer b"; "Bearer d"]) w_regroup).1.2.(people) !! "b"%string =
  Some (Person.set_team 9 2 (person "b" 7 1 3)).
Proof.
  exact (proj1 (proj2 (proj2 (proj2
    (@Regroup_success sample_config bearer (rg ["Bearer b"; "Bearer d"]) w_regroup
       ["Bearer b"; "Bearer d"] (person "b" 7 1 3) [person "d" (-1) 0 1]
       keyed_w_regroup ids_fresh_w_regroup ltac:(vm_compute; reflexivity) eq_refl eq_refl
       ltac:(apply (bool_decide_unpack _); vm_compute; reflexivity) regroup_bd_admitted
       ltac:(apply (bool_decide_unpack _); vm_compute; reflexivity) regroup_bd_captain
       _ _ _ (triple_eta _)))))).
Defined.

Lemma Regroup_dissolves_witness :
  (Regroup bearer (rg ["Bearer b"; "Bearer d"]) w_regroup).1.2.(people) !! "a"%string =
  Some (reset (person "a" 7 2 3)).
Proof.
  exact (proj2
    (@Regroup_dissolves sample_config bearer (rg ["Bearer b"; "Bearer d"]) w_regroup
       ["Bearer b"; "Bearer d"] (person "b" 7 1 3) [person "d" (-1) 0 1]
       keyed_w_regroup ids_fresh_w_regroup ltac:(vm_compute; reflexivity) eq_refl eq_refl
       ltac:(apply (bool_decide_unpack _); vm_compute; reflexivity) regroup_bd_admitted
       ltac:(apply (bool_decide_unpack _); vm_compute; reflexivity) regroup_bd_captain
       _ _ _ (triple_eta _))
    "a"%string (person "a" 7 2 3) ltac:(discriminate)
    ltac:(apply (bool_decide_unpack _); vm_compute; reflexivity) eq_refl).
Defined.

Lemma Regroup_empty_panics_witness :
  Regroup bearer (rg []) w_regroup = (None, w_regroup, []).
Proof.
  exact (@Regroup_empty_panics sample_config bearer (rg []) w_regroup
           ltac:(vm_compute; reflexivity) eq_refl eq_refl).
Defined.

Lemma SubmitTeam_spec_witness :
  "8"%string ∈ (SubmitTeam {| sb_TeamID := 8; sb_Secret := "s3cret" |} w_regroup).1.2.(rdb_teams).
Proof.
  destruct (@SubmitTeam_spec sample_config {| sb_TeamID := 8; sb_Secret := "s3cret" |} w_regroup
              _ _ _ keyed_w_regroup ltac:(vm_compute; reflexivity) eq_refl (triple_eta _))
    as [_ Hm].
  cbn [sb_TeamID] in Hm.
  assert (Et : w_regroup.(teams) !! 8 = Some (team 8 2 2 5 1 "e" "qr8")) by reflexivity.
  rewrite Et in Hm. destruct Hm as (_ & _ & Hin & _). exact Hin.
Defined.

Lemma regroup_d_no_captain :
  forall i t, w_regroup.(teams) !! i = Some t ->
  t.(Team.Captain) <> (person "d" (-1) 0 1).(Person.OpenId).
Proof.
  assert (Hall : map_Forall (fun i t => t.(Team.Captain) <> "d"%string) w_regroup.(teams))
    by (apply (bool_decide_unpack _); vm_compute; reflexivity).
  intros i t Ht. exact (Hall i t Ht).
Qed.

Lemma Regroup_duplicate_scan_witness :
  (Regroup bearer (rg ["Bearer d"; "Bearer d"]) w_regroup).1.2.(people) !! "d"%string =
  Some (Person.set_team 9 1 (person "d" (-1) 0 1)).
Proof.
  pose proof (@Regroup_duplicate_scan sample_config bearer (rg ["Bearer d"; "Bearer d"]) w_regroup
                "Bearer d" (person "d" (-1) 0 1) keyed_w_regroup ids_fresh_w_regroup
                ltac:(vm_compute; reflexivity) eq_refl eq_refl
                ltac:(split; [vm_compute; lia | split; [reflexivity | split; [reflexivity | by left]]])
                eq_refl
                regroup_d_no_captain) as Hd.
  destruct (Regroup bearer (rg ["Bearer d"; "Bearer d"]) w_regroup) as [[r w'] o].
  exact (proj2 (proj2 (proj2 (proj2 Hd)))).
Defined.

End RegroupWitnesses.
