(* ===== verification/Report.v ===== *)
(** * Reporting handlers: GetDetail, GetSubmitDetail, GetTeamBySecret

    src/controller/admin/team.go, lines 492-833.  The handlers read the
    database and answer one success response; their SQL queries are
    counts over [people JOIN teams ON people.team_id = teams.id]
    ([joined]) with the WHERE clauses of the source written as boolean
    predicates on a joined row.

    - [GetDetail]: per route, an array of [PointMap[route] + 3] counts:
      slot 0 the members not started (walk status 1, submitted team),
      slot [p + 1] the members in progress (walk status 2 or 3, team
      status 2 or 5) at waypoint [p], and the last two slots the finished
      (walk status 5) and withdrawn (4) members.  The array is built as
      the code builds it: [make], the loop over the GROUP BY result
      guarded by [0 <= point < PointMap + 1], then the start count in
      slot 0 and the two end counts at [len - 2] and [len - 1]; an index
      out of range is a panic.  Go ranges over the [routes] map in a
      random order, but each iteration writes only the slice of its own
      key, so the literal order is taken.
    - [GetSubmitDetail] and [getTeamStats]: per route and team type, the
      submitted teams whose captain has that type (for teachers, split
      by whether a student is a member) and their number of members.
    - [GetTeamBySecret]: a team and its members by id. *)

From Stdlib Require Import ZArith Lia String.
From stdpp Require Import base gmap strings list sorting.
From S2P Require Import Prelude Model Samples.

Local Open Scope Z_scope.
Local Open Scope handler_scope.

Section Report.
Context `{WalkConfig}.

(** [people JOIN teams ON people.team_id = teams.id] *)
Definition joined (w : World) : list (Person.t * Team.t) :=
  omap (fun p => (fun t => (p, t)) <$> w.(teams) !! p.(Person.TeamId))
       (map_to_list w.(people)).*2.

(** [SELECT count] over the joined rows satisfying [P] *)
Definition count_rows (P : Person.t * Team.t -> bool) (w : World) : Z :=
  Z.of_nat (count_if P (joined w)).

(** ** GetDetail *)

(** [GetDetailForm]: [secret] required *)
Record GetDetailForm := { gd_Secret : string }.

(** The literal [routes] map of GetDetail *)
Definition detail_routes : list (string * Z) :=
  [("zh", 1); ("pfHalf", 2); ("pfAll", 3); ("mgsHalf", 4); ("mgsAll", 5)].

(** The WHERE clause of [getPointCounts] *)
Definition in_progress (route : Z) (status team_status : list Z)
    (row : Person.t * Team.t) : bool :=
  (row.2.(Team.Route) =? route) && bool_decide (row.1.(Person.WalkStatus) ∈ status) &&
  bool_decide (row.2.(Team.Status) ∈ team_status).

(** [getPointCounts]' query: [GROUP BY teams.point ORDER BY teams.point] *)
Definition point_counts (w : World) (route : Z) (status team_status : list Z) : list (Z * Z) :=
  let rows := List.filter (in_progress route status team_status) (joined w) in
  (fun pt => (pt, Z.of_nat (count_if (fun row => row.2.(Team.Point) =? pt) rows))) <$>
    merge_sort Z.le (remove_dups ((fun row => row.2.(Team.Point)) <$> rows)).

(** [getPointCounts]' loop: [points[pointCount.Point+1] = pointCount.Count]
    for the points with [0 <= point < pm + 1] *)
Fixpoint write_points (pm : Z) (groups : list (Z * Z)) (points : list Z) : option (list Z) :=
  match groups with
  | [] => Some points
  | (pt, cnt) :: gs =>
      if (0 <=? pt) && (pt <? pm + 1)
      then points ← go_set points (pt + 1) cnt; write_points pm gs points
      else write_points pm gs points
  end.

(** [getStartCounts]: walk status 1 in a submitted team of the route *)
Definition start_count (w : World) (route : Z) : Z :=
  count_rows (fun row => (row.2.(Team.Route) =? route) && (row.1.(Person.WalkStatus) =? 1) &&
                         row.2.(Team.Submit)) w.

(** [appendEndCounts]' two queries: walk status [ws] on the route *)
Definition end_count (w : World) (route ws : Z) : Z :=
  count_rows (fun row => (row.2.(Team.Route) =? route) && (row.1.(Person.WalkStatus) =? ws)) w.

(** [resultMap[key]] after both loops of GetDetail, lines 523-578 *)
Definition route_points (w : World) (route : Z) : option (list Z) :=
  points ← go_make 0 (PointMap (u8 route) + 3);
  points ← write_points (PointMap (u8 route)) (point_counts w route [2; 3] [2; 5]) points;
  points ← go_set points 0 (start_count w route);
  points ← go_set points (Z.of_nat (length points) - 2) (end_count w route 5);
  go_set points (Z.of_nat (length points) - 1) (end_count w route 4).

(** The [switch i] of [processRoute] *)
Definition detail_label (n : nat) (routeID : Z) (i : nat) : string :=
  if (i =? 0)%nat then "未开始"
  else if (i =? n - 2)%nat then "已结束"
  else if (i =? n - 1)%nat then "下撤"
  else GetPointName (u8 routeID) (i8 (Z.of_nat i - 1)).

(** [processRoute], lines 580-602; a missing key reads as a nil slice *)
Definition processRoute (resultMap : gmap string (list Z)) (routeName : string)
    (routeID : Z) : list RouteDetail :=
  let counts := default [] (resultMap !! routeName) in
  imap (fun i count => mkRouteDetail count (detail_label (length counts) routeID i)) counts.

(** [GetDetail], lines 502-620 *)
Definition GetDetail (f : GetDetailForm) : H unit :=
  if bool_decide (f.(gd_Secret) = ""%string) then respond_error ErrParam else
  if negb (bool_decide (f.(gd_Secret) = ServerSecret)) then respond_error ErrSecret else
  let! w := hget in
  match mapM (fun '(key, route) => (fun points => (key, points)) <$> route_points w route)
             detail_routes with
  | None => hpanic
  | Some rm =>
      let resultMap : gmap string (list Z) := list_to_map rm in
      respond_success (PDetail [("zh", processRoute resultMap "zh" 1);
                                ("pfAll", processRoute resultMap "pfAll" 3);
                                ("pfHalf", processRoute resultMap "pfHalf" 2);
                                ("mgsHalf", processRoute resultMap "mgsHalf" 4);
                                ("mgsAll", processRoute resultMap "mgsAll" 5)])
  end.

(** ** GetSubmitDetail and getTeamStats *)

(** [EXISTS (SELECT 1 FROM people WHERE people.team_id = teams.id AND
    people.type = 1)] *)
Definition has_student (w : World) (tid : Z) : bool :=
  existsb (fun p => p.(Person.PType) =? 1) (team_members w tid).

(** The WHERE clauses of [getTeamStats] on a team joined with its
    captain, lines 732-745 *)
Definition stats_team (w : World) (route submit captainType : Z) (hasStudent : bool)
    (t : Team.t) : bool :=
  (t.(Team.Route) =? route) && (Z.b2z t.(Team.Submit) =? submit) &&
  match w.(people) !! t.(Team.Captain) with
  | Some captain => captain.(Person.PType) =? captainType
  | None => false
  end &&
  (if captainType =? 2
   then (if hasStudent then has_student w t.(Team.ID) else negb (has_student w t.(Team.ID)))
   else true).

(** [getTeamStats], lines 728-769: (teams, members) *)
Definition getTeamStats (w : World) (route submit captainType : Z) (hasStudent : bool) : Z * Z :=
  (Z.of_nat (count_if (stats_team w route submit captainType hasStudent)
                      (map_to_list w.(teams)).*2),
   count_rows (fun row => stats_team w route submit captainType hasStudent row.2) w).

(** The [routes] and [teamTypes] literals of GetSubmitDetail *)
Definition submit_routes : list (string * Z) :=
  [("朝晖", 1); ("屏峰半程", 2); ("屏峰全程", 3); ("莫干山半程", 4); ("莫干山全程", 5)].

Definition team_types : list (Z * string * bool) :=
  [(1, "学生队", false); (2, "教师队", false); (2, "师生队", true); (3, "校友队", false)].

(** The [switch r.Name] appending one [Result] *)
Definition add_result (routeName : string) (r : Result) (rs : Results) : Results :=
  if bool_decide (routeName = "朝晖") then
    mkResults (rs.(Zh) ++ [r]) rs.(PfHalf) rs.(PfAll) rs.(MgsHalf) rs.(MgsAll)
  else if bool_decide (routeName = "屏峰半程") then
    mkResults rs.(Zh) (rs.(PfHalf) ++ [r]) rs.(PfAll) rs.(MgsHalf) rs.(MgsAll)
  else if bool_decide (routeName = "屏峰全程") then
    mkResults rs.(Zh) rs.(PfHalf) (rs.(PfAll) ++ [r]) rs.(MgsHalf) rs.(MgsAll)
  else if bool_decide (routeName = "莫干山半程") then
    mkResults rs.(Zh) rs.(PfHalf) rs.(PfAll) (rs.(MgsHalf) ++ [r]) rs.(MgsAll)
  else if bool_decide (routeName = "莫干山全程") then
    mkResults rs.(Zh) rs.(PfHalf) rs.(PfAll) rs.(MgsHalf) (rs.(MgsAll) ++ [r])
  else rs.

(** The two nested loops of GetSubmitDetail, lines 680-721 *)
Definition submit_results (w : World) : Results :=
  foldl (fun rs '(rname, route) =>
           foldl (fun rs '(ty, tname, mixed) =>
                    let '(teamCount, totalCount) := getTeamStats w route 1 ty mixed in
                    add_result rname (mkResult rname tname teamCount totalCount) rs)
                 rs team_types)
        (mkResults [] [] [] [] []) submit_routes.

(** [GetSubmitDetail], lines 640-725 *)
Definition GetSubmitDetail (f : GetDetailForm) : H unit :=
  if bool_decide (f.(gd_Secret) = ""%string) then respond_error ErrParam else
  if negb (bool_decide (f.(gd_Secret) = ServerSecret)) then respond_error ErrSecret else
  let! w := hget in
  respond_success (PSubmitDetail (submit_results w)).

(** ** GetTeamBySecret *)

(** [allTeamForm]: [secret] and [team_id] (a non-zero uint) required *)
Record allTeamForm := { al_Secret : string; al_TeamID : Z }.

Definition allTeamForm_ok (f : allTeamForm) : bool :=
  negb (bool_decide (f.(al_Secret) = ""%string)) && (0 <? f.(al_TeamID)).

(** [GetTeamBySecret], lines 776-833 *)
Definition GetTeamBySecret (f : allTeamForm) : H unit :=
  if negb (allTeamForm_ok f) then respond_error ErrParam else
  if negb (bool_decide (f.(al_Secret) = ServerSecret)) then respond_error ErrSecret else
  let! w := hget in
  match GetTeamByID w f.(al_TeamID) with
  | None => respond_error ErrTeamNumber
  | Some team =>
      respond_success (PTeamDetail team (team_members w team.(Team.ID))
                         (GetPointName team.(Team.Route) team.(Team.Point)))
  end.

End Report.

(** ** What GetDetail counts, slot by slot *)
Section ReportSpec.
Context `{WalkConfig}.

(** Members in progress (walk status 2 or 3, team status 2 or 5) at
    waypoint [j] of [route] *)
Definition point_count (w : World) (route j : Z) : Z :=
  count_rows (fun row => in_progress route [2; 3] [2; 5] row && (row.2.(Team.Point) =? j)) w.

(** The array the labels of [processRoute] describe: not started, one
    slot per waypoint [0 .. PointMap - 1], finished, withdrawn *)
Definition detail_spec (w : World) (route : Z) : list Z :=
  start_count w route ::
  (point_count w route <$> seqZ 0 (PointMap (u8 route))) ++
  [end_count w route 5; end_count w route 4].

(** The labels of that array *)
Definition detail_labels (route : Z) : list string :=
  "未开始" :: ((fun j => GetPointName (u8 route) (i8 j)) <$> seqZ 0 (PointMap (u8 route))) ++
  ["已结束"; "下撤"].

(** The sum of a list of counts *)
Definition sum_counts (l : list Z) : Z := foldr Z.add 0 l.

(** A submitted team of [route] whose captain's type is in [types] *)
Definition captained (w : World) (route submit : Z) (types : list Z) (t : Team.t) : bool :=
  (t.(Team.Route) =? route) && (Z.b2z t.(Team.Submit) =? submit) &&
  match w.(people) !! t.(Team.Captain) with
  | Some captain => bool_decide (captain.(Person.PType) ∈ types)
  | None => false
  end.

(** The rows GetSubmitDetail gives one route *)
Definition submit_rows (w : World) (name : string) (route : Z) : list Result :=
  (fun '(ty, tname, mixed) =>
     let '(teamCount, totalCount) := getTeamStats w route 1 ty mixed in
     mkResult name tname teamCount totalCount) <$> team_types.

(** The rows of one route in GetDetail's response *)
Definition detail_rows (w : World) (route : Z) : list RouteDetail :=
  zip_with mkRouteDetail (detail_spec w route) (detail_labels route).

End ReportSpec.

Module ReportSamples.
Import Samples.

(** On route 1 (last waypoint 4): team 7 submitted but not started, with
    a confirmed member; team 8 in progress at waypoint 4. *)
Definition w_dashboard : World :=
  world [person "a" 7 2 3; person "b" 8 2 2]
        [Team.mk 7 "t" 1 "123456" true "go" (-1) 1 0 1 "a" true 0 "";
         Team.mk 8 "t" 1 "123456" true "go" 4 2 1 1 "b" true 0 "qr8"] 9.

End ReportSamples.

(** ** Proofs *)
Section ReportProofs.
Context `{WalkConfig}.

(** *** The group loop of getPointCounts *)

Lemma write_points_spec pm gs s :
  pm + 2 <= Z.of_nat (length s) -> NoDup gs.*1 ->
  exists s', write_points pm gs s = Some s' /\ length s' = length s /\
  forall k, s' !! k =
    if bool_decide (1 <= Z.of_nat k <= pm + 1)
    then match (list_to_map gs : gmap Z Z) !! (Z.of_nat k - 1) with
         | Some c => Some c
         | None => s !! k
         end
    else s !! k.
Proof.
  revert s. induction gs as [|[pt c] gs IH]; intros s Hlen Hnd; simpl.
  { exists s. split_and!; [done|done|]. intros k. case_bool_decide; [|done].
    by rewrite lookup_empty. }
  apply NoDup_cons in Hnd as [Hpt Hnd]. simpl in Hpt.
  destruct ((0 <=? pt) && (pt <? pm + 1)) eqn:Hin.
  - apply andb_true_iff in Hin as [H1%Z.leb_le H2%Z.ltb_lt].
    rewrite go_set_in by lia. simpl.
    destruct (IH (<[Z.to_nat (pt + 1) := c]> s)) as (s' & E & Hl & Hk);
      [rewrite length_insert; lia|done|].
    exists s'. split_and!; [done|by rewrite Hl, length_insert|]. intros k. rewrite Hk.
    case_bool_decide as Hr; [|rewrite list_lookup_insert_ne; [done|lia]].
    destruct (decide (Z.of_nat k - 1 = pt)) as [<-|Hne].
    + rewrite lookup_insert_eq, (proj1 (not_elem_of_list_to_map gs _)) by done.
      replace (Z.to_nat (Z.of_nat k - 1 + 1)) with k by lia.
      apply list_lookup_insert_eq. lia.
    + rewrite lookup_insert_ne by done. destruct (_ !! _); [done|].
      rewrite list_lookup_insert_ne; [done|lia].
  - destruct (IH s) as (s' & E & Hl & Hk); [lia|done|].
    exists s'. split_and!; [done|done|]. intros k. rewrite Hk.
    case_bool_decide as Hr; [|done]. rewrite lookup_insert_ne; [done|].
    intros Heq. apply andb_false_iff in Hin as [Hin|Hin];
      [apply Z.leb_gt in Hin | apply Z.ltb_ge in Hin]; lia.
Qed.

Lemma point_counts_keys w route status team_status :
  (point_counts w route status team_status).*1 =
  merge_sort Z.le (remove_dups ((fun row => row.2.(Team.Point)) <$>
    List.filter (in_progress route status team_status) (joined w))).
Proof.
  unfold point_counts. rewrite <-list_fmap_compose.
  induction (merge_sort _ _) as [|x l IH]; simpl; [done|]. by f_equal.
Qed.

(** The GROUP BY result, read as a map from points to counts *)
Lemma point_counts_lookup w route j :
  default 0 ((list_to_map (point_counts w route [2; 3] [2; 5]) : gmap Z Z) !! j) =
  point_count w route j.
Proof.
  set (rows := List.filter (in_progress route [2; 3] [2; 5]) (joined w)).
  assert (Hnd : NoDup (point_counts w route [2; 3] [2; 5]).*1).
  { rewrite point_counts_keys, merge_sort_Permutation. apply NoDup_remove_dups. }
  assert (Hc : point_count w route j =
               Z.of_nat (count_if (fun row => row.2.(Team.Point) =? j) rows)).
  { unfold point_count, count_rows, rows. by rewrite count_if_filter. }
  rewrite Hc.
  destruct (decide (j ∈ (point_counts w route [2; 3] [2; 5]).*1)) as [Hj|Hj].
  - assert (Hin : (j, Z.of_nat (count_if (fun row => row.2.(Team.Point) =? j) rows))
                  ∈ point_counts w route [2; 3] [2; 5]).
    { rewrite point_counts_keys in Hj. unfold point_counts.
      apply list_elem_of_fmap. by exists j. }
    apply elem_of_list_to_map in Hin; [|done]. by rewrite Hin.
  - rewrite (proj1 (not_elem_of_list_to_map _ _) Hj). simpl.
    enough (count_if (fun row => row.2.(Team.Point) =? j) rows = 0%nat) as -> by done.
    apply count_if_zero, Forall_forall. intros row Hrow.
    apply Z.eqb_neq. intros <-. apply Hj.
    rewrite point_counts_keys, merge_sort_Permutation, elem_of_remove_dups.
    apply list_elem_of_fmap. eauto.
Qed.

(** *** The array of one route *)

Lemma route_points_eq w route :
  0 <= PointMap (u8 route) -> route_points w route = Some (detail_spec w route).
Proof.
  intros Hpm. set (pm := PointMap (u8 route)) in *.
  set (gs := point_counts w route [2; 3] [2; 5]).
  assert (Hnd : NoDup gs.*1).
  { unfold gs. rewrite point_counts_keys, merge_sort_Permutation. apply NoDup_remove_dups. }
  destruct (write_points_spec pm gs (replicate (Z.to_nat (pm + 3)) 0)) as (s1 & E1 & L1 & K1);
    [rewrite length_replicate; lia|done|].
  rewrite length_replicate in L1.
  assert (Hmid : forall k, 1 <= Z.of_nat k <= pm + 1 ->
                 s1 !! k = Some (point_count w route (Z.of_nat k - 1))).
  { intros k Hk. rewrite K1, bool_decide_eq_true_2 by done.
    rewrite <-point_counts_lookup. fold gs.
    destruct (_ !! _); [done|]. apply lookup_replicate_2. lia. }
  assert (Hout : forall k, (Z.of_nat k = 0 \/ pm + 2 <= Z.of_nat k) -> s1 !! k = replicate (Z.to_nat (pm + 3)) 0 !! k).
  { intros k Hk. rewrite K1, bool_decide_eq_false_2 by lia. done. }
  unfold route_points. fold pm. rewrite go_make_nonneg by lia. simpl.
  fold gs. rewrite E1. simpl.
  rewrite go_set_in by lia. simpl. rewrite length_insert, L1.
  rewrite go_set_in by (rewrite length_insert, L1; lia). simpl.
  rewrite go_set_in by (rewrite !length_insert, L1; lia).
  f_equal. apply list_eq. intros k.
  set (spec := detail_spec w route).
  assert (Hlen : length spec = Z.to_nat (pm + 3)).
  { unfold spec, detail_spec. fold pm. simpl. rewrite length_app, length_fmap, length_seqZ.
    simpl. lia. }
  assert (Rmid : forall k', Z.of_nat k' < pm ->
                 spec !! S k' = Some (point_count w route (Z.of_nat k'))).
  { intros k' Hk'. unfold spec, detail_spec. fold pm. simpl.
    rewrite lookup_app_l by (rewrite length_fmap, length_seqZ; lia).
    rewrite list_lookup_fmap, lookup_seqZ_lt by lia. done. }
  assert (Rend : forall i x, [end_count w route 5; end_count w route 4] !! i = Some x ->
                 spec !! (S (Z.to_nat pm + i)) = Some x).
  { intros i x Hi. unfold spec, detail_spec. fold pm. simpl.
    rewrite lookup_app_r by (rewrite length_fmap, length_seqZ; lia).
    rewrite length_fmap, length_seqZ. by replace (Z.to_nat pm + i - Z.to_nat pm)%nat with i by lia. }
  rewrite !list_lookup_insert, !length_insert, L1.
  destruct (decide (_ = k /\ _)) as [[Hd _]|Hn1].
  { subst k. symmetry. replace (Z.to_nat _) with (S (Z.to_nat pm + 1)) by lia. by apply Rend. }
  destruct (decide (_ = k /\ _)) as [[Hd _]|Hn2].
  { subst k. symmetry. replace (Z.to_nat _) with (S (Z.to_nat pm + 0)) by lia. by apply Rend. }
  destruct (decide (_ = k /\ _)) as [[Hd _]|Hn3].
  { subst k. done. }
  destruct k as [|k']; [lia|].
  destruct (decide (Z.of_nat k' < pm)) as [Hlt|Hge].
  - rewrite Hmid, Rmid by lia. do 2 f_equal. lia.
  - rewrite Hout by lia. rewrite (proj1 (lookup_replicate_None _ _ _)) by lia.
    symmetry. apply lookup_ge_None_2. lia.
Qed.

(** *** The labels of processRoute *)

Lemma length_detail_spec w route :
  0 <= PointMap (u8 route) -> length (detail_spec w route) = Z.to_nat (PointMap (u8 route) + 3).
Proof.
  intros Hpm. unfold detail_spec. simpl. rewrite length_app, length_fmap, length_seqZ. simpl. lia.
Qed.

Lemma detail_labels_lookup route i :
  0 <= PointMap (u8 route) -> (i < Z.to_nat (PointMap (u8 route) + 3))%nat ->
  detail_labels route !! i = Some (detail_label (Z.to_nat (PointMap (u8 route) + 3)) route i).
Proof.
  intros Hpm Hi. set (pm := PointMap (u8 route)) in *.
  destruct i as [|i]; [done|].
  unfold detail_labels. fold pm. rewrite lookup_cons_ne_0 by done. cbn [pred].
  unfold detail_label.
  rewrite (proj2 (Nat.eqb_neq (S i) 0)) by lia.
  assert (Hl : length ((fun j => GetPointName (u8 route) (i8 j)) <$> seqZ 0 pm) = Z.to_nat pm)
    by (rewrite length_fmap, length_seqZ; done).
  destruct (decide (Z.of_nat i < pm)) as [Hlt|Hge].
  - rewrite lookup_app_l by lia. rewrite list_lookup_fmap, lookup_seqZ_lt by lia.
    rewrite (proj2 (Nat.eqb_neq _ _)) by lia. rewrite (proj2 (Nat.eqb_neq _ _)) by lia.
    cbn [fmap option_fmap option_map]. do 3 f_equal. lia.
  - rewrite lookup_app_r by lia. rewrite Hl.
    destruct (decide (i = Z.to_nat pm)) as [->|Hne].
    + rewrite Nat.sub_diag. rewrite (proj2 (Nat.eqb_eq _ _)) by lia. done.
    + replace (i - Z.to_nat pm)%nat with 1%nat by lia.
      rewrite (proj2 (Nat.eqb_neq _ _)) by lia. rewrite (proj2 (Nat.eqb_eq _ _)) by lia. done.
Qed.

Lemma processRoute_eq (rm : gmap string (list Z)) name w route :
  0 <= PointMap (u8 route) -> rm !! name = Some (detail_spec w route) ->
  processRoute rm name route = detail_rows w route.
Proof.
  intros Hpm Hrm. unfold processRoute, detail_rows. rewrite Hrm. cbn [default id].
  rewrite length_detail_spec by done.
  apply list_eq. intros i. rewrite list_lookup_imap, lookup_zip_with.
  destruct (detail_spec w route !! i) as [c|] eqn:Ei; simpl; [|done].
  assert (i < Z.to_nat (PointMap (u8 route) + 3))%nat.
  { rewrite <-(length_detail_spec w) by done. by apply lookup_lt_Some in Ei. }
  by rewrite detail_labels_lookup.
Qed.

(** *** GetDetail *)

(** C20: GetDetail, given the secret and routes whose last waypoint index
    is not negative, answers for each route the array [detail_spec] with
    the labels of [detail_labels]: slot 0 the members not started
    (walk status 1) in submitted teams, slot [j + 1] for each waypoint
    [j < PointMap] the members in progress there (walk status 2 or 3 in
    a team of status 2 or 5), then the finished (5) and the withdrawn
    (4) members; it writes nothing. *)
Theorem GetDetail_spec f w :
  f.(gd_Secret) = ServerSecret -> f.(gd_Secret) <> ""%string ->
  (forall r, r ∈ [1; 2; 3; 4; 5] -> 0 <= PointMap (u8 r)) ->
  GetDetail f w =
  (Some tt, w, [RespSuccess (PDetail [("zh", detail_rows w 1); ("pfAll", detail_rows w 3);
                                      ("pfHalf", detail_rows w 2); ("mgsHalf", detail_rows w 4);
                                      ("mgsAll", detail_rows w 5)])]).
Proof.
  intros Hs Hne Hpm. unfold GetDetail.
  rewrite bool_decide_eq_false_2, bool_decide_eq_true_2 by done. simpl. rewrite hbind_get.
  unfold detail_routes. cbn [mapM].
  rewrite !route_points_eq by (apply Hpm; set_solver). simpl.
  rewrite (processRoute_eq _ "zh" w 1), (processRoute_eq _ "pfAll" w 3),
    (processRoute_eq _ "pfHalf" w 2), (processRoute_eq _ "mgsHalf" w 4),
    (processRoute_eq _ "mgsAll" w 5) by (apply Hpm; set_solver) || (by simplify_map_eq).
  done.
Qed.

Lemma submit_results_eq w :
  submit_results w =
  mkResults (submit_rows w "朝晖" 1) (submit_rows w "屏峰半程" 2) (submit_rows w "屏峰全程" 3)
            (submit_rows w "莫干山半程" 4) (submit_rows w "莫干山全程" 5).
Proof.
  unfold submit_results, submit_rows, submit_routes, team_types. cbn [foldl fmap list_fmap].
  repeat (destruct (getTeamStats _ _ _ _ _)). reflexivity.
Qed.

(** *** Counting lemmas *)

Lemma sum_counts_app l1 l2 : sum_counts (l1 ++ l2) = sum_counts l1 + sum_counts l2.
Proof. induction l1 as [|x l1 IH]; simpl; [done|]. unfold sum_counts in *. simpl. lia. Qed.

Lemma count_rows_orb P Q w :
  (forall row, P row = true -> Q row = false) ->
  count_rows (fun row => P row || Q row) w = count_rows P w + count_rows Q w.
Proof. intros Hd. unfold count_rows. rewrite count_if_orb by done. lia. Qed.

Lemma count_rows_ext P Q w :
  (forall row, P row = Q row) -> count_rows P w = count_rows Q w.
Proof. intros HPQ. unfold count_rows. f_equal. apply count_if_ext. auto. Qed.

Lemma count_rows_mono P Q w :
  (forall row, P row = true -> Q row = true) -> count_rows P w <= count_rows Q w.
Proof. intros HPQ. unfold count_rows. apply inj_le, count_if_mono, HPQ. Qed.

(** The waypoint slots together count the members in progress at a
    waypoint in [0, n). *)
Lemma sum_point_counts w route (m : nat) :
  sum_counts (point_count w route <$> seqZ 0 (Z.of_nat m)) =
  count_rows (fun row => in_progress route [2; 3] [2; 5] row &&
                         (0 <=? row.2.(Team.Point)) && (row.2.(Team.Point) <? Z.of_nat m)) w.
Proof.
  induction m as [|m IH].
  - unfold count_rows. rewrite (proj2 (count_if_zero _ _)); [done|].
    apply Forall_forall. intros row _. destruct (in_progress _ _ _ _); [|done]. simpl.
    destruct (0 <=? _) eqn:E1; [|done]. apply Z.leb_le in E1. apply Z.ltb_ge. lia.
  - rewrite seqZ_S, fmap_app, sum_counts_app, IH. cbn [fmap list_fmap].
    unfold sum_counts. cbn [foldr].
    unfold point_count. rewrite Z.add_0_l, Z.add_0_r, <-count_rows_orb.
    + apply count_rows_ext. intros row. destruct (in_progress _ _ _ _); [|done]. simpl.
      destruct (Z.leb_spec 0 row.2.(Team.Point)), (Z.ltb_spec row.2.(Team.Point) (Z.of_nat m)),
        (Z.ltb_spec row.2.(Team.Point) (Z.of_nat (S m))), (Z.eqb_spec row.2.(Team.Point) (Z.of_nat m));
        simpl; lia.
    + intros row. destruct (in_progress _ _ _ _); [|done]. simpl.
      intros [_ ?%Z.ltb_lt]%andb_true_iff. apply Z.eqb_neq. lia.
Qed.

Lemma sum_point_counts_Z w route n :
  0 <= n ->
  sum_counts (point_count w route <$> seqZ 0 n) =
  count_rows (fun row => in_progress route [2; 3] [2; 5] row &&
                         (0 <=? row.2.(Team.Point)) && (row.2.(Team.Point) <? n)) w.
Proof. intros Hn. rewrite <-(Z2Nat.id n) by done. apply sum_point_counts. Qed.

(** Each team is counted by at most one of the four team types, and by
    one exactly when its captain has type 1, 2 or 3. *)
Lemma stats_team_partition w route submit t :
  ((if stats_team w route submit 1 false t then 1 else 0) +
   (if stats_team w route submit 2 false t then 1 else 0) +
   (if stats_team w route submit 2 true t then 1 else 0) +
   (if stats_team w route submit 3 false t then 1 else 0))%nat =
  (if captained w route submit [1%Z; 2%Z; 3%Z] t then 1 else 0)%nat.
Proof.
  unfold stats_team, captained.
  destruct (_ =? route), (_ =? submit); simpl; try done.
  destruct (w.(people) !! _) as [c|]; [|done].
  destruct (has_student w t.(Team.ID)); simpl;
    destruct (Z.eqb_spec c.(Person.PType) 1) as [->|];
    [|destruct (Z.eqb_spec c.(Person.PType) 2) as [->|];
      [|destruct (Z.eqb_spec c.(Person.PType) 3) as [->|]]|
     |destruct (Z.eqb_spec c.(Person.PType) 2) as [->|];
      [|destruct (Z.eqb_spec c.(Person.PType) 3) as [->|]]];
    simpl; repeat case_bool_decide; set_solver.
Qed.

Lemma count_if_partition {A} (f : A -> Team.t) w route submit l :
  (count_if (fun x => stats_team w route submit 1 false (f x)) l +
   count_if (fun x => stats_team w route submit 2 false (f x)) l +
   count_if (fun x => stats_team w route submit 2 true (f x)) l +
   count_if (fun x => stats_team w route submit 3 false (f x)) l)%nat =
  count_if (fun x => captained w route submit [1%Z; 2%Z; 3%Z] (f x)) l.
Proof.
  induction l as [|x l IH]; simpl; [done|].
  pose proof (stats_team_partition w route submit (f x)). lia.
Qed.

(** Two walk statuses, one of them in a literal list, differ *)
Ltac ws_distinct :=
  repeat match goal with H : _ ∈ _ |- _ => apply list_elem_of_In in H; simpl in H end;
  lia.

Lemma in_progress_ws route status team_status row :
  in_progress route status team_status row = true -> row.1.(Person.WalkStatus) ∈ status.
Proof. unfold in_progress. intros [[_ ?%bool_decide_eq_true]%andb_true_iff _]%andb_true_iff. done. Qed.

(** C21: GetDetail counts nobody twice: the slots of a route's array add up
    to at most the number of people in teams of that route. *)
Theorem GetDetail_no_double_count w route s :
  0 <= PointMap (u8 route) -> route_points w route = Some s ->
  sum_counts s <= count_rows (fun row => row.2.(Team.Route) =? route) w.
Proof.
  intros Hpm E. rewrite route_points_eq in E by done. injection E as <-.
  unfold detail_spec. change (sum_counts (?x :: ?l)) with (x + sum_counts l).
  rewrite sum_counts_app, sum_point_counts_Z by done.
  change (sum_counts [?a; ?b]) with (a + (b + 0)).
  unfold start_count, end_count.
  rewrite Z.add_0_r, !Z.add_assoc, <-!count_rows_orb.
  - apply count_rows_mono. intros row.
    destruct (row.2.(Team.Route) =? route) eqn:Er; [done|].
    unfold in_progress. rewrite Er. simpl. discriminate.
  - intros row. rewrite !orb_true_iff, !andb_true_iff, !Z.eqb_eq.
    intros [[[[? ?] ?]|[[Hp%in_progress_ws _] _]]|[? ?]]; apply andb_false_iff; right;
      apply Z.eqb_neq; ws_distinct.
  - intros row. rewrite !orb_true_iff, !andb_true_iff, !Z.eqb_eq.
    intros [[[? ?] ?]|[[Hp%in_progress_ws _] _]]; apply andb_false_iff; right;
      apply Z.eqb_neq; ws_distinct.
  - intros row. rewrite !andb_true_iff, !Z.eqb_eq. intros [[? ?] ?].
    apply andb_false_iff. left. apply andb_false_iff. left.
    destruct (in_progress _ _ _ row) eqn:Ep; [|done].
    apply in_progress_ws in Ep. ws_distinct.
Qed.

(** C22: the four team types GetSubmitDetail asks getTeamStats about
    partition the submitted teams of a route whose captain has type 1, 2
    or 3 (teacher-led teams split by whether a student is a member): each
    such team, and each member of one, is counted exactly once. *)
Theorem getTeamStats_partition w route submit :
  sum_counts ((fun '(ty, _, mixed) => (getTeamStats w route submit ty mixed).1) <$> team_types) =
    Z.of_nat (count_if (captained w route submit [1; 2; 3]) (map_to_list w.(teams)).*2) /\
  sum_counts ((fun '(ty, _, mixed) => (getTeamStats w route submit ty mixed).2) <$> team_types) =
    count_rows (fun row => captained w route submit [1; 2; 3] row.2) w.
Proof.
  unfold team_types, sum_counts, getTeamStats, count_rows. cbn [fmap list_fmap foldr fst snd].
  split.
  - set (l := (map_to_list w.(teams)).*2).
    assert (Hp : (count_if (stats_team w route submit 1 false) l +
                  count_if (stats_team w route submit 2 false) l +
                  count_if (stats_team w route submit 2 true) l +
                  count_if (stats_team w route submit 3 false) l)%nat =
                 count_if (captained w route submit [1; 2; 3]) l)
      by exact (count_if_partition id w route submit l).
    lia.
  - pose proof (count_if_partition snd w route submit (joined w)) as Hp. lia.
Qed.

(** C25: GetSubmitDetail, given the secret, answers for each route, in
    the order of [team_types], the number of submitted teams and of their
    members that getTeamStats counts; it writes nothing. *)
Theorem GetSubmitDetail_spec f w :
  f.(gd_Secret) = ServerSecret -> f.(gd_Secret) <> ""%string ->
  GetSubmitDetail f w =
  (Some tt, w, [RespSuccess (PSubmitDetail
     (mkResults (submit_rows w "朝晖" 1) (submit_rows w "屏峰半程" 2) (submit_rows w "屏峰全程" 3)
                (submit_rows w "莫干山半程" 4) (submit_rows w "莫干山全程" 5)))]).
Proof.
  intros Hs Hne. unfold GetSubmitDetail.
  rewrite bool_decide_eq_false_2, bool_decide_eq_true_2 by done. simpl.
  rewrite hbind_get, submit_results_eq. done.
Qed.

End ReportProofs.

Section ReportWitnesses.
Import Samples ReportSamples.

Lemma sample_points_nonneg : forall r, r ∈ [1; 2; 3; 4; 5] -> 0 <= PointMap (u8 r).
Proof.
  intros r Hr. apply list_elem_of_In in Hr.
  repeat destruct Hr as [<-|Hr]; try contradiction; vm_compute; congruence.
Qed.

Lemma GetDetail_spec_witness :
  GetDetail {| gd_Secret := "s3cret" |} w_dashboard =
  (Some tt, w_dashboard,
   [RespSuccess (PDetail [("zh", detail_rows w_dashboard 1); ("pfAll", detail_rows w_dashboard 3);
                          ("pfHalf", detail_rows w_dashboard 2);
                          ("mgsHalf", detail_rows w_dashboard 4);
                          ("mgsAll", detail_rows w_dashboard 5)])]).
Proof.
  exact (@GetDetail_spec sample_config {| gd_Secret := "s3cret" |} w_dashboard eq_refl
           ltac:(discriminate) sample_points_nonneg).
Defined.

Lemma GetDetail_no_double_count_witness :
  sum_counts [0; 0; 0; 2; 0; 0; 1] <= count_rows (fun row => row.2.(Team.Route) =? 1) w_started.
Proof.
  exact (@GetDetail_no_double_count sample_config w_started 1 [0; 0; 0; 2; 0; 0; 1]
           ltac:(vm_compute; congruence) ltac:(vm_compute; reflexivity)).
Defined.

Lemma GetSubmitDetail_spec_witness :
  GetSubmitDetail {| gd_Secret := "s3cret" |} w_dashboard =
  (Some tt, w_dashboard, [RespSuccess (PSubmitDetail
     (mkResults (submit_rows w_dashboard "朝晖" 1) (submit_rows w_dashboard "屏峰半程" 2)
                (submit_rows w_dashboard "屏峰全程" 3) (submit_rows w_dashboard "莫干山半程" 4)
                (submit_rows w_dashboard "莫干山全程" 5)))]).
Proof.
  exact (@GetSubmitDetail_spec sample_config {| gd_Secret := "s3cret" |} w_dashboard eq_refl
           ltac:(discriminate)).
Defined.

End ReportWitnesses.
