(* ===== verification/Register.v ===== *)
(** * Student registration: StudentRegister

    src/controller/register/student_register.go.  The handler reads the
    open id from the login token of the [Authorization] header, validates
    the form, refuses an identity number or a telephone number already
    registered, checks the student's credentials with the school's OAuth
    service, and inserts the new participant.

    The OAuth service ([oauth.GetUserInfo] of WeJH-SDK) and the token
    check ([utility.ParseToken]) are outside src/: they are the section
    variables [GetUserInfo] and [ParseToken].  [global.DB.Create] is an
    INSERT: it adds no row when the primary key (the open id) is taken,
    and the handler then answers "报名失败". *)

From Stdlib Require Import ZArith Lia String.
From stdpp Require Import base gmap strings list.
From S2P Require Import Prelude Model Samples.

Local Open Scope Z_scope.
Local Open Scope handler_scope.

(** The outcome of [oauth.GetUserInfo]: the user's info, one of the
    sentinel errors of [oauthException], or another error *)
Inductive OAuthResult :=
  | OAuthInfo (gender college : string)
  | OAuthWrongAccount
  | OAuthWrongPassword
  | OAuthClosed
  | OAuthNotActivated
  | OAuthOther              (* another [*oauthException.Error] *)
  | OAuthFailure.           (* an error that is not an [*oauthException.Error] *)

Section Register.

(** [utility.ParseToken(token)]: the open id the token carries *)
Variable ParseToken : string -> option string.
(** [oauth.GetUserInfo(stuID, password)] *)
Variable GetUserInfo : string -> string -> OAuthResult.

(** [StudentRegisterData] *)
Record StudentRegisterData := {
  sr_Name : string; sr_StuID : string; sr_Password : string; sr_ID : string;
  sr_Campus : Z; sr_QQ : string; sr_Wechat : string; sr_Tel : string }.

(** Its [binding] tags: [campus] is a non-zero uint8 *)
Definition StudentRegisterData_ok (d : StudentRegisterData) : bool :=
  negb (bool_decide (d.(sr_Name) = ""%string)) && negb (bool_decide (d.(sr_StuID) = ""%string)) &&
  negb (bool_decide (d.(sr_Password) = ""%string)) && negb (bool_decide (d.(sr_ID) = ""%string)) &&
  (0 <? d.(sr_Campus)) && (d.(sr_Campus) <=? 255) && negb (bool_decide (d.(sr_Tel) = ""%string)).

(** [Where("identity = ? Or tel = ?", ...).Take(&user)] finds a row *)
Definition registered (w : World) (identity tel : string) : bool :=
  existsb (fun p => bool_decide (p.(Person.Identity) = identity) || bool_decide (p.(Person.Tel) = tel))
          (map_to_list w.(people)).*2.

(** The new participant, lines 77-94 *)
Definition new_person (openID : string) (d : StudentRegisterData) (gender college : string) : Person.t :=
  Person.mk openID d.(sr_Name) (if bool_decide (gender = "male"%string) then 1 else 2)
            d.(sr_StuID) d.(sr_Campus) d.(sr_ID) 0 d.(sr_QQ) d.(sr_Wechat) college d.(sr_Tel)
            2 5 (-1) 1 1.

(** [global.DB.Create(&person)]: an INSERT; [true] when a row was added *)
Definition insert_person (p : Person.t) : H bool :=
  let! w := hget in
  match w.(people) !! p.(Person.OpenId) with
  | Some _ => hret false
  | None => let! _ := hmodify (save_person p) in hret true
  end.

(** [StudentRegister], lines 28-100 *)
Definition StudentRegister (authorization : string) (d : StudentRegisterData) : H unit :=
  if (String.length authorization <? 7)%nat then hpanic else
  let jwtData := ParseToken (substring 7 (String.length authorization - 7) authorization) in
  if negb (StudentRegisterData_ok d) then respond_error ErrUpload else
  let! w := hget in
  if registered w d.(sr_ID) d.(sr_Tel) then respond_error ErrRegistered else
  match GetUserInfo d.(sr_StuID) d.(sr_Password) with
  | OAuthWrongAccount => respond_error ErrWrongAccount
  | OAuthClosed => respond_error ErrOAuthClosed
  | OAuthNotActivated => respond_error ErrNotActivated
  | OAuthWrongPassword | OAuthOther | OAuthFailure => respond_error ErrSystem
  | OAuthInfo gender college =>
      match jwtData with
      | None => hpanic   (* jwtData.OpenID on a nil pointer *)
      | Some openID =>
          let! added := insert_person (new_person openID d gender college) in
          if added then respond_success PNil else respond_error ErrRegisterFailed
      end
  end.

End Register.

(** ** What registration promises *)
Section RegisterSpec.

(** No two people share an identity number or a telephone number *)
Definition unique_contacts (w : World) : Prop :=
  map_Forall (fun k1 p1 => map_Forall (fun k2 p2 =>
    k1 <> k2 -> p1.(Person.Identity) <> p2.(Person.Identity) /\ p1.(Person.Tel) <> p2.(Person.Tel))
    w.(people)) w.(people).

#[export] Instance unique_contacts_dec w : Decision (unique_contacts w).
Proof. unfold unique_contacts. apply _. Defined.

End RegisterSpec.

Module RegisterSamples.
Import Samples.

Definition bearer (s : string) : option string := Some s.

(** The OAuth service accepts the password "pw" and rejects "bad" as a
    wrong password *)
Definition oauth (stuID password : string) : OAuthResult :=
  if bool_decide (password = "pw"%string) then OAuthInfo "male" "cs"
  else if bool_decide (password = "bad"%string) then OAuthWrongPassword
  else OAuthWrongAccount.

Definition form (id tel password : string) : StudentRegisterData :=
  {| sr_Name := "n"; sr_StuID := "s1"; sr_Password := password; sr_ID := id; sr_Campus := 1;
     sr_QQ := ""; sr_Wechat := ""; sr_Tel := tel |}.

End RegisterSamples.

(** ** Proofs *)
Section RegisterProofs.
Variable ParseToken : string -> option string.
Variable GetUserInfo : string -> string -> OAuthResult.

Lemma registered_false w identity tel :
  registered w identity tel = false ->
  forall k p, w.(people) !! k = Some p -> p.(Person.Identity) <> identity /\ p.(Person.Tel) <> tel.
Proof.
  unfold registered. intros Hr k p Hp.
  assert (Hin : p ∈ (map_to_list w.(people)).*2).
  { apply list_elem_of_fmap. exists (k, p). split; [done|]. by apply elem_of_map_to_list. }
  apply list_elem_of_In in Hin.
  assert (Hp' : (bool_decide (p.(Person.Identity) = identity) ||
                 bool_decide (p.(Person.Tel) = tel)) = false).
  { destruct (_ || _) eqn:Ep; [|done]. rewrite <-Hr. symmetry.
    apply existsb_exists. eauto. }
  apply orb_false_iff in Hp' as [H1 H2].
  split; intros E; [apply bool_decide_eq_false in H1|apply bool_decide_eq_false in H2]; done.
Qed.

(** C26: a registration that passes the form check, finds neither the
    identity number nor the telephone number, and is accepted by the
    OAuth service inserts, when the open id of the token is free, a
    participant under that open id with no team (TeamId -1), status 0,
    walk status 1 and type 1, and answers success; when the open id is
    taken the INSERT fails and it answers "报名失败" and writes nothing. *)
Theorem StudentRegister_success auth d w r w' o openID gender college :
  (7 <= String.length auth)%nat ->
  ParseToken (substring 7 (String.length auth - 7) auth) = Some openID ->
  StudentRegisterData_ok d = true -> registered w d.(sr_ID) d.(sr_Tel) = false ->
  GetUserInfo d.(sr_StuID) d.(sr_Password) = OAuthInfo gender college ->
  StudentRegister ParseToken GetUserInfo auth d w = (r, w', o) ->
  r = Some tt /\
  match w.(people) !! openID with
  | None =>
      o = [RespSuccess PNil] /\
      w'.(people) = <[openID := new_person openID d gender college]> w.(people) /\
      w'.(teams) = w.(teams) /\
      (new_person openID d gender college).(Person.TeamId) = -1 /\
      (new_person openID d gender college).(Person.Status) = 0 /\
      (new_person openID d gender college).(Person.WalkStatus) = 1 /\
      (new_person openID d gender college).(Person.PType) = 1
  | Some _ => o = [RespError ErrRegisterFailed] /\ w' = w
  end.
Proof.
  intros Hlen Hp Hok Hreg Hinfo. unfold StudentRegister.
  rewrite (proj2 (Nat.ltb_ge _ _) Hlen), Hp, Hok. simpl.
  rewrite hbind_get, Hreg, Hinfo. unfold insert_person. rewrite hbind_assoc, hbind_get.
  cbn [new_person Person.OpenId]. destruct (w.(people) !! openID) eqn:E.
  - rewrite hbind_ret. intros [= <- <- <-]. done.
  - rewrite hbind_assoc, hbind_modify, hbind_ret. intros [= <- <- <-]. by split_and!.
Qed.

(** C10: every run of StudentRegister keeps the people table well keyed and
    free of two people with the same identity number or telephone
    number. *)
Theorem StudentRegister_unique auth d w r w' o :
  keyed w -> unique_contacts w ->
  StudentRegister ParseToken GetUserInfo auth d w = (r, w', o) ->
  keyed w' /\ unique_contacts w'.
Proof.
  intros Hk Hu. unfold StudentRegister.
  destruct (_ <? 7)%nat; [intros [= _ <- _]; done|].
  destruct (StudentRegisterData_ok d); simpl; [|intros [= _ <- _]; done].
  rewrite hbind_get. destruct (registered w _ _) eqn:Hreg; [intros [= _ <- _]; done|].
  destruct (GetUserInfo _ _) as [gender college| | | | | |];
    try (intros [= _ <- _]; done).
  destruct (ParseToken _) as [openID|]; [|intros [= _ <- _]; done].
  unfold insert_person. rewrite hbind_assoc, hbind_get.
  cbn [new_person Person.OpenId]. destruct (w.(people) !! openID) eqn:E.
  { rewrite hbind_ret. intros [= _ <- _]. done. }
  rewrite hbind_assoc, hbind_modify, hbind_ret. intros [= _ <- _].
  split; [by apply keyed_save_person|].
  pose proof (registered_false _ _ _ Hreg) as Hfresh.
  unfold unique_contacts. simpl.
  apply map_Forall_insert_2.
  - apply map_Forall_insert_2; [done|]. intros k2 p2 Hp2 Hne.
    destruct (Hfresh _ _ Hp2). simpl. split; congruence.
  - intros k1 p1 Hp1. apply map_Forall_insert_2.
    + intros Hne. destruct (Hfresh _ _ Hp1). simpl. split; congruence.
    + intros k2 p2 Hp2. exact (Hu k1 p1 Hp1 k2 p2 Hp2).
Qed.

(** C33: the OAuth error check tests [oauthException.WrongAccount]
    twice: on every database, a valid registration that reaches the OAuth
    service and is refused as a wrong account is answered "账号或密码错误",
    while one refused as a wrong password is answered with the generic
    "系统错误", as any other failure, and nothing is written. *)
Theorem StudentRegister_wrong_password auth d w :
  (7 <= String.length auth)%nat -> StudentRegisterData_ok d = true ->
  registered w d.(sr_ID) d.(sr_Tel) = false ->
  (GetUserInfo d.(sr_StuID) d.(sr_Password) = OAuthWrongAccount ->
   StudentRegister ParseToken GetUserInfo auth d w = (Some tt, w, [RespError ErrWrongAccount])) /\
  (GetUserInfo d.(sr_StuID) d.(sr_Password) = OAuthWrongPassword ->
   StudentRegister ParseToken GetUserInfo auth d w = (Some tt, w, [RespError ErrSystem])).
Proof.
  intros Hlen Hok Hreg. unfold StudentRegister.
  rewrite (proj2 (Nat.ltb_ge _ _) Hlen), Hok. simpl. rewrite hbind_get, Hreg.
  split; intros Hi; rewrite Hi; reflexivity.
Qed.

Lemma registered_true w identity tel k p :
  w.(people) !! k = Some p -> p.(Person.Identity) = identity \/ p.(Person.Tel) = tel ->
  registered w identity tel = true.
Proof.
  intros Hp Hm. unfold registered. apply existsb_exists. exists p. split.
  - apply list_elem_of_In, list_elem_of_fmap. exists (k, p). split; [done|].
    by apply elem_of_map_to_list.
  - apply orb_true_iff. destruct Hm; [left|right]; by apply bool_decide_eq_true_2.
Qed.

(** C38: a registration whose identity number or telephone number is
    already that of a stored person is refused with "您已经注册过了" and
    writes nothing, whatever the OAuth service would answer: the lookup
    precedes the OAuth call. *)
Theorem StudentRegister_refuses_registered auth d w k p :
  (7 <= String.length auth)%nat -> StudentRegisterData_ok d = true ->
  w.(people) !! k = Some p ->
  p.(Person.Identity) = d.(sr_ID) \/ p.(Person.Tel) = d.(sr_Tel) ->
  StudentRegister ParseToken GetUserInfo auth d w = (Some tt, w, [RespError ErrRegistered]).
Proof.
  intros Hlen Hok Hp Hm. unfold StudentRegister.
  rewrite (proj2 (Nat.ltb_ge _ _) Hlen), Hok. simpl. rewrite hbind_get.
  by rewrite (registered_true w _ _ k p Hp Hm).
Qed.

End RegisterProofs.

Section RegisterWitnesses.
Import Samples RegisterSamples.

Lemma StudentRegister_success_witness :
  (Register.StudentRegister bearer oauth "Bearer zz" (form "id9" "t9" "pw") w_started).2 =
    [RespSuccess PNil].
Proof.
  destruct (StudentRegister_success bearer oauth "Bearer zz" (form "id9" "t9" "pw") w_started
              _ _ _ "zz" "male" "cs" ltac:(vm_compute; lia) eq_refl eq_refl
              ltac:(vm_compute; reflexivity) eq_refl (triple_eta _)) as [_ Hm].
  exact (proj1 Hm).
Defined.

Lemma StudentRegister_unique_witness :
  unique_contacts (Register.StudentRegister bearer oauth "Bearer zz" (form "id9" "t9" "pw") w_started).1.2.
Proof.
  apply (StudentRegister_unique bearer oauth "Bearer zz" (form "id9" "t9" "pw") w_started _ _ _
           ltac:(apply (bool_decide_unpack _); vm_compute; reflexivity)
           ltac:(apply (bool_decide_unpack _); vm_compute; reflexivity) (triple_eta _)).
Defined.

Lemma StudentRegister_wrong_password_witness :
  StudentRegister bearer oauth "Bearer zz" (form "id9" "t9" "bad") w_started =
    (Some tt, w_started, [RespError ErrSystem]).
Proof.
  exact (proj2 (StudentRegister_wrong_password bearer oauth "Bearer zz" (form "id9" "t9" "bad")
                  w_started ltac:(vm_compute; lia) eq_refl ltac:(vm_compute; reflexivity))
                 eq_refl).
Defined.

Lemma StudentRegister_refuses_registered_witness :
  StudentRegister bearer oauth "Bearer zz" (form "x" "a" "pw") w_started =
    (Some tt, w_started, [RespError ErrRegistered]).
Proof.
  exact (StudentRegister_refuses_registered bearer oauth "Bearer zz" (form "x" "a" "pw") w_started
           "a" (person "a" 7 2 3) ltac:(vm_compute; lia) eq_refl eq_refl (or_intror eq_refl)).
Defined.

End RegisterWitnesses.
