(* ===== verification/Admin.v ===== *)
(** * Route administrators: CreateRouteAdmin and generateRandomString

    src/controller/admin/admin.go.  [CreateRouteAdmin] receives, for each
    of the five routes, a list of lists of people, gives each of them a
    random six-character password, inserts them all into the admin table
    and answers the list.

    Modelled as written: the closure [processData] is called with the
    route number as its [point] argument and stores it in [Admin.Point],
    and stores the index [j] of the person in its inner list in
    [Admin.Route]; a password failure answers an error and returns from
    [processData] only, so the handler goes on with the next route.
    [crypto/rand.Read] is the section variable [rand_read]: its [k]-th
    call fails or fills the slice ([byte i] of the slice).  GORM's
    [Create] of an empty slice fails with [ErrEmptySlice]; no other
    database failure is modelled. *)

From Stdlib Require Import ZArith Lia String Ascii.
From stdpp Require Import base gmap strings list.
From S2P Require Import Prelude Model Samples.

Local Open Scope Z_scope.
Local Open Scope handler_scope.

(** [Data]: a person to make an administrator *)
Record Data := { d_Name : string; d_Account : string }.

(** [CreateRouteAdminData]: [secret] required *)
Record CreateRouteAdminData := {
  ca_ZH : list (list Data); ca_PFHalf : list (list Data); ca_PFAll : list (list Data);
  ca_MGSHalf : list (list Data); ca_MGSAll : list (list Data); ca_Secret : string }.

(** [letterBytes] *)
Definition letterBytes : string :=
  "abcdefghijklmnopqrstuvwxyzABCDEFGHIJKLMNOPQRSTUVWXYZ0123456789".

(** [letterBytes[i]] for [i < len(letterBytes)] *)
Definition letter (i : Z) : ascii :=
  match String.get (Z.to_nat i) letterBytes with Some c => c | None => "a"%char end.

Section Admin.
Context `{WalkConfig}.

(** The [k]-th call of [crypto/rand.Read]: an error, or the bytes it
    writes into the slice *)
Variable rand_read : nat -> option (nat -> Z).

(** [generateRandomString(n)], the [k]-th call of [rand.Read]:
    [randomBytes[i] = letterBytes[randomBytes[i] % byte(len(letterBytes))]] *)
Definition generateRandomString (n : nat) (k : nat) : option string :=
  match rand_read k with
  | None => None
  | Some bytes =>
      Some (string_of_list_ascii
              ((fun i => letter (u8 (bytes i) mod Z.of_nat (String.length letterBytes))) <$> seq 0 n))
  end.

(** [generateRandomPassword] *)
Definition generateRandomPassword (k : nat) : option string := generateRandomString 6 k.

(** The inner loop of [processData] over [data[i]]: the admins so far, the
    number of [rand.Read] calls so far, and whether it returned on an
    error *)
Fixpoint process_inner (row : list Data) (j : nat) (point : Z) (k : nat) (admins : list Admin.t)
    : list Admin.t * nat * bool :=
  match row with
  | [] => (admins, k, false)
  | d :: row' =>
      match generateRandomPassword k with
      | None => (admins, S k, true)
      | Some pwd =>
          process_inner row' (S j) point (S k)
            (admins ++ [Admin.mk d.(d_Name) d.(d_Account) pwd point (u8 (Z.of_nat j))])
      end
  end.

(** [processData(data, point)] *)
Fixpoint processData (data : list (list Data)) (point : Z) (k : nat) (admins : list Admin.t)
    : list Admin.t * nat * bool :=
  match data with
  | [] => (admins, k, false)
  | row :: data' =>
      let '(admins, k, failed) := process_inner row 0 point k admins in
      if failed then (admins, k, true) else processData data' point k admins
  end.

(** One call of [processData] inside the handler: its error response *)
Definition process_step (data : list (list Data)) (point : Z) (st : list Admin.t * nat)
    : H (list Admin.t * nat) :=
  let '(admins, k, failed) := processData data point st.2 st.1 in
  let! _ := (if failed then respond_error ErrPasswordGen else hret tt) in
  hret (admins, k).

(** [global.DB.Create(&admins)] on a non-empty slice *)
Definition add_admins (created : list Admin.t) (w : World) : World :=
  mkWorld w.(people) w.(teams) w.(next_team_id) w.(rdb_teams) (w.(Model.admins) ++ created) w.(clock).

(** [CreateRouteAdmin], lines 30-76 *)
Definition CreateRouteAdmin (f : CreateRouteAdminData) : H unit :=
  if bool_decide (f.(ca_Secret) = ""%string) then respond_error ErrParam else
  if negb (bool_decide (f.(ca_Secret) = ServerSecret)) then respond_error ErrSecret else
  let! st := process_step f.(ca_ZH) 1 ([], 0%nat) in
  let! st := process_step f.(ca_PFHalf) 2 st in
  let! st := process_step f.(ca_PFAll) 3 st in
  let! st := process_step f.(ca_MGSHalf) 4 st in
  let! st := process_step f.(ca_MGSAll) 5 st in
  match st.1 with
  | [] => respond_error ErrDatabase
  | admins =>
      let! _ := hmodify (add_admins admins) in
      respond_success (PAdmins admins)
  end.

End Admin.

(** ** What CreateRouteAdmin promises *)
Section AdminSpec.

(** An admin row without its password *)
Definition admin_key (a : Admin.t) : string * string * Z * Z :=
  (a.(Admin.Name), a.(Admin.Account), a.(Admin.Point), a.(Admin.Route)).

(** The rows [processData] makes of [data] for [point]: the [j]-th person
    of an inner list gets [Route = uint8(j)] *)
Definition data_keys (data : list (list Data)) (point : Z) : list (string * string * Z * Z) :=
  data ≫= fun row => imap (fun j d => (d.(d_Name), d.(d_Account), point, u8 (Z.of_nat j))) row.

(** The rows of the five routes, in the order of the calls *)
Definition route_admin_keys (f : CreateRouteAdminData) : list (string * string * Z * Z) :=
  data_keys f.(ca_ZH) 1 ++ data_keys f.(ca_PFHalf) 2 ++ data_keys f.(ca_PFAll) 3 ++
  data_keys f.(ca_MGSHalf) 4 ++ data_keys f.(ca_MGSAll) 5.

(** Six characters of [letterBytes] *)
Definition good_password (s : string) : Prop :=
  length (list_ascii_of_string s) = 6%nat /\
  Forall (fun c => c ∈ list_ascii_of_string letterBytes) (list_ascii_of_string s).

(** The number of byte values [b] that [generateRandomString] maps to
    the [j]-th character of [letterBytes] *)
Definition letter_count (j : Z) : nat :=
  count_if (fun b => bool_decide (letter (u8 b mod 62) = letter j)) (seqZ 0 256).

(** The rows of the routes after the first, whose [processData] calls
    follow a failed first call *)
Definition later_route_keys (f : CreateRouteAdminData) : list (string * string * Z * Z) :=
  data_keys f.(ca_PFHalf) 2 ++ data_keys f.(ca_PFAll) 3 ++
  data_keys f.(ca_MGSHalf) 4 ++ data_keys f.(ca_MGSAll) 5.

End AdminSpec.

Module AdminSamples.

Definition rnd (k : nat) : option (nat -> Z) := Some (fun i => Z.of_nat (k * 7 + i)).

(** [rand.Read] fails on its first call only *)
Definition rnd_fail0 (k : nat) : option (nat -> Z) :=
  if (k =? 0)%nat then None else Some (fun i => Z.of_nat (k * 7 + i)).

Definition dd (s : string) : Data := {| d_Name := s; d_Account := s |}.

Definition admins_form : CreateRouteAdminData :=
  {| ca_ZH := [[dd "a"; dd "b"]]; ca_PFHalf := [[dd "c"]]; ca_PFAll := [];
     ca_MGSHalf := []; ca_MGSAll := [[dd "e"]]; ca_Secret := "s3cret" |}.

End AdminSamples.

(** ** Proofs *)
Section AdminProofs.
Context `{WalkConfig}.
Variable rand_read : nat -> option (nat -> Z).
Hypothesis rand_ok : forall k, is_Some (rand_read k).

Lemma letter_in_alphabet i :
  0 <= i < 62 -> letter i ∈ list_ascii_of_string letterBytes.
Proof.
  intros Hi.
  assert (Hall : Forall (fun i => letter i ∈ list_ascii_of_string letterBytes) (seqZ 0 62))
    by (apply (bool_decide_unpack _); vm_compute; reflexivity).
  rewrite Forall_forall in Hall. apply Hall, elem_of_seqZ. lia.
Qed.

Lemma generateRandomString_good n k s :
  generateRandomString rand_read n k = Some s ->
  length (list_ascii_of_string s) = n /\
  Forall (fun c => c ∈ list_ascii_of_string letterBytes) (list_ascii_of_string s).
Proof.
  unfold generateRandomString. destruct (rand_read k) as [bytes|]; [|discriminate].
  intros [= <-]. rewrite list_ascii_of_string_of_list_ascii, length_fmap, length_seq.
  split; [done|]. apply Forall_fmap, Forall_forall. intros i _. simpl.
  apply letter_in_alphabet. pose proof (Z.mod_pos_bound (u8 (bytes i)) 62). lia.
Qed.

Lemma password_some k : exists pwd, generateRandomPassword rand_read k = Some pwd /\ good_password pwd.
Proof.
  unfold generateRandomPassword. destruct (rand_ok k) as [bytes Hb].
  unfold generateRandomString. rewrite Hb. eexists. split; [done|].
  apply (generateRandomString_good 6 k). unfold generateRandomString. by rewrite Hb.
Qed.

Lemma process_inner_ok row j point k acc :
  exists created,
    process_inner rand_read row j point k acc = (acc ++ created, (k + length row)%nat, false) /\
    admin_key <$> created =
      imap (fun i d => (d.(d_Name), d.(d_Account), point, u8 (Z.of_nat (j + i)))) row /\
    Forall (fun a => good_password a.(Admin.Password)) created.
Proof.
  revert j k acc. induction row as [|d row IH]; intros j k acc; simpl.
  { exists []. rewrite app_nil_r, Nat.add_0_r. done. }
  destruct (password_some k) as (pwd & -> & Hgood).
  destruct (IH (S j) (S k) (acc ++ [Admin.mk d.(d_Name) d.(d_Account) pwd point (u8 (Z.of_nat j))]))
    as (created & -> & Hkeys & Hall).
  exists (Admin.mk d.(d_Name) d.(d_Account) pwd point (u8 (Z.of_nat j)) :: created).
  split_and!.
  - rewrite <-app_assoc. f_equal. f_equal. lia.
  - rewrite fmap_cons, Hkeys, Nat.add_0_r. f_equal. apply imap_ext.
    intros i x _. simpl. do 3 f_equal. lia.
  - by constructor.
Qed.

Lemma processData_ok data point k acc :
  exists created k',
    processData rand_read data point k acc = (acc ++ created, k', false) /\
    admin_key <$> created = data_keys data point /\
    Forall (fun a => good_password a.(Admin.Password)) created.
Proof.
  revert k acc. induction data as [|row data IH]; intros k acc; simpl.
  { exists [], k. by rewrite app_nil_r. }
  destruct (process_inner_ok row 0 point k acc) as (c1 & -> & Hk1 & Hg1).
  destruct (IH (k + length row)%nat (acc ++ c1)) as (c2 & k' & -> & Hk2 & Hg2).
  exists (c1 ++ c2), k'. split_and!.
  - by rewrite app_assoc.
  - unfold data_keys in *. simpl. rewrite fmap_app, Hk1, Hk2. done.
  - by apply Forall_app.
Qed.

Lemma process_step_ok data point st :
  exists created k',
    (forall w, process_step rand_read data point st w = (Some (st.1 ++ created, k'), w, [])) /\
    admin_key <$> created = data_keys data point /\
    Forall (fun a => good_password a.(Admin.Password)) created.
Proof.
  destruct (processData_ok data point st.2 st.1) as (created & k' & E & Hk & Hg).
  exists created, k'. unfold process_step. rewrite E. split_and!; [|done|done].
  intros w. by rewrite hbind_ret.
Qed.

(** C11: when no [rand.Read] call fails, CreateRouteAdmin with the secret
    and at least one person answers one success with the created admins
    and appends them to the admin table: in the order of the routes and
    of the lists, the [j]-th person of an inner list of the [r]-th route
    gets [Point = r] and [Route = uint8(j)], and a password of six
    characters of [letterBytes]. *)
Theorem CreateRouteAdmin_spec f w r w' o :
  f.(ca_Secret) = ServerSecret -> f.(ca_Secret) <> ""%string -> route_admin_keys f <> [] ->
  CreateRouteAdmin rand_read f w = (r, w', o) ->
  r = Some tt /\
  exists created, o = [RespSuccess (PAdmins created)] /\ w' = add_admins created w /\
    admin_key <$> created = route_admin_keys f /\
    Forall (fun a => good_password a.(Admin.Password)) created.
Proof.
  intros Hs Hne Hkeys. unfold CreateRouteAdmin.
  rewrite bool_decide_eq_false_2, bool_decide_eq_true_2 by done. simpl.
  destruct (process_step_ok f.(ca_ZH) 1 ([], 0%nat)) as (c1 & k1 & E1 & K1 & G1).
  rewrite (hbind_some _ _ _ _ _ _ (E1 w)). simpl.
  destruct (process_step_ok f.(ca_PFHalf) 2 (c1, k1)) as (c2 & k2 & E2 & K2 & G2).
  rewrite (hbind_some _ _ _ _ _ _ (E2 w)). simpl.
  destruct (process_step_ok f.(ca_PFAll) 3 (c1 ++ c2, k2)) as (c3 & k3 & E3 & K3 & G3).
  rewrite (hbind_some _ _ _ _ _ _ (E3 w)). simpl.
  destruct (process_step_ok f.(ca_MGSHalf) 4 (c1 ++ c2 ++ c3, k3)) as (c4 & k4 & E4 & K4 & G4).
  rewrite <-app_assoc, (hbind_some _ _ _ _ _ _ (E4 w)). simpl.
  destruct (process_step_ok f.(ca_MGSAll) 5 (c1 ++ c2 ++ c3 ++ c4, k4)) as (c5 & k5 & E5 & K5 & G5).
  rewrite <-!app_assoc, (hbind_some _ _ _ _ _ _ (E5 w)). simpl. rewrite <-!app_assoc.
  assert (Hk : admin_key <$> (c1 ++ c2 ++ c3 ++ c4 ++ c5) = route_admin_keys f)
    by (rewrite !fmap_app, K1, K2, K3, K4, K5; done).
  destruct (c1 ++ c2 ++ c3 ++ c4 ++ c5) as [|a created] eqn:Ec.
  { by rewrite <-Hk in Hkeys. }
  rewrite hbind_modify. intros [= <- <- <-]. split; [done|].
  exists (a :: created). split_and!; [done|done|done|].
  rewrite <-Ec. repeat apply Forall_app_2; done.
Qed.

End AdminProofs.

(** ** The password alphabet *)
Section AdminBias.

Lemma get_string_of_list_ascii l i : String.get i (string_of_list_ascii l) = l !! i.
Proof. revert i. induction l as [|c l IH]; intros [|i]; simpl; auto. Qed.

Lemma generateRandomString_get rand_read n k bytes i :
  rand_read k = Some bytes -> (i < n)%nat ->
  exists s, generateRandomString rand_read n k = Some s /\
            String.get i s = Some (letter (u8 (bytes i) mod 62)).
Proof.
  intros Hr Hi. unfold generateRandomString. rewrite Hr. eexists; split; [done|].
  rewrite get_string_of_list_ascii, list_lookup_fmap, lookup_seq_lt by done. reflexivity.
Qed.

Lemma letterBytes_get j : 0 <= j < 62 -> String.get (Z.to_nat j) letterBytes = Some (letter j).
Proof.
  intros Hj. unfold letter.
  assert (Hall : Forall (fun j => is_Some (String.get (Z.to_nat j) letterBytes)) (seqZ 0 62))
    by (apply (bool_decide_unpack _); vm_compute; reflexivity).
  rewrite Forall_forall in Hall. destruct (Hall j) as [c ->]; [apply elem_of_seqZ; lia | done].
Qed.

(** The table of [letter_count], checked once for the 62 characters *)
Lemma letter_count_table j : 0 <= j < 62 -> letter_count j = if j <? 8 then 5%nat else 4%nat.
Proof.
  intros Hj.
  assert (Hall : Forall (fun j => letter_count j = if j <? 8 then 5%nat else 4%nat) (seqZ 0 62))
    by (apply (bool_decide_unpack _); vm_compute; reflexivity).
  rewrite Forall_forall in Hall. apply Hall, elem_of_seqZ. lia.
Qed.

(** C34: the password alphabet is biased: for every length [n], call [k],
    position [i < n] and other bytes, as the random byte at position [i]
    ranges over its 256 values, [generateRandomString] puts the [j]-th
    character of [letterBytes] at position [i] for 5 of them when [j] is
    one of the first 8 (a to h) and for 4 of them otherwise, because it
    reduces the byte modulo 62. *)
Theorem random_letter_bias n k bytes i j :
  (i < n)%nat -> 0 <= j < 62 ->
  count_if (fun b => match generateRandomString
                             (fun _ => Some (fun x => if (x =? i)%nat then b else bytes x)) n k with
                     | Some s => bool_decide (String.get i s = String.get (Z.to_nat j) letterBytes)
                     | None => false end) (seqZ 0 256) =
  if j <? 8 then 5%nat else 4%nat.
Proof.
  intros Hi Hj. rewrite <-(letter_count_table j Hj). unfold letter_count.
  apply count_if_ext. intros b _.
  destruct (generateRandomString_get (fun _ => Some (fun x => if (x =? i)%nat then b else bytes x))
              n k _ i eq_refl Hi) as (s & -> & Hs).
  rewrite Hs, letterBytes_get, Nat.eqb_refl by done.
  apply bool_decide_ext. split; [by intros [= ->] | by intros ->].
Qed.

End AdminBias.

(** ** A failed first call of [rand.Read] *)
Section AdminFailure.
Context `{WalkConfig}.
Variable rand_read : nat -> option (nat -> Z).
Hypothesis rand_fail0 : rand_read 0%nat = None.
Hypothesis rand_ok_S : forall k, is_Some (rand_read (S k)).

Lemma process_inner_shift row j point k acc :
  process_inner rand_read row j point (S k) acc =
  let '(a, k', b) := process_inner (fun k => rand_read (S k)) row j point k acc in (a, S k', b).
Proof.
  revert j k acc. induction row as [|d row IH]; intros j k acc; [done|]. simpl.
  unfold generateRandomPassword, generateRandomString.
  destruct (rand_read (S k)); [apply IH | done].
Qed.

Lemma processData_shift data point k acc :
  processData rand_read data point (S k) acc =
  let '(a, k', b) := processData (fun k => rand_read (S k)) data point k acc in (a, S k', b).
Proof.
  revert k acc. induction data as [|row data IH]; intros k acc; [done|]. simpl.
  rewrite process_inner_shift.
  destruct (process_inner (fun k => rand_read (S k)) row 0 point k acc) as [[a k'] []]; [done|].
  apply IH.
Qed.

Lemma process_step_shift_ok data point acc k :
  exists created k',
    (forall w, process_step rand_read data point (acc, S k) w = (Some (acc ++ created, S k'), w, [])) /\
    admin_key <$> created = data_keys data point.
Proof.
  destruct (processData_ok (fun k => rand_read (S k)) rand_ok_S data point k acc)
    as (created & k' & E & Hk & _).
  exists created, k'. split; [|done]. intros w. unfold process_step. cbn [fst snd].
  rewrite processData_shift, E. by rewrite hbind_ret.
Qed.

(** The first call of [processData], on a first list that is not empty *)
Lemma process_step_fail0 d row rest point w :
  process_step rand_read ((d :: row) :: rest) point ([], 0%nat) w =
    (Some ([], 1%nat), w, [RespError ErrPasswordGen]).
Proof.
  unfold process_step. cbn [fst snd processData process_inner].
  unfold generateRandomPassword, generateRandomString. rewrite rand_fail0. reflexivity.
Qed.

(** C35: when the first [rand.Read] fails, on a first route whose first
    list is not empty, the [return] leaves only [processData]: on every
    database CreateRouteAdmin answers "密码生成错误", goes on with the
    other routes, inserts exactly their admins and answers success after
    the error. *)
Theorem CreateRouteAdmin_error_then_success f w r w' o d row rest :
  f.(ca_Secret) = ServerSecret -> f.(ca_Secret) <> ""%string ->
  f.(ca_ZH) = (d :: row) :: rest -> later_route_keys f <> [] ->
  CreateRouteAdmin rand_read f w = (r, w', o) ->
  r = Some tt /\
  exists created, o = [RespError ErrPasswordGen; RespSuccess (PAdmins created)] /\
    w' = add_admins created w /\ admin_key <$> created = later_route_keys f.
Proof.
  intros Hs Hne Hzh Hkeys. unfold CreateRouteAdmin.
  rewrite bool_decide_eq_false_2, bool_decide_eq_true_2 by done. simpl. rewrite Hzh.
  rewrite (hbind_some _ _ _ _ _ _ (process_step_fail0 d row rest 1 w)). simpl.
  destruct (process_step_shift_ok f.(ca_PFHalf) 2 [] 0) as (c2 & k2 & E2 & K2).
  rewrite (hbind_some _ _ _ _ _ _ (E2 w)). simpl.
  destruct (process_step_shift_ok f.(ca_PFAll) 3 c2 k2) as (c3 & k3 & E3 & K3).
  rewrite (hbind_some _ _ _ _ _ _ (E3 w)). simpl.
  destruct (process_step_shift_ok f.(ca_MGSHalf) 4 (c2 ++ c3) k3) as (c4 & k4 & E4 & K4).
  rewrite (hbind_some _ _ _ _ _ _ (E4 w)). simpl.
  destruct (process_step_shift_ok f.(ca_MGSAll) 5 (c2 ++ c3 ++ c4) k4) as (c5 & k5 & E5 & K5).
  rewrite <-app_assoc, (hbind_some _ _ _ _ _ _ (E5 w)). simpl. rewrite <-!app_assoc.
  assert (Hk : admin_key <$> (c2 ++ c3 ++ c4 ++ c5) = later_route_keys f)
    by (rewrite !fmap_app, K2, K3, K4, K5; done).
  destruct (c2 ++ c3 ++ c4 ++ c5) as [|a created] eqn:Ec.
  { by rewrite <-Hk in Hkeys. }
  rewrite hbind_modify. intros [= <- <- <-]. split; [done|].
  exists (a :: created). split_and!; [done|done|exact Hk].
Qed.

End AdminFailure.

Section AdminWitnesses.
Import Samples AdminSamples.

Lemma CreateRouteAdmin_spec_witness :
  exists created, (CreateRouteAdmin rnd admins_form w_started).2 = [RespSuccess (PAdmins created)].
Proof.
  destruct (@CreateRouteAdmin_spec sample_config rnd (fun k => ex_intro _ _ eq_refl) admins_form
              w_started _ _ _ eq_refl ltac:(discriminate) ltac:(vm_compute; discriminate)
              (triple_eta _)) as [_ (created & Ho & _)].
  exists created. exact Ho.
Defined.

Lemma random_letter_bias_witness :
  count_if (fun b => match generateRandomString
                             (fun _ => Some (fun x => if (x =? 2)%nat then b else Z.of_nat x)) 6 0 with
                     | Some s => bool_decide (String.get 2 s = String.get (Z.to_nat 0) letterBytes)
                     | None => false end) (seqZ 0 256) = 5%nat.
Proof. exact (random_letter_bias 6 0 (fun x => Z.of_nat x) 2 0 ltac:(lia) ltac:(lia)). Defined.

Lemma CreateRouteAdmin_error_then_success_witness :
  (CreateRouteAdmin rnd_fail0 admins_form w_started).1.1 = Some tt.
Proof.
  destruct (@CreateRouteAdmin_error_then_success sample_config rnd_fail0 eq_refl
              (fun k => ex_intro _ _ eq_refl) admins_form w_started _ _ _ (dd "a") [dd "b"] []
              eq_refl ltac:(discriminate) eq_refl ltac:(vm_compute; discriminate)
              (triple_eta _)) as [Hr _].
  exact Hr.
Defined.

End AdminWitnesses.
