(* ===== verification/Date.v ===== *)
(** * Date utilities: GetCurrentDate, CanOpenApi, CanSubmit

    src/utility/date.go.  The clock and the configured start date are
    inputs: [now] is [time.Now().Unix()], [startDate] the result of
    [time.Parse(TimeLayout, startDate)] as a Unix time ([None] when it
    fails: the error is ignored and the zero [time.Time] is used), and
    [tz] the offset of the local time zone in seconds, which
    [time.Now().Hour()] reads.  Go's [/] on [int64] truncates toward zero
    ([Z.quot]); [uint8(...)] wraps ([u8]). *)

From Stdlib Require Import ZArith Lia.
From S2P Require Import Prelude.

Local Open Scope Z_scope.

(** [time.Time{}.Unix()]: 0001-01-01 00:00:00 UTC *)
Definition zero_time_unix : Z := -62135596800.

(** [time.Parse(...)] with its error ignored *)
Definition parsed_start (startDate : option Z) : Z :=
  match startDate with Some t => t | None => zero_time_unix end.

(** [time.Now().Hour()] in the zone of offset [tz] *)
Definition hour_of (tz now : Z) : Z := ((now + tz) mod 86400) / 3600.

(** [GetCurrentDate] *)
Definition GetCurrentDate (startDate : option Z) (now : Z) : Z :=
  let timeUnix := parsed_start startDate in
  let nowTimeUnix := now - timeUnix in
  u8 (Z.quot (Z.quot nowTimeUnix 3600) 24).

(** [CanOpenApi] *)
Definition CanOpenApi (startDate : option Z) (tz now : Z) : bool :=
  let startTimeUnix := parsed_start startDate in
  if now <=? startTimeUnix then false
  else if hour_of tz now >=? 8 then true else false.

(** [CanSubmit] *)
Definition CanSubmit (tz now : Z) : bool :=
  if hour_of tz now >=? 12 then true else false.

(** C27: from one day before the start date on, GetCurrentDate is the
    number of whole days since the start, modulo 256: it reads 0 during
    the whole day before the start (the division truncates toward zero)
    and wraps to 0 after 256 days (the result is a uint8). *)
Theorem GetCurrentDate_days start now :
  start - 86400 < now ->
  GetCurrentDate (Some start) now = Z.max 0 ((now - start) / 86400) mod 256.
Proof.
  intros Hnow. unfold GetCurrentDate, parsed_start, u8.
  rewrite Z.quot_quot by lia. change (3600 * 24) with 86400.
  destruct (Z.le_gt_cases start now) as [Hge|Hlt].
  - rewrite Z.quot_div_nonneg by lia. f_equal. symmetry. apply Z.max_r, Z.div_pos; lia.
  - replace (now - start) with (- (start - now)) by lia.
    rewrite Z.quot_opp_l, (Z.quot_small (start - now)) by lia.
    assert (- (start - now) / 86400 < 0) by (apply Z.div_lt_upper_bound; lia).
    rewrite Z.max_l by lia. reflexivity.
Qed.

Lemma GetCurrentDate_days_witness : GetCurrentDate (Some 0) (-3600) = 0.
Proof.
  rewrite (GetCurrentDate_days 0 (-3600)) by lia. vm_compute. reflexivity.
Defined.
