(* ===== verification/Invariants.v ===== *)
(** * The data-model invariants, kept by every handler

    Section 3 of the specification states as intended (and "not
    rigorously enforced") that a person's [TeamId] references an existing
    team or is -1, and that a team's [StartNum] does not exceed its
    member count.  [consistent] is that invariant, with what it needs to
    be inductive: well-keyed tables ([keyed]), team ids below the
    auto-increment counter, which is positive ([ids_fresh]), a team that has not started
    (status 1) has [StartNum = 0], and the row under the empty open id,
    which Regroup writes the Go zero [Person] to, belongs to no team.
    Every handler of the development keeps it (on every run, panics
    included); Regroup needs that the JWT check never yields an empty
    open id. *)

From Stdlib Require Import ZArith Lia.
From stdpp Require Import base gmap strings list.
From S2P Require Import Prelude Model Samples CheckIn UserStatus Regroup Report Register Admin.

Local Open Scope Z_scope.
Local Open Scope handler_scope.

(** ** The invariant *)

(** The number of people of team [tid]: the rows [Where("team_id = ?")]
    returns. *)
Definition members_count (w : World) (tid : Z) : nat := length (team_members w tid).

Definition team_refs (w : World) : Prop :=
  map_Forall (fun _ p => p.(Person.TeamId) = -1 \/ is_Some (w.(teams) !! p.(Person.TeamId)))
             w.(people).

Definition start_bounded (w : World) : Prop :=
  map_Forall (fun i t => t.(Team.StartNum) <= Z.of_nat (members_count w i) /\
                         (t.(Team.Status) = 1 -> t.(Team.StartNum) = 0)) w.(teams).

Definition anon_free (w : World) : Prop :=
  match w.(people) !! ""%string with Some p => p.(Person.TeamId) = -1 | None => True end.

Definition consistent (w : World) : Prop :=
  keyed w /\ 0 < w.(next_team_id) /\ ids_fresh w /\ team_refs w /\ start_bounded w /\ anon_free w.

#[export] Instance consistent_dec w : Decision (consistent w).
Proof.
  unfold consistent, team_refs, start_bounded, anon_free.
  destruct (w.(people) !! ""%string); apply _.
Defined.

(** A participant the scan loop admits: no team, or a team that has not
    started (or no longer exists) *)
Definition unstarted (s : World) (p : Person.t) : Prop :=
  p.(Person.TeamId) = -1 \/ forall t, s.(teams) !! p.(Person.TeamId) = Some t -> t.(Team.Status) = 1.

(** The participants move from no team (or team [tid] already) to team
    [tid] *)
Definition joins (C : World) (tid : Z) (p : Person.t) : Prop :=
  p.(Person.OpenId) <> ""%string /\
  forall old, C.(people) !! p.(Person.OpenId) = Some old ->
    old.(Person.TeamId) = -1 \/ old.(Person.TeamId) = tid.

(** ** The server: every handler, on every request *)

Section Server.
Context `{WalkConfig}.
Variable iter_order : gmap string Person.t -> list (string * Person.t).
Variable ParseToken : string -> option string.

(** A request to one of the handlers of src/controller.  The answers of
    the services outside the database (the OAuth service, [crypto/rand])
    come with the request. *)
Inductive Request :=
  | ReqGetTeam (user : Admin.t) (f : TeamForm)
  | ReqBindTeam (user : Admin.t) (f : BindTeamForm)
  | ReqUpdateTeamStatus (user : Admin.t) (f : TeamStatusForm)
  | ReqPostDestination (user : Admin.t) (f : PostDestinationForm)
  | ReqUserStatus (user : Admin.t) (f : UserStatusList)
  | ReqRegroup (f : RegroupForm)
  | ReqSubmitTeam (f : SubmitTeamForm)
  | ReqGetDetail (f : GetDetailForm)
  | ReqGetSubmitDetail (f : GetDetailForm)
  | ReqGetTeamBySecret (f : allTeamForm)
  | ReqStudentRegister (GetUserInfo : string -> string -> OAuthResult)
                       (authorization : string) (d : StudentRegisterData)
  | ReqCreateRouteAdmin (rand_read : nat -> option (nat -> Z)) (f : CreateRouteAdminData).

(** The router: the handler a request reaches *)
Definition serve (req : Request) : H unit :=
  match req with
  | ReqGetTeam user f => GetTeam user f
  | ReqBindTeam user f => BindTeam user f
  | ReqUpdateTeamStatus user f => UpdateTeamStatus user f
  | ReqPostDestination user f => PostDestination user f
  | ReqUserStatus user f => UserStatus iter_order user f
  | ReqRegroup f => Regroup ParseToken f
  | ReqSubmitTeam f => SubmitTeam f
  | ReqGetDetail f => GetDetail f
  | ReqGetSubmitDetail f => GetSubmitDetail f
  | ReqGetTeamBySecret f => GetTeamBySecret f
  | ReqStudentRegister GetUserInfo auth d => StudentRegister ParseToken GetUserInfo auth d
  | ReqCreateRouteAdmin rand_read f => CreateRouteAdmin rand_read f
  end.

(** The database before and after one request, served to its end or to
    a panic (requests run one at a time) *)
Inductive step : World -> World -> Prop :=
  | step_serve req w r w' o : serve req w = (r, w', o) -> step w w'.

End Server.

Module InvariantSamples.
Import Samples RegroupSamples RegisterSamples.

(** A JWT check that yields the token's text as the open id, and refuses
    an empty one *)
Definition token_id (s : string) : option string :=
  if String.eqb s ""%string then None else Some s.

(** Requests served one after the other *)
Definition run_all (reqs : list Request) (w : World) : World :=
  foldl (fun w req => (serve map_to_list token_id req w).1.2) w reqs.

(** Regroup d with b (dissolving team 7), a registration, and a start
    scan of the new team *)
Definition trace : list Request :=
  [ReqRegroup (rg ["Bearer d"; "Bearer b"]);
   ReqStudentRegister oauth "Bearer zz" (form "id9" "t9" "pw");
   ReqBindTeam (admin 2 0) {| bt_TeamID := 9; bt_Type := 2; bt_Code := "qr9" |}].

End InvariantSamples.

(** ** Counting the members of a team *)

Section Counting.

Lemma map_to_list_filter_perm {A} (P : string * A -> Prop) `{!forall x, Decision (P x)}
    (m : gmap string A) :
  map_to_list (filter P m) ≡ₚ filter P (map_to_list m).
Proof.
  apply NoDup_Permutation; [apply NoDup_map_to_list | apply NoDup_filter, NoDup_map_to_list |].
  intros [k v]. rewrite elem_of_map_to_list, list_elem_of_filter, elem_of_map_to_list,
    map_lookup_filter_Some. naive_solver.
Qed.

Lemma length_List_filter_snd (l : list (string * Person.t)) tid :
  length (List.filter (fun p => p.(Person.TeamId) =? tid) l.*2) =
  length (filter (fun kp : string * Person.t => kp.2.(Person.TeamId) = tid) l).
Proof.
  induction l as [|[k p] l IH]; [done|]. rewrite filter_cons.
  cbn [fmap list_fmap snd List.filter].
  destruct (Z.eqb_spec p.(Person.TeamId) tid);
    [rewrite decide_True by done | rewrite decide_False by done]; cbn [length]; by rewrite IH.
Qed.

Lemma members_count_size w tid :
  members_count w tid =
  size (dom (filter (fun kp : string * Person.t => kp.2.(Person.TeamId) = tid) w.(people))).
Proof.
  unfold members_count, team_members. rewrite size_dom, <-length_map_to_list,
    map_to_list_filter_perm. apply length_List_filter_snd.
Qed.

(** A team keeps at least its members when every row of it stays in it. *)
Lemma members_count_mono w w' tid :
  (forall k p, w.(people) !! k = Some p -> p.(Person.TeamId) = tid ->
     exists p', w'.(people) !! k = Some p' /\ p'.(Person.TeamId) = tid) ->
  (members_count w tid <= members_count w' tid)%nat.
Proof.
  intros Hm. rewrite !members_count_size. apply subseteq_size. intros k.
  rewrite !elem_of_dom. intros [p Hp]. apply map_lookup_filter_Some in Hp as [Hp Ht].
  destruct (Hm _ _ Hp Ht) as (p' & Hp' & Ht'). exists p'.
  by apply map_lookup_filter_Some.
Qed.

Lemma members_count_same w w' tid :
  (forall k, (fun p => bool_decide (p.(Person.TeamId) = tid)) <$> w'.(people) !! k =
             (fun p => bool_decide (p.(Person.TeamId) = tid)) <$> w.(people) !! k) ->
  members_count w' tid = members_count w tid.
Proof.
  intros Hk. apply Nat.le_antisymm; apply members_count_mono; intros k p Hp Ht;
    specialize (Hk k); rewrite Hp in Hk; simpl in Hk.
  - destruct (w.(people) !! k) as [q|]; simpl in Hk; [|discriminate].
    exists q. split; [done|]. injection Hk as Hq.
    rewrite (bool_decide_eq_true_2 (Person.TeamId p = tid)) in Hq by done. symmetry in Hq. by apply bool_decide_eq_true in Hq.
  - destruct (w'.(people) !! k) as [q|]; simpl in Hk; [|discriminate].
    exists q. split; [done|]. injection Hk as Hq.
    rewrite (bool_decide_eq_true_2 (Person.TeamId p = tid)) in Hq by done. by apply bool_decide_eq_true in Hq.
Qed.

(** The members of a team, as a list, number [members_count]. *)
Lemma count_if_members P w tid : (count_if P (team_members w tid) <= members_count w tid)%nat.
Proof.
  unfold members_count. induction (team_members w tid) as [|p l IH]; simpl; [done|].
  destruct (P p); lia.
Qed.

End Counting.

(** ** The writes of the handlers keep the invariant *)

Section Writes.

Lemma members_count_tables w w' tid :
  w'.(people) = w.(people) -> members_count w' tid = members_count w tid.
Proof. intros Hp. unfold members_count, team_members. by rewrite Hp. Qed.

Lemma ids_fresh_pos w i t : ids_fresh w -> w.(teams) !! i = Some t -> 0 < i.
Proof. intros Hf Ht. apply (Hf _ _ Ht). Qed.

(** A write to other columns than the tables of people and teams *)
Lemma consistent_tables w w' :
  consistent w -> w'.(people) = w.(people) -> w'.(teams) = w.(teams) ->
  w'.(next_team_id) = w.(next_team_id) -> consistent w'.
Proof.
  intros Hc Hp Ht Hnx. destruct w, w'; simpl in *; subst. exact Hc.
Qed.

(** A rewrite of person rows that keeps their open id and team *)
Lemma consistent_people ps w :
  consistent w ->
  (forall k, (fun p => (p.(Person.OpenId), p.(Person.TeamId))) <$> ps !! k =
             (fun p => (p.(Person.OpenId), p.(Person.TeamId))) <$> w.(people) !! k) ->
  consistent (set_people ps w).
Proof.
  intros (Hk & Hn & Hf & Hr & Hs & Ha) Hps.
  assert (Hrow : forall k p', ps !! k = Some p' ->
            exists p, w.(people) !! k = Some p /\ p'.(Person.OpenId) = p.(Person.OpenId) /\
                      p'.(Person.TeamId) = p.(Person.TeamId)).
  { intros k p' Hp'. specialize (Hps k). rewrite Hp' in Hps.
    destruct (w.(people) !! k) as [p|]; [|discriminate]. injection Hps as ? ?. eauto. }
  split_and!; try done.
  - split; [|apply Hk]. intros k p' Hp'. destruct (Hrow _ _ Hp') as (p & Hp & -> & _).
    apply (proj1 Hk _ _ Hp).
  - intros k p' Hp'. destruct (Hrow _ _ Hp') as (p & Hp & _ & ->). apply (Hr _ _ Hp).
  - intros i t Hi. simpl. rewrite (members_count_same w (set_people ps w)); [by apply Hs|].
    intros k. simpl. specialize (Hps k).
    destruct (ps !! k), (w.(people) !! k); simpl in *; try discriminate; [|done].
    injection Hps as _ ->. done.
  - unfold anon_free in *. simpl. destruct (ps !! ""%string) as [p'|] eqn:E; [|done].
    destruct (Hrow _ _ E) as (p & Hp & _ & ->). by rewrite Hp in Ha.
Qed.

(** Saving a person row whose team exists, and which leaves no team but
    team -1 *)
Lemma consistent_save_person q w :
  consistent w ->
  (q.(Person.OpenId) = ""%string -> q.(Person.TeamId) = -1) ->
  (q.(Person.TeamId) = -1 \/ is_Some (w.(teams) !! q.(Person.TeamId))) ->
  (forall old, w.(people) !! q.(Person.OpenId) = Some old ->
     old.(Person.TeamId) = -1 \/ old.(Person.TeamId) = q.(Person.TeamId)) ->
  consistent (save_person q w).
Proof.
  intros (Hk & Hn & Hf & Hr & Hs & Ha) Hq Hqt Hold.
  split_and!; [by apply keyed_save_person | done | done | | |].
  - apply map_Forall_insert_2; [done|exact Hr].
  - intros i t Hi. destruct (Hs _ _ Hi) as [Hle H1]. split; [|done].
    assert (i <> -1) by (pose proof (ids_fresh_pos _ _ _ Hf Hi); lia).
    etrans; [exact Hle|]. apply inj_le, members_count_mono. intros k p Hp Ht. simpl.
    destruct (decide (k = q.(Person.OpenId))) as [->|Hne].
    + rewrite lookup_insert_eq. exists q. split; [done|].
      destruct (Hold _ Hp); congruence.
    + rewrite lookup_insert_ne by congruence. eauto.
  - unfold anon_free in *. simpl. destruct (decide (q.(Person.OpenId) = ""%string)) as [E|E].
    + rewrite E, lookup_insert_eq. auto.
    + by rewrite lookup_insert_ne by congruence.
Qed.

(** Saving a team row over an existing one *)
Lemma consistent_save_team t w :
  consistent w -> is_Some (w.(teams) !! t.(Team.ID)) ->
  t.(Team.StartNum) <= Z.of_nat (members_count w t.(Team.ID)) ->
  (t.(Team.Status) = 1 -> t.(Team.StartNum) = 0) ->
  consistent (save_team t w).
Proof.
  intros (Hk & Hn & Hf & Hr & Hs & Ha) [old Hold] Hle H1.
  split_and!; try done.
  - split; [apply Hk|]. apply map_Forall_insert_2; [done|apply Hk].
  - apply map_Forall_insert_2; [exact (Hf _ _ Hold)|exact Hf].
  - intros k p Hp. destruct (Hr _ _ Hp) as [?|Hi]; [by left|right]. simpl.
    destruct (decide (p.(Person.TeamId) = t.(Team.ID))) as [->|Hne];
      [by rewrite lookup_insert_eq | by rewrite lookup_insert_ne].
  - apply map_Forall_insert_2; [done|]. intros i u Hi. apply (Hs _ _ Hi).
Qed.

(** Deleting a team nobody belongs to *)
Lemma consistent_delete tid w :
  consistent w -> (forall k p, w.(people) !! k = Some p -> p.(Person.TeamId) <> tid) ->
  consistent (set_teams (delete tid w.(teams)) w).
Proof.
  intros (Hk & Hn & Hf & Hr & Hs & Ha) Hnone.
  split_and!; try done.
  - by apply keyed_delete_id.
  - by apply map_Forall_delete.
  - intros k p Hp. destruct (Hr _ _ Hp) as [?|Hi]; [by left|right]. simpl.
    rewrite lookup_delete_ne; [done|]. apply not_eq_sym, (Hnone _ _ Hp).
  - by apply map_Forall_delete.
Qed.

(** Creating a team that has not started *)
Lemma consistent_create_team t w :
  consistent w -> t.(Team.Status) = 1 -> t.(Team.StartNum) = 0 ->
  consistent (create_team t w).
Proof.
  intros (Hk & Hn & Hf & Hr & Hs & Ha) H1 H0.
  split_and!; try done; simpl.
  - by apply keyed_create_team.
  - lia.
  - apply map_Forall_insert_2; [simpl; lia|]. intros i u Hi. pose proof (Hf _ _ Hi) as Hb. cbn beta in *. simpl. lia.
  - intros k p Hp. destruct (Hr _ _ Hp) as [?|Hi]; [by left|right].
    apply lookup_insert_is_Some'. by right.
  - apply map_Forall_insert_2; [simpl; rewrite H0; split; [lia|done]|].
    intros i u Hi. apply (Hs _ _ Hi).
Qed.

End Writes.

(** ** The check-in handlers *)

Section CheckInKeeps.
Context `{WalkConfig}.

(** A loop of saves over a team's members that keeps open id and team *)
Lemma keeps_save_each {B} f tid (k : unit -> H B) w :
  keeps_key f -> (forall p p', f p = Some p' -> p'.(Person.TeamId) = p.(Person.TeamId)) ->
  keeps_at consistent (k tt) (set_people (member_update f tid <$> w.(people)) w) ->
  keeps_at consistent (hbind (save_each f (team_members w tid)) k) w.
Proof.
  intros Hf Ht Hk Hc. unfold keeps_at. rewrite hbind_save_each_members by (apply Hc || done).
  apply Hk, consistent_people; [done|]. intros j. rewrite lookup_fmap.
  destruct (w.(people) !! j) as [p|]; [|done]. simpl. unfold member_update.
  destruct (_ =? _); [|done]. destruct (f p) as [p'|] eqn:E; [|done]. simpl.
  by rewrite (Hf _ _ E), (Ht _ _ E).
Qed.

Lemma advance_keeps_team p p' : advance p = Some p' -> p'.(Person.TeamId) = p.(Person.TeamId).
Proof. unfold advance. destruct (_ =? _); by intros [= <-]. Qed.

Lemma finish_keeps_team p p' : finish p = Some p' -> p'.(Person.TeamId) = p.(Person.TeamId).
Proof. unfold finish. destruct (_ || _); by intros [= <-]. Qed.

Lemma consistent_with_progress s team pt st tm :
  consistent s -> s.(teams) !! team.(Team.ID) = Some team -> st <> 1 ->
  consistent (save_team (Team.with_progress pt st tm team) s).
Proof.
  intros Hc Ht Hst. pose proof Hc as (_ & _ & _ & _ & Hs & _).
  apply consistent_save_team; [done | by eexists | apply (Hs _ _ Ht) | done].
Qed.

Lemma consistent_with_start s team code num tm :
  consistent s -> s.(teams) !! team.(Team.ID) = Some team ->
  bind_scan (team_members s team.(Team.ID)) 0 = (true, num) ->
  consistent (save_team (Team.with_start code num tm team) s).
Proof.
  intros Hc Ht Hb. apply consistent_save_team; [done | by eexists | | done]. simpl.
  pose proof (bind_scan_fst (team_members s team.(Team.ID)) 0) as Hf.
  rewrite Hb in Hf. simpl in Hf.
  pose proof (bind_scan_snd _ 0 (eq_sym Hf)) as Hn. rewrite Hb in Hn. simpl in Hn. subst num.
  pose proof (count_if_members confirmed s team.(Team.ID)). lia.
Qed.

Lemma keyed_of_consistent w : consistent w -> keyed w.
Proof. by intros []. Qed.

Lemma checkin_keeps user w :
  (forall tf, keeps_at consistent (GetTeam user tf) w) /\
  (forall bf, keeps_at consistent (BindTeam user bf) w) /\
  (forall sf, keeps_at consistent (UpdateTeamStatus user sf) w) /\
  (forall pf, keeps_at consistent (PostDestination user pf) w).
Proof.
  split_and!; intros f;
    [unfold GetTeam | unfold BindTeam | unfold UpdateTeamStatus | unfold PostDestination];
    repeat first
      [ apply keeps_respond_error | apply keeps_respond_success
      | apply keeps_at_get; cbn beta
      | apply keeps_at_modify; [|apply keeps_respond_success]
      | apply keeps_save_each;
          [apply advance_keeps_key || apply finish_keeps_key
          | apply advance_keeps_team || apply finish_keeps_team |]
      | case_match ].
  all: intros Hc; pose proof (keyed_of_consistent _ Hc) as Hk.
  all: repeat match goal with H : negb ?b = false |- _ => apply negb_false_iff in H; subst b end.
  all: first
    [ eapply consistent_with_start; [done | eauto using GetTeamByID_found | done]
    | eapply consistent_with_progress;
        [done | eauto using GetTeamByID_found, lookup_team_found | lia] ].
Qed.

End CheckInKeeps.

(** ** UserStatus *)

Section UserStatusKeeps.
Context `{WalkConfig}.
Variable iter_order : gmap string Person.t -> list (string * Person.t).
Hypothesis iter_order_perm : forall m, iter_order m ≡ₚ map_to_list m.

Lemma userstatus_keeps user form w : keeps_at consistent (UserStatus iter_order user form) w.
Proof.
  intros Hc. destruct form as [[forms|]]; [|done].
  rewrite UserStatus_unfold.
  destruct (getUsersAndTeams w forms ∅ ∅) as [e|[um tm]] eqn:E; [done|].
  destruct (check_users _ _ _); [done|].
  destruct (UserStatus_write_path iter_order iter_order_perm forms w um tm (keyed_of_consistent _ Hc) E)
    as (w1 & Hr & Hw1 & Hp).
  rewrite (hbind_some _ _ _ _ _ _ Hr). simpl. rewrite Hw1.
  apply consistent_people; [done|]. intros k. rewrite Hp.
  destruct (last_status forms k); [|done]. by destruct (w.(people) !! k).
Qed.

End UserStatusKeeps.

(** ** Regroup and SubmitTeam *)

Section RegroupKeeps.
Context `{WalkConfig}.

(** Resetting the members of a team whose [StartNum] is 0 *)
Lemma consistent_reset_members tid s :
  consistent s -> tid <> -1 ->
  (forall t, s.(teams) !! tid = Some t -> t.(Team.StartNum) = 0) ->
  consistent (set_people (member_update (fun p => Some (reset p)) tid <$> s.(people)) s).
Proof.
  intros (Hk & Hn & Hf & Hr & Hs & Ha) Htid Hz.
  assert (Hrow : forall k q, (member_update (fun p => Some (reset p)) tid <$> s.(people)) !! k = Some q ->
            exists p, s.(people) !! k = Some p /\
              q = if p.(Person.TeamId) =? tid then reset p else p).
  { intros k q. rewrite lookup_fmap. destruct (s.(people) !! k) as [p|]; [|done].
    intros [= <-]. exists p. split; [done|]. unfold member_update. by destruct (_ =? _). }
  split_and!; [by apply keyed_members; [apply reset_keeps_key|] | done | done | | |].
  - intros k q Hq. destruct (Hrow _ _ Hq) as (p & Hp & ->).
    destruct (Z.eqb_spec p.(Person.TeamId) tid); [by left|]. apply (Hr _ _ Hp).
  - intros i t Hi. destruct (Hs _ _ Hi) as [Hle H1]. split; [|done].
    destruct (decide (i = tid)) as [->|Hne]; [rewrite (Hz _ Hi); lia|].
    etrans; [exact Hle|]. apply inj_le, members_count_mono. intros k p Hp Ht. simpl.
    rewrite lookup_fmap, Hp. simpl. eexists; split; [done|]. unfold member_update.
    by rewrite (proj2 (Z.eqb_neq _ _)) by congruence.
  - unfold anon_free in *. simpl. rewrite lookup_fmap.
    destruct (s.(people) !! ""%string) as [p|]; [|done]. simpl. unfold member_update.
    by rewrite (proj2 (Z.eqb_neq _ _)) by congruence.
Qed.

(** One turn of the dissolution loop, on a team that has not started *)
Lemma consistent_dissolved tid s :
  consistent s -> tid <> -1 ->
  (forall t, s.(teams) !! tid = Some t -> t.(Team.Status) = 1) ->
  consistent (dissolved tid s).
Proof.
  intros Hc Htid H1. pose proof Hc as (_ & _ & _ & _ & Hs & _).
  assert (Hc1 := consistent_reset_members tid s Hc Htid
                   (fun t Ht => proj2 (Hs _ _ Ht) (H1 _ Ht))).
  set (w1 := set_people _ s) in Hc1.
  assert (Hnot1 : forall k p, w1.(people) !! k = Some p -> p.(Person.TeamId) <> tid).
  { intros k p. simpl. rewrite lookup_fmap. destruct (s.(people) !! k) as [q|]; [|done].
    intros [= <-]. unfold member_update. destruct (Z.eqb_spec q.(Person.TeamId) tid); simpl; done. }
  unfold dissolved. fold w1.
  destruct (list_find _ _); apply consistent_delete.
  - exact Hc1.
  - exact Hnot1.
  - apply consistent_save_person; [done | done | by left |].
    intros old Hold. left. destruct Hc1 as (_ & _ & _ & _ & _ & Ha). unfold anon_free in Ha.
    assert (Hkey : Person.OpenId (reset zero_person) = ""%string) by reflexivity.
    rewrite Hkey in Hold. by rewrite Hold in Ha.
  - intros k p. simpl. destruct (decide (k = ""%string)) as [->|Hne].
    + rewrite lookup_insert_eq. intros [= <-]. simpl. done.
    + rewrite lookup_insert_ne by congruence. apply Hnot1.
Qed.

Lemma consistent_leave s p : consistent s -> unstarted s p -> consistent (leave s p).
Proof.
  intros Hc Hu. unfold leave. destruct (Z.eqb_spec p.(Person.TeamId) (-1)) as [E|E]; [done|].
  apply consistent_dissolved; [done|done|]. by destruct Hu.
Qed.

Lemma unstarted_leave s q p : unstarted s p -> unstarted (leave s q) p.
Proof.
  intros [?|Hu]; [by left|right]. intros t. rewrite teams_leave.
  destruct (_ =? -1); [apply Hu|]. intros Ht. apply Hu.
  by apply lookup_delete_Some in Ht as [_ ?].
Qed.

Lemma consistent_foldl_leave ps s :
  consistent s -> Forall (unstarted s) ps -> consistent (foldl leave s ps).
Proof.
  revert s. induction ps as [|p ps IH]; intros s Hc Hu; [done|].
  apply Forall_cons in Hu as [Hp Hu]. simpl. apply IH.
  - by apply consistent_leave.
  - eapply Forall_impl; [exact Hu|]. intros q. apply unstarted_leave.
Qed.

Lemma consistent_join C tid st p :
  consistent C -> is_Some (C.(teams) !! tid) -> joins C tid p ->
  consistent (save_person (Person.set_team tid st p) C).
Proof.
  intros Hc Ht [Hne Hold]. apply consistent_save_person; [done | done | by right | exact Hold].
Qed.

Lemma joins_save C tid st p q :
  joins C tid q -> joins (save_person (Person.set_team tid st p) C) tid q.
Proof.
  intros [Hne Hold]. split; [done|]. intros old. simpl.
  destruct (decide (q.(Person.OpenId) = p.(Person.OpenId))) as [E|E].
  - rewrite E, lookup_insert_eq. intros [= <-]. by right.
  - rewrite lookup_insert_ne by congruence. apply Hold.
Qed.

Lemma consistent_assign tid st ps C :
  consistent C -> is_Some (C.(teams) !! tid) -> Forall (joins C tid) ps ->
  consistent (set_people (save_list Person.OpenId (fun p => Some (Person.set_team tid st p)) ps
                                    C.(people)) C).
Proof.
  revert C. induction ps as [|p ps IH]; intros C Hc Ht Hps; [by destruct C|].
  apply Forall_cons in Hps as [Hp Hps].
  change (consistent (set_people (save_list Person.OpenId (fun p => Some (Person.set_team tid st p))
            ps (save_person (Person.set_team tid st p) C).(people))
            (save_person (Person.set_team tid st p) C))).
  apply IH; [by apply consistent_join | done |].
  eapply Forall_impl; [exact Hps|]. intros q. apply joins_save.
Qed.

End RegroupKeeps.

Section RegroupRunKeeps.
Context `{WalkConfig}.
Variable ParseToken : string -> option string.
(** A token carries a non-empty open id. *)
Hypothesis ParseToken_nonempty : forall jwt oid, ParseToken jwt = Some oid -> oid <> ""%string.

Lemma scannable_unstarted w p : scannable w p -> unstarted w p.
Proof.
  intros [_ [?|(t & Ht & Hs)]]; [by left|right]. intros t' Ht'. congruence.
Qed.

(** The participants, after the dissolution loop, belong to no team *)
Lemma participants_join ps w tid p :
  keyed w -> scannable w p -> p ∈ ps -> p.(Person.OpenId) <> ""%string ->
  joins (foldl leave w ps) tid p.
Proof.
  intros Hk [Hp _] Hin Hne. split; [done|]. intros old.
  rewrite people_foldl_leave by done. rewrite Hp. simpl. intros [= <-]. left.
  destruct (Z.eqb_spec p.(Person.TeamId) (-1)) as [E|E].
  - rewrite E, dissolves_neg1. exact E.
  - rewrite (proj2 (dissolves_spec ps _)) by eauto. reflexivity.
Qed.

Lemma regroup_keeps f w : keeps_at consistent (Regroup ParseToken f) w.
Proof.
  intros Hc. pose proof (keyed_of_consistent _ Hc) as Hk.
  destruct (Regroup ParseToken f w) as [[r w'] o] eqn:E. simpl.
  destruct (Regroup_cases ParseToken f w r w' o Hk E)
    as [[-> _]|(p0 & rest & o1 & t & _ & _ & Esc & Ht & -> & _ & _)]; [done|].
  assert (Hsc : forall p, p ∈ p0 :: rest -> scannable w p /\ p.(Person.OpenId) <> ""%string).
  { intros p Hp. destruct (scan_jwts_scannable _ _ _ _ _ _ _ _ _ Hk Esc p Hp)
      as [Hin|[Hs [jwt Hj]]]; [by apply not_elem_of_nil in Hin|].
    split; [done|]. exact (ParseToken_nonempty _ _ Hj). }
  set (F := foldl leave w (p0 :: rest)).
  set (C := create_team (new_team f.(rg_Route) (p0 :: rest) p0.(Person.OpenId) w.(clock)) F).
  assert (HF : consistent F).
  { apply consistent_foldl_leave; [done|]. apply Forall_forall. intros p Hp.
    apply scannable_unstarted, (Hsc p Hp). }
  assert (HC : consistent C) by (by apply consistent_create_team).
  assert (Hti : is_Some (C.(teams) !! t.(Team.ID))).
  { destruct HC as [[_ HkC] _]. eexists. apply (first_team_Some _ _ _ HkC Ht). }
  assert (Hj : forall p, p ∈ p0 :: rest -> joins C t.(Team.ID) p).
  { intros p Hp. destruct (Hsc p Hp) as [Hs Hne]. by apply participants_join. }
  eapply consistent_tables; [|done|done|done].
  change (consistent (set_people
    (save_list Person.OpenId (fun p => Some (Person.set_team t.(Team.ID) 1 p)) rest
       (save_person (Person.set_team t.(Team.ID) 2 p0) C).(people))
    (save_person (Person.set_team t.(Team.ID) 2 p0) C))).
  apply consistent_assign; [apply consistent_join; auto with set_solver | done |].
  apply Forall_forall. intros p Hp. apply joins_save, Hj. set_solver.
Qed.

End RegroupRunKeeps.

(** ** SubmitTeam, StudentRegister, CreateRouteAdmin and the reports *)

Section OtherKeeps.
Context `{WalkConfig}.

Lemma consistent_with_submit s team :
  consistent s -> s.(teams) !! team.(Team.ID) = Some team ->
  consistent (save_team (Team.with_submit team) s).
Proof.
  intros Hc Ht. pose proof Hc as (_ & _ & _ & _ & Hs & _).
  apply consistent_save_team; [done | by eexists | apply (Hs _ _ Ht) | apply (Hs _ _ Ht)].
Qed.

Lemma consistent_redis_sadd s w : consistent w -> consistent (redis_sadd s w).
Proof. intros Hc. by apply (consistent_tables w). Qed.

Lemma consistent_add_admins c w : consistent w -> consistent (add_admins c w).
Proof. intros Hc. by apply (consistent_tables w). Qed.

Lemma submitteam_keeps f w : keeps_at consistent (SubmitTeam f) w.
Proof.
  unfold SubmitTeam. keeps_steps.
  apply keeps_at_modify; [|apply keeps_at_modify; [apply consistent_redis_sadd|keeps_steps]].
  intros Hc. apply consistent_with_submit; [done|].
  eapply GetTeamByID_found; [apply Hc|eassumption].
Qed.

Lemma reports_keep w :
  (forall f, keeps_at consistent (GetDetail f) w) /\
  (forall f, keeps_at consistent (GetSubmitDetail f) w) /\
  (forall f, keeps_at consistent (GetTeamBySecret f) w).
Proof. split_and!; intros f; [unfold GetDetail | unfold GetSubmitDetail | unfold GetTeamBySecret]; keeps_steps. Qed.

Lemma keeps_insert_person q s :
  q.(Person.TeamId) = -1 -> keeps_at consistent (insert_person q) s.
Proof.
  intros Hq Hc. unfold insert_person. rewrite hbind_get.
  destruct (s.(people) !! q.(Person.OpenId)) eqn:E; [done|].
  rewrite hbind_modify. simpl. apply consistent_save_person; [done | auto | by left |].
  intros old. by rewrite E.
Qed.

Lemma register_keeps ParseToken GetUserInfo auth d w :
  keeps_at consistent (StudentRegister ParseToken GetUserInfo auth d) w.
Proof.
  unfold StudentRegister. keeps_steps.
  apply keeps_at_bind; [by apply keeps_insert_person|]. intros a s1 o1 _. destruct a; keeps_steps.
Qed.

Lemma process_step_readonly rand_read data point st :
  readonly (process_step rand_read data point st).
Proof.
  unfold process_step. destruct (processData _ _ _ _ _) as [[? ?] failed].
  apply readonly_bind; [destruct failed; unfold respond_error|]; auto with walk.
Qed.

Lemma admin_keeps rand_read f w : keeps_at consistent (CreateRouteAdmin rand_read f) w.
Proof.
  unfold CreateRouteAdmin. keeps_steps.
  repeat (apply keeps_at_bind; [apply keeps_at_readonly, process_step_readonly|]; intros ? ? ? _).
  keeps_steps. apply keeps_at_modify; [apply consistent_add_admins | keeps_steps].
Qed.

End OtherKeeps.

(** ** Every reachable database is consistent *)

Section Reachable.
Context `{WalkConfig}.
Variable iter_order : gmap string Person.t -> list (string * Person.t).
Variable ParseToken : string -> option string.
Hypothesis iter_order_perm : forall m, iter_order m ≡ₚ map_to_list m.
Hypothesis ParseToken_nonempty : forall jwt oid, ParseToken jwt = Some oid -> oid <> ""%string.

Lemma serve_keeps req w : keeps_at consistent (serve iter_order ParseToken req) w.
Proof.
  pose proof (reports_keep w) as (R1 & R2 & R3).
  destruct req as [user f|user f|user f|user f|user f|f|f|f|f|f|GetUserInfo auth d|rand_read f];
    simpl; try pose proof (checkin_keeps user w) as (C1 & C2 & C3 & C4);
    auto using userstatus_keeps, regroup_keeps, submitteam_keeps, register_keeps, admin_keeps.
Qed.

Lemma step_consistent w w' : step iter_order ParseToken w w' -> consistent w -> consistent w'.
Proof.
  intros Hs Hc. inversion Hs as [req w0 r w1 o E]; subst.
  pose proof (serve_keeps req w Hc) as K. by rewrite E in K.
Qed.

(** C1: the data-model invariant of the specification holds in every
    database the handlers can reach from one where it holds: a person's
    TeamId is -1 or the id of an existing team, and a team's StartNum is
    at most its number of members; with them the tables stay keyed by
    their primary keys, team ids stay positive and below the counter, a
    team that has not started has StartNum 0, and the row under the empty
    open id belongs to no team.  Any sequence of requests to any handler
    keeps it, runs that panic included, given that a JWT never carries an
    empty open id. *)
Theorem reachable_consistent w w' :
  consistent w -> rtc (step iter_order ParseToken) w w' ->
  consistent w' /\
  (forall k p, w'.(people) !! k = Some p ->
     p.(Person.TeamId) = -1 \/ is_Some (w'.(teams) !! p.(Person.TeamId))) /\
  (forall i t, w'.(teams) !! i = Some t -> t.(Team.StartNum) <= Z.of_nat (members_count w' i)).
Proof.
  intros Hc Hr. assert (Hc' : consistent w').
  { induction Hr as [w|w1 w2 w3 Hs _ IH]; [done|]. apply IH. by apply (step_consistent w1). }
  destruct Hc' as (Hk & Hn & Hf & Hr' & Hs & Ha). split_and!; [done | exact Hr' |].
  intros i t Ht. apply (Hs _ _ Ht).
Qed.

End Reachable.

Section InvariantWitnesses.
Import Samples RegroupSamples InvariantSamples.

Lemma token_id_nonempty jwt oid : token_id jwt = Some oid -> oid <> ""%string.
Proof. unfold token_id. destruct (String.eqb_spec jwt ""); [done|]. by intros [= <-]. Qed.

Lemma run_all_reachable reqs w : rtc (step map_to_list token_id) w (run_all reqs w).
Proof.
  revert w. induction reqs as [|req reqs IH]; intros w; [apply rtc_refl|].
  eapply rtc_l; [|apply IH]. eapply step_serve, triple_eta.
Defined.

Lemma reachable_consistent_witness : consistent (run_all trace w_regroup).
Proof.
  apply (reachable_consistent map_to_list token_id (fun m => reflexivity _) token_id_nonempty
           w_regroup (run_all trace w_regroup)
           ltac:(apply (bool_decide_unpack _); vm_compute; reflexivity)
           (run_all_reachable trace w_regroup)).
Defined.

End InvariantWitnesses.
