(* ===== verification/Codes.v ===== *)
(** * Status codes stay codes

    The handlers keep two small enumerations in the database: a person's
    walk status and a team's status, each one of the codes 1 to 5 (their
    meaning is listed in Model.v and in the findings).  [codes_ok] says
    that every row carries one of the five codes, in well-keyed tables.
    Every request to every handler keeps it, runs that panic included:
    each write stores a literal code, a code read from the database, or
    the row it read with its code unchanged. *)

From Stdlib Require Import ZArith Lia.
From stdpp Require Import base gmap strings list.
From S2P Require Import Prelude Model Samples CheckIn UserStatus Regroup Report Register Admin Invariants.

Local Open Scope Z_scope.
Local Open Scope handler_scope.

Definition walk_code (p : Person.t) : Prop := 1 <= p.(Person.WalkStatus) <= 5.
Definition team_code (t : Team.t) : Prop := 1 <= t.(Team.Status) <= 5.

Definition codes_ok (w : World) : Prop :=
  keyed w /\ map_Forall (fun _ p => walk_code p) w.(people) /\
  map_Forall (fun _ t => team_code t) w.(teams).

#[export] Instance codes_ok_dec w : Decision (codes_ok w).
Proof. unfold codes_ok, walk_code, team_code. apply _. Defined.

(** ** The writes *)

Section CodesWrites.

Lemma codes_tables w w' :
  codes_ok w -> w'.(people) = w.(people) -> w'.(teams) = w.(teams) -> codes_ok w'.
Proof. intros Hc Hp Ht. destruct w, w'; simpl in *; subst. exact Hc. Qed.

Lemma codes_save_person q w : codes_ok w -> walk_code q -> codes_ok (save_person q w).
Proof.
  intros (Hk & Hp & Ht) Hq. split_and!; [by apply keyed_save_person | | done].
  by apply map_Forall_insert_2.
Qed.

Lemma codes_save_team t w : codes_ok w -> team_code t -> codes_ok (save_team t w).
Proof.
  intros ([Hkp Hkt] & Hp & Ht) Hq. split_and!; [split | done |]; try done;
    by apply map_Forall_insert_2.
Qed.

Lemma codes_members f tid w :
  keeps_key f -> (forall p p', f p = Some p' -> walk_code p') ->
  codes_ok w -> codes_ok (set_people (member_update f tid <$> w.(people)) w).
Proof.
  intros Hf Hw (Hk & Hp & Ht). split_and!; [by apply keyed_members | | done].
  intros k p. simpl. rewrite lookup_fmap. destruct (w.(people) !! k) as [q|] eqn:E; [|done].
  intros [= <-]. unfold member_update. destruct (_ =? _); [|exact (Hp _ _ E)].
  destruct (f q) as [q'|] eqn:Hq; [exact (Hw _ _ Hq) | exact (Hp _ _ E)].
Qed.

Lemma codes_delete tid w : codes_ok w -> codes_ok (set_teams (delete tid w.(teams)) w).
Proof.
  intros (Hk & Hp & Ht). split_and!; [by apply keyed_delete_id | done |].
  by apply map_Forall_delete.
Qed.

Lemma codes_create_team t w : codes_ok w -> team_code t -> codes_ok (create_team t w).
Proof.
  intros (Hk & Hp & Ht) Hq. split_and!; [by apply keyed_create_team | done |].
  by apply map_Forall_insert_2.
Qed.

End CodesWrites.

(** ** The handlers *)

Section CodesKeeps.
Context `{WalkConfig}.

Lemma codes_save_each {B} f tid (k : unit -> H B) w :
  keeps_key f -> (forall p p', f p = Some p' -> walk_code p') ->
  keeps_at codes_ok (k tt) (set_people (member_update f tid <$> w.(people)) w) ->
  keeps_at codes_ok (hbind (save_each f (team_members w tid)) k) w.
Proof.
  intros Hf Hw Hk Hc. unfold keeps_at. rewrite hbind_save_each_members by (apply Hc || done).
  by apply Hk, codes_members.
Qed.

Lemma advance_code p p' : advance p = Some p' -> walk_code p'.
Proof. unfold advance, walk_code. destruct (_ =? _); intros [= <-]; simpl; lia. Qed.

Lemma finish_code p p' : finish p = Some p' -> walk_code p'.
Proof. unfold finish, walk_code. destruct (_ || _); intros [= <-]; simpl; lia. Qed.

Lemma checkin_codes user w :
  (forall tf, keeps_at codes_ok (GetTeam user tf) w) /\
  (forall bf, keeps_at codes_ok (BindTeam user bf) w) /\
  (forall sf, keeps_at codes_ok (UpdateTeamStatus user sf) w) /\
  (forall pf, keeps_at codes_ok (PostDestination user pf) w).
Proof.
  split_and!; intros f;
    [unfold GetTeam | unfold BindTeam | unfold UpdateTeamStatus | unfold PostDestination];
    repeat first
      [ progress keeps_steps
      | apply keeps_at_modify; [intros Hc; apply codes_save_team; [done | unfold team_code; simpl; lia]
                               | keeps_steps]
      | apply codes_save_each;
          [apply advance_keeps_key || apply finish_keeps_key
          | apply advance_code || apply finish_code |] ].
Qed.

Lemma apply_status_codes forms users s :
  keeps_at codes_ok (apply_status forms users) s.
Proof.
  revert users s. induction forms as [|f fs IH]; intros users s; simpl; [apply keeps_at_ret|].
  destruct (users !! _) as [p|]; [|apply keeps_at_panic].
  apply keeps_at_modify; [|apply IH]. intros Hc. apply codes_save_person; [done|].
  unfold walk_code, new_walk_status. simpl. destruct (_ =? 1); lia.
Qed.

Lemma userstatus_codes iter_order user form w :
  keeps_at codes_ok (UserStatus iter_order user form) w.
Proof.
  unfold UserStatus. keeps_steps.
  apply keeps_at_bind; [apply apply_status_codes|]. intros. keeps_steps.
Qed.

Lemma codes_leave s p : codes_ok s -> codes_ok (leave s p).
Proof.
  intros Hc. unfold leave, dissolved. destruct (_ =? -1); [done|].
  assert (H1 := codes_members (fun p => Some (reset p)) p.(Person.TeamId) s reset_keeps_key
                  (fun q q' E => ltac:(injection E as <-; unfold walk_code; simpl; lia)) Hc).
  destruct (list_find _ _); apply codes_delete; [done|].
  apply codes_save_person; [done | unfold walk_code; simpl; lia].
Qed.

Lemma codes_foldl_leave ps s : codes_ok s -> codes_ok (foldl leave s ps).
Proof.
  revert s. induction ps as [|p ps IH]; intros s Hc; [done|]. apply IH, codes_leave, Hc.
Qed.

Lemma codes_assign tid st ps C :
  codes_ok C -> Forall walk_code ps ->
  codes_ok (set_people (save_list Person.OpenId (fun p => Some (Person.set_team tid st p)) ps
                                  C.(people)) C).
Proof.
  revert C. induction ps as [|p ps IH]; intros C Hc Hps; [by destruct C|].
  apply Forall_cons in Hps as [Hp Hps].
  change (codes_ok (set_people (save_list Person.OpenId (fun p => Some (Person.set_team tid st p))
            ps (save_person (Person.set_team tid st p) C).(people))
            (save_person (Person.set_team tid st p) C))).
  apply IH; [by apply codes_save_person | done].
Qed.

Lemma regroup_codes ParseToken f w : keeps_at codes_ok (Regroup ParseToken f) w.
Proof.
  intros Hc. pose proof Hc as (Hk & Hwp & _).
  destruct (Regroup ParseToken f w) as [[r w'] o] eqn:E. simpl.
  destruct (Regroup_cases ParseToken f w r w' o Hk E)
    as [[-> _]|(p0 & rest & o1 & t & _ & _ & Esc & _ & -> & _ & _)]; [done|].
  assert (Hps : Forall walk_code (p0 :: rest)).
  { apply Forall_forall. intros p Hp.
    destruct (scan_jwts_scannable _ _ _ _ _ _ _ _ _ Hk Esc p Hp) as [Hin|[[Hget _] _]];
      [by apply not_elem_of_nil in Hin | exact (Hwp _ _ Hget)]. }
  set (C := create_team (new_team f.(rg_Route) (p0 :: rest) p0.(Person.OpenId) w.(clock))
                        (foldl leave w (p0 :: rest))).
  assert (HC : codes_ok C).
  { apply codes_create_team; [by apply codes_foldl_leave | unfold team_code; simpl; lia]. }
  apply Forall_cons in Hps as [Hp0 Hrest].
  eapply codes_tables; [|done|done].
  change (codes_ok (set_people
    (save_list Person.OpenId (fun p => Some (Person.set_team t.(Team.ID) 1 p)) rest
       (save_person (Person.set_team t.(Team.ID) 2 p0) C).(people))
    (save_person (Person.set_team t.(Team.ID) 2 p0) C))).
  apply codes_assign; [by apply codes_save_person | done].
Qed.

Lemma others_codes w :
  (forall f, keeps_at codes_ok (SubmitTeam f) w) /\
  (forall f, keeps_at codes_ok (GetDetail f) w) /\
  (forall f, keeps_at codes_ok (GetSubmitDetail f) w) /\
  (forall f, keeps_at codes_ok (GetTeamBySecret f) w) /\
  (forall ParseToken GetUserInfo auth d,
     keeps_at codes_ok (StudentRegister ParseToken GetUserInfo auth d) w) /\
  (forall rand_read f, keeps_at codes_ok (CreateRouteAdmin rand_read f) w).
Proof.
  split_and!; intros.
  - unfold SubmitTeam. keeps_steps.
    apply keeps_at_modify; [|apply keeps_at_modify; [intros; by eapply codes_tables | keeps_steps]].
    intros (Hk & Hp & Ht). apply codes_save_team; [done|].
    match goal with E : GetTeamByID _ _ = Some _ |- _ => exact (Ht _ _ E) end.
  - unfold GetDetail. keeps_steps.
  - unfold GetSubmitDetail. keeps_steps.
  - unfold GetTeamBySecret. keeps_steps.
  - unfold StudentRegister. keeps_steps.
    apply keeps_at_bind; [|intros [] ? ? _; keeps_steps].
    intros Hc. unfold insert_person. rewrite hbind_get. case_match; [done|].
    rewrite hbind_modify. simpl. apply codes_save_person; [done | unfold walk_code; simpl; lia].
  - unfold CreateRouteAdmin. keeps_steps.
    repeat (apply keeps_at_bind; [apply keeps_at_readonly, process_step_readonly|]; intros ? ? ? _).
    keeps_steps. apply keeps_at_modify; [intros; by eapply codes_tables | keeps_steps].
Qed.

End CodesKeeps.

(** ** Every reachable database keeps its codes *)

Section CodesReachable.
Context `{WalkConfig}.
Variable iter_order : gmap string Person.t -> list (string * Person.t).
Variable ParseToken : string -> option string.

Lemma serve_codes req w : keeps_at codes_ok (serve iter_order ParseToken req) w.
Proof.
  pose proof (others_codes w) as (S1 & S2 & S3 & S4 & S5 & S6).
  destruct req as [user f|user f|user f|user f|user f|f|f|f|f|f|GetUserInfo auth d|rand_read f];
    simpl; try pose proof (checkin_codes user w) as (C1 & C2 & C3 & C4);
    auto using userstatus_codes, regroup_codes.
Qed.

(** C37: the status columns stay codes: in every database reachable
    from one whose rows carry walk statuses and team statuses between 1
    and 5 (in keyed tables), by any sequence of requests to any handler,
    every person's walk status and every team's status is still between
    1 and 5. *)
Theorem reachable_codes w w' :
  codes_ok w -> rtc (step iter_order ParseToken) w w' ->
  (forall k p, w'.(people) !! k = Some p -> 1 <= p.(Person.WalkStatus) <= 5) /\
  (forall i t, w'.(teams) !! i = Some t -> 1 <= t.(Team.Status) <= 5).
Proof.
  intros Hc Hr. assert (Hc' : codes_ok w').
  { induction Hr as [w|w1 w2 w3 Hs _ IH]; [done|]. apply IH.
    inversion Hs as [req w0 r w4 o Erun]; subst.
    pose proof (serve_codes req w1 Hc) as K. by rewrite Erun in K. }
  destruct Hc' as (_ & Hp & Ht). split; [exact Hp | exact Ht].
Qed.

End CodesReachable.

Section CodesWitnesses.
Import Samples RegroupSamples InvariantSamples.

Lemma reachable_codes_witness :
  map_Forall (fun _ p => 1 <= p.(Person.WalkStatus) <= 5) (run_all trace w_regroup).(people).
Proof.
  exact (proj1 (reachable_codes map_to_list token_id w_regroup (run_all trace w_regroup)
                  ltac:(apply (bool_decide_unpack _); vm_compute; reflexivity)
                  (run_all_reachable trace w_regroup))).
Defined.

End CodesWitnesses.
